(** * gotradebot: the engine supervisor core

    A shallow embedding of [engine/connection_manager.go] and
    [engine/engine.go]: the connectivity-monitor subsystem with its
    atomic start flag, the engine's startup and shutdown sequencers, and
    the command line flag helper [FlagSet.WithBool]; and of what the
    shutdown calls in packages [config] and [common] to save the
    configuration: [SaveConfigToFile], [Save], [GetFilePath],
    [GetExecutablePath] and [GetDefaultDataDir].

    Go pointers are locations in typed stores, [nil] is [None]; a method
    called on a pointer receiver therefore takes an [option loc].  Code
    with effects is written in a state monad over [World] whose results
    distinguish a normal return, a run-time panic and a call that never
    returns.  Everything this code calls whose source is not at hand (the
    connectivity checker, the other managers, the loggers, the operating
    system and the file system) is a collaborator: the call is recorded
    in the world's trace and its answer is supplied by an environment
    [Env] as a function of the history so far. *)

From Stdlib Require Import ZArith Lia Bool.
From stdpp Require Import base gmap strings list fin_maps.

Local Open Scope string_scope.
Local Open Scope list_scope.
Local Open Scope Z_scope.

Abbreviation loc := positive (only parsing).

(** ** Errors *)

(** The sentinel errors of [connection_manager.go], values made by
    [errors.New] in place, errors coming out of other packages, and
    [fmt.Errorf] with a single [%w] verb. *)
Inductive error : Type :=
| ErrSubSystemAlreadyStarted
| ErrSubSystemNotStarted
| ErrNilSubsystem
| errNilWaitGroup
| errNilExchangeManager
| errNilDatabaseConnectionManager
| errNilConfig
| errConnectionCheckerIsNil
| errors_New (text : string)
| External (text : string)
| Errorf_w (format : string) (wrapped : error).

Global Instance error_eq_dec : EqDecision error.
Proof. solve_decision. Defined.

(** [errors.Is]: the error itself or anything on its [%w] chain. *)
Fixpoint errors_Is (err target : error) : bool :=
  bool_decide (err = target) ||
  match err with
  | Errorf_w _ inner => errors_Is inner target
  | _ => false
  end.

(** The text of the sentinels, as declared in the source. *)
Definition sentinel_text (e : error) : string :=
  match e with
  | ErrSubSystemAlreadyStarted => "subsystem already started"
  | ErrSubSystemNotStarted => "subsystem not started"
  | ErrNilSubsystem => "subsystem not setup"
  | errNilWaitGroup => "nil wait group received"
  | errNilExchangeManager => "cannot start with nil exchange manager"
  | errNilDatabaseConnectionManager =>
      "cannot start with nil database connection manager"
  | errNilConfig => "received nil config"
  | errConnectionCheckerIsNil => "connection checker is nil"
  | errors_New t => t
  | External t => t
  | Errorf_w f _ => f
  end.

(** ** Data model *)

(** A Go slice of strings: [None] is the nil slice. *)
Abbreviation slice := (option (list string)) (only parsing).

Module config.

(** [ConnectionMonitorConfig]; [CheckInterval] is a [time.Duration], a
    signed 64-bit count of nanoseconds. *)
Record ConnectionMonitorConfig : Type := mkConnectionMonitorConfig {
  DNSList : slice;
  PublicDomainList : slice;
  CheckInterval : Z
}.

Definition set_DNSList (v : slice) (c : ConnectionMonitorConfig) :=
  {| DNSList := v; PublicDomainList := PublicDomainList c;
     CheckInterval := CheckInterval c |}.

Definition set_PublicDomainList (v : slice) (c : ConnectionMonitorConfig) :=
  {| DNSList := DNSList c; PublicDomainList := v;
     CheckInterval := CheckInterval c |}.

Definition set_CheckInterval (v : Z) (c : ConnectionMonitorConfig) :=
  {| DNSList := DNSList c; PublicDomainList := PublicDomainList c;
     CheckInterval := v |}.

(** [portfolio.Base], the address book kept in the configuration. *)
Inductive portfolio_Base : Type := BaseOf (addresses : list string).

(** The constants of package [config] used when the file is saved. *)
Definition EncryptedFile : string := "config.dat".
Definition File : string := "config.json".
Definition fileEncryptionPrompt : Z := 0.
Definition fileEncryptionEnabled : Z := 1.
Definition fileEncryptionDisabled : Z := -1.

(** The members of [Config] that the engine and [Save] read or write.
    [ConnectionMonitor] is the address of the embedded
    [ConnectionMonitorConfig], what [&bot.Config.ConnectionMonitor]
    evaluates to; [Logging_Enabled] is [Logging.Enabled], a [*bool];
    [sessionDK] and [storedSalt] are byte slices of which the code reads
    the length only. *)
Record Config : Type := mkConfig {
  Name : string;
  ConnectionMonitor : loc;
  NTPClient_Level : Z;
  Logging_Enabled : option bool;
  Logging_Output : string;
  Portfolio : portfolio_Base;
  EncryptConfig : Z;
  storedSalt : list Byte.byte;
  sessionDK : list Byte.byte
}.

Definition set_Portfolio (p : portfolio_Base) (c : Config) : Config :=
  {| Name := Name c; ConnectionMonitor := ConnectionMonitor c;
     NTPClient_Level := NTPClient_Level c;
     Logging_Enabled := Logging_Enabled c;
     Logging_Output := Logging_Output c; Portfolio := p;
     EncryptConfig := EncryptConfig c; storedSalt := storedSalt c;
     sessionDK := sessionDK c |}.

(** [c.sessionDK, c.storedSalt = sessionDK, storedSalt] *)
Definition set_session (dk salt : list Byte.byte) (c : Config) : Config :=
  {| Name := Name c; ConnectionMonitor := ConnectionMonitor c;
     NTPClient_Level := NTPClient_Level c;
     Logging_Enabled := Logging_Enabled c;
     Logging_Output := Logging_Output c; Portfolio := Portfolio c;
     EncryptConfig := EncryptConfig c; storedSalt := salt;
     sessionDK := dk |}.

End config.

Global Instance ConnectionMonitorConfig_eq_dec : EqDecision config.ConnectionMonitorConfig.
Proof. solve_decision. Defined.

Global Instance portfolio_Base_eq_dec : EqDecision config.portfolio_Base.
Proof. solve_decision. Defined.

(** A [*connchecker.Checker]: the package is a collaborator, a checker is
    known by its identity only. *)
Inductive Checker : Type := CheckerRef (id : nat).

Global Instance Checker_eq_dec : EqDecision Checker.
Proof. solve_decision. Defined.

(** [connectionManager]: [started] is the [int32] read and written with
    [sync/atomic], [conn] and [cfg] are pointers. *)
Record connectionManager : Type := mkConnectionManager {
  started : Z;
  conn : option Checker;
  cfg : option loc
}.

Global Instance connectionManager_eq_dec : EqDecision connectionManager.
Proof. solve_decision. Defined.

Definition set_started (v : Z) (m : connectionManager) : connectionManager :=
  {| started := v; conn := conn m; cfg := cfg m |}.

Definition set_conn (c : option Checker) (m : connectionManager) : connectionManager :=
  {| started := started m; conn := c; cfg := cfg m |}.

(** *** The engine *)

(** The lifecycle-managed subsystems the engine starts and stops.  Only
    [SubConnection] has its implementation in the sources modelled
    here. *)
Inductive Sub : Type :=
| SubGCTScript | SubOrder | SubEvent | SubNTP | SubComms | SubPortfolio
| SubConnection | SubRESTServer | SubWebsocketServer | SubDataHistory
| SubDatabase | SubDispatch | SubWebsocketRoutine | SubCurrencyState
| SubSync.

Global Instance Sub_eq_dec : EqDecision Sub.
Proof. solve_decision. Defined.

(** Pointer fields of [Engine] that [Start] and [Stop] use and whose
    declarations are not in the struct as the sources give it. *)
Inductive Field : Type :=
| gctScriptManager | ExchangeManager | ntpManager | CommunicationsManager
| portfolioManager | dataHistoryManager | WithdrawManager | apiServer
| DepositAddressManager | OrderManager | currencyPairSyncer | eventManager
| websocketRoutineManager | currencyStateManager.

Global Instance Field_eq_dec : EqDecision Field.
Proof. solve_decision. Defined.

(** The members of [Settings] that [Start] and [Stop] branch on. *)
Record Settings : Type := mkSettings {
  ConfigFile : string;
  DataDir : string;
  EnableDryRun : bool;
  EnableDatabaseManager : bool;
  EnableDispatcher : bool;
  EnableConnectivityMonitor : bool;
  EnableNTPClient : bool;
  ExchangePurgeCredentials : bool;
  EnableCommsRelayer : bool;
  EnableGRPC : bool;
  EnablePortfolioManager : bool;
  EnableDataHistoryManager : bool;
  EnableDeprecatedRPC : bool;
  EnableWebsocketRPC : bool;
  EnableDepositAddressManager : bool;
  EnableOrderManager : bool;
  EnableExchangeSyncManager : bool;
  EnableEventManager : bool;
  EnableWebsocketRoutine : bool;
  EnableGCTScriptManager : bool;
  EnableCurrencyStateManager : bool
}.

(** [Engine].  Its [ServicesWG] is a [sync.WaitGroup]: the engine hands
    its address to the services and waits on it, and never moves its
    counter itself, so the counter is not a member here; see
    [ServicesWG_Wait_on]. *)
Record Engine : Type := mkEngine {
  bot_Config : option loc;
  bot_connectionManager : option loc;
  bot_DatabaseManager : option loc;
  bot_Settings : Settings;
  bot_uptime : Z;
  bot_others : Field -> option loc
}.

Definition set_connectionManager (v : option loc) (e : Engine) : Engine :=
  {| bot_Config := bot_Config e; bot_connectionManager := v;
     bot_DatabaseManager := bot_DatabaseManager e; bot_Settings := bot_Settings e;
     bot_uptime := bot_uptime e; bot_others := bot_others e |}.

Definition set_DatabaseManager (v : option loc) (e : Engine) : Engine :=
  {| bot_Config := bot_Config e; bot_connectionManager := bot_connectionManager e;
     bot_DatabaseManager := v; bot_Settings := bot_Settings e;
     bot_uptime := bot_uptime e; bot_others := bot_others e |}.

Definition set_uptime (v : Z) (e : Engine) : Engine :=
  {| bot_Config := bot_Config e; bot_connectionManager := bot_connectionManager e;
     bot_DatabaseManager := bot_DatabaseManager e; bot_Settings := bot_Settings e;
     bot_uptime := v; bot_others := bot_others e |}.

Definition set_other (f : Field) (v : option loc) (e : Engine) : Engine :=
  {| bot_Config := bot_Config e; bot_connectionManager := bot_connectionManager e;
     bot_DatabaseManager := bot_DatabaseManager e; bot_Settings := bot_Settings e;
     bot_uptime := bot_uptime e;
     bot_others := fun g => if decide (g = f) then v else bot_others e g |}.

(** ** Effects *)

Module gctlog.

Inductive Level : Type := Debug | Info | Warn | Error.

Inductive SubLogger : Type :=
| Global | ConnectionMgr | DispatchMgr | TimeMgr | DataHistory | ConfigMgr.

End gctlog.

Global Instance Level_eq_dec : EqDecision gctlog.Level.
Proof. solve_decision. Defined.

Global Instance SubLogger_eq_dec : EqDecision gctlog.SubLogger.
Proof. solve_decision. Defined.

(** Functions of collaborators that the engine calls. *)
Inductive Call : Type :=
| SetupDatabaseConnectionManager
| Config_SetNTPCheck
| setupNTPManager
| Config_PurgeExchangeAPICredentials
| SetupExchanges
| SetupCommunicationManager
| currency_RunStorageUpdater
| StartRPCServer
| setupPortfolioManager
| SetupDataHistoryManager
| SetupWithdrawManager
| config_GetAndMigrateDefaultPath
| setupAPIServerManager
| SetupDepositAddressManager
| DepositAddressManager_Sync
| SetupOrderManager
| setupSyncManager
| setupEventManager
| setupWebsocketRoutineManager
| gctscript_NewManager
| SetupCurrencyStateManager
| portfolioManager_GetAddresses
| portfolioManager_GetPortfolio
| currency_ShutdownStorageUpdater
| os_Executable
| os_Getenv (name : string)
| user_Current
| os_UserHomeDir
| file_Exists (path : string)
| file_Writer (path : string)
| File_Close
| json_MarshalIndent
| PromptForConfigKey
| makeNewSessionDK
| Config_encryptConfigFile
| io_Copy
| ServicesWG_Wait
| gctlog_CloseLogger
| lifecycle_Start (s : Sub)
| lifecycle_IsRunning (s : Sub)
| lifecycle_Stop (s : Sub).

Global Instance Call_eq_dec : EqDecision Call.
Proof. solve_decision. Defined.

(** What a run leaves behind, oldest first: log lines (the text is the
    format or message as written in the source, [arg] the error passed to
    it), calls of collaborators, goroutines started with [go], the
    lifecycle calls the engine makes together with their answers, and in
    the same way what [Config.SaveConfigToFile] answered the engine. *)
Inductive Event : Type :=
| EvLog (lvl : gctlog.Level) (sl : gctlog.SubLogger) (text : string)
        (arg : option error)
| EvStdLog (text : string) (arg : option error)
| EvNew (dns domains : slice) (interval : Z)
| EvShutdown (c : Checker)
| EvCall (c : Call)
| EvGo (c : Call)
| EvStart (s : Sub) (r : option error)
| EvIsRunning (s : Sub) (r : bool)
| EvStop (s : Sub) (r : option error)
| EvSave (r : option error).

Global Instance Event_eq_dec : EqDecision Event.
Proof. solve_decision. Defined.

(** The environment: the constants of package [connchecker] and the
    answers of the collaborators, each a function of the history.
    [connchecker.New] cannot name an error of package [engine] (engine
    imports connchecker), so its error comes as the text of an
    [External].  [GOOS] is [runtime.GOOS]; [filepath_Join] and
    [filepath_Dir] are the pure functions of [path/filepath];
    [call_session] is the pair of byte slices [makeNewSessionDK]
    returns. *)
Record Env : Type := mkEnv {
  DefaultDNSList : slice;
  DefaultDomainList : slice;
  DefaultCheckInterval : Z;
  connchecker_New :
    list Event -> slice -> slice -> Z -> option Checker * option string;
  call_error : list Event -> Call -> option error;
  call_pointer : list Event -> Call -> option loc;
  call_bool : list Event -> Call -> bool;
  call_time : list Event -> Z;
  call_text : list Event -> Call -> string;
  call_addresses : list Event -> list string;
  call_portfolio : list Event -> option config.portfolio_Base;
  GOOS : string;
  filepath_Join : string -> string -> string;
  filepath_Dir : string -> string;
  call_session : list Event -> list Byte.byte * list Byte.byte
}.

(** The mutable state of the process. *)
Record World : Type := mkWorld {
  cfgs : gmap loc config.ConnectionMonitorConfig;
  managers : gmap loc connectionManager;
  configs : gmap loc config.Config;
  engines : gmap loc Engine;
  bools : gmap loc bool;
  newEngineMutex : bool;
  trace : list Event
}.

Definition upd_cfgs (f : gmap loc config.ConnectionMonitorConfig -> gmap loc config.ConnectionMonitorConfig)
    (w : World) : World :=
  {| cfgs := f (cfgs w); managers := managers w; configs := configs w;
     engines := engines w; bools := bools w;
     newEngineMutex := newEngineMutex w; trace := trace w |}.

Definition upd_managers (f : gmap loc connectionManager -> gmap loc connectionManager)
    (w : World) : World :=
  {| cfgs := cfgs w; managers := f (managers w); configs := configs w;
     engines := engines w; bools := bools w;
     newEngineMutex := newEngineMutex w; trace := trace w |}.

Definition upd_configs (f : gmap loc config.Config -> gmap loc config.Config) (w : World) : World :=
  {| cfgs := cfgs w; managers := managers w; configs := f (configs w);
     engines := engines w; bools := bools w;
     newEngineMutex := newEngineMutex w; trace := trace w |}.

Definition upd_engines (f : gmap loc Engine -> gmap loc Engine) (w : World) : World :=
  {| cfgs := cfgs w; managers := managers w; configs := configs w;
     engines := f (engines w); bools := bools w;
     newEngineMutex := newEngineMutex w; trace := trace w |}.

Definition upd_bools (f : gmap loc bool -> gmap loc bool) (w : World) : World :=
  {| cfgs := cfgs w; managers := managers w; configs := configs w;
     engines := engines w; bools := f (bools w);
     newEngineMutex := newEngineMutex w; trace := trace w |}.

Definition set_mutex (b : bool) (w : World) : World :=
  {| cfgs := cfgs w; managers := managers w; configs := configs w;
     engines := engines w; bools := bools w;
     newEngineMutex := b; trace := trace w |}.

Definition emit (e : Event) (w : World) : World :=
  {| cfgs := cfgs w; managers := managers w; configs := configs w;
     engines := engines w; bools := bools w;
     newEngineMutex := newEngineMutex w; trace := trace w ++ [e] |}.

(** *** The monad *)

(** A call returns, panics, or never returns because it waits for a
    mutex that is held or for a wait group whose counter does not come
    down to zero. *)
Inductive Outcome (A : Type) : Type :=
| Ret (a : A)
| Panic (reason : string)
| Blocked.

Arguments Ret {A} a.
Arguments Panic {A} reason.
Arguments Blocked {A}.

Definition M (A : Type) : Type := World -> Outcome A * World.

Definition ret {A} (a : A) : M A := fun w => (Ret a, w).

Definition bind {A B} (m : M A) (k : A -> M B) : M B :=
  fun w =>
    match m w with
    | (Ret a, w') => k a w'
    | (Panic r, w') => (Panic r, w')
    | (Blocked, w') => (Blocked, w')
    end.

Definition panic {A} (reason : string) : M A := fun w => (Panic reason, w).

(** [defer d] before [body]: [d] runs when [body] is left, by a return or
    by a panic, after the result has been computed. *)
Definition with_defer {A} (d : World -> World) (body : M A) : M A :=
  fun w => match body w with
           | (Blocked, w') => (Blocked, w')
           | (o, w') => (o, d w')
           end.

Definition modify (f : World -> World) : M unit := fun w => (Ret tt, f w).

Declare Scope go_scope.
Delimit Scope go_scope with go.
Notation "x <- c ;; k" := (bind c (fun x => k))
  (at level 100, c at next level, right associativity) : go_scope.
Notation "c ;;; k" := (bind c (fun _ => k))
  (at level 100, right associativity) : go_scope.
Local Open Scope go_scope.

Definition nil_dereference : string :=
  "invalid memory address or nil pointer dereference".

(** ** connection_manager.go *)

Section ConnectionManager.

Variable E : Env.

(** [log.Debugln(sl, text)] *)
Definition log_Debugln (sl : gctlog.SubLogger) (text : string) : M unit :=
  modify (emit (EvLog gctlog.Debug sl text None)).

(** Reading and writing through a [*connectionManager].  Go has no
    dangling pointers; a location outside the store is answered with a
    panic so that the functions stay total. *)
Definition load_manager (l : loc) : M connectionManager :=
  fun w => match managers w !! l with
           | Some m => (Ret m, w)
           | None => (Panic "no connectionManager at this address", w)
           end.

Definition store_manager (l : loc) (f : connectionManager -> connectionManager) : M unit :=
  m <- load_manager l ;;
  modify (upd_managers (fun h => <[l := f m]> h)).

Definition load_cfg (l : loc) : M config.ConnectionMonitorConfig :=
  fun w => match cfgs w !! l with
           | Some c => (Ret c, w)
           | None => (Panic "no ConnectionMonitorConfig at this address", w)
           end.

Definition store_cfg (l : loc)
    (f : config.ConnectionMonitorConfig -> config.ConnectionMonitorConfig) : M unit :=
  c <- load_cfg l ;;
  modify (upd_cfgs (fun h => <[l := f c]> h)).

(** [&connectionManager{...}]: a new object at an unused address. *)
Definition new_manager (m : connectionManager) : M loc :=
  fun w => let l := fresh (dom (managers w)) in
           (Ret l, upd_managers (fun h => <[l := m]> h) w).

(** [atomic.LoadInt32(&m.started)] *)
Definition atomic_LoadInt32 (l : loc) : M Z :=
  m <- load_manager l ;; ret (started m).

(** [atomic.CompareAndSwapInt32(&m.started, old, new)] *)
Definition atomic_CompareAndSwapInt32 (l : loc) (old new : Z) : M bool :=
  m <- load_manager l ;;
  if started m =? old
  then store_manager l (set_started new) ;;; ret true
  else ret false.

(** [connchecker.New(dns, domains, interval)] *)
Definition call_connchecker_New (dns domains : slice) (interval : Z)
    : M (option Checker * option error) :=
  fun w => let r := connchecker_New E (trace w) dns domains interval in
           (Ret (fst r, External <$> snd r), emit (EvNew dns domains interval) w).

(** [c.Shutdown()] on a checker *)
Definition Checker_Shutdown (c : Checker) : M unit :=
  modify (emit (EvShutdown c)).

(** [func (m *connectionManager) IsRunning() bool] *)
Definition connectionManager_IsRunning (m : option loc) : M bool :=
  match m with
  | None => ret false
  | Some l => v <- atomic_LoadInt32 l ;; ret (v =? 1)
  end.

(** [func setupConnectionManager(cfg *config.ConnectionMonitorConfig)],
    returning a [*connectionManager] and an [error] *)
Definition setupConnectionManager (cfg : option loc) : M (option loc * option error) :=
  match cfg with
  | None => ret (None, Some errNilConfig)
  | Some c =>
      v <- load_cfg c ;;
      (if config.DNSList v is None
       then store_cfg c (config.set_DNSList (DefaultDNSList E))
       else ret tt) ;;;
      v <- load_cfg c ;;
      (if config.PublicDomainList v is None
       then store_cfg c (config.set_PublicDomainList (DefaultDomainList E))
       else ret tt) ;;;
      v <- load_cfg c ;;
      (if config.CheckInterval v =? 0
       then store_cfg c (config.set_CheckInterval (DefaultCheckInterval E))
       else ret tt) ;;;
      m <- new_manager {| started := 0; conn := None; cfg := Some c |} ;;
      ret (Some m, None)
  end.

(** [func (m *connectionManager) Start() error] *)
Definition connectionManager_Start (m : option loc) : M (option error) :=
  match m with
  | None => ret (Some (Errorf_w "connection manager %w" ErrNilSubsystem))
  | Some l =>
      swapped <- atomic_CompareAndSwapInt32 l 0 1 ;;
      if negb swapped
      then ret (Some (Errorf_w "connection manager %w" ErrSubSystemAlreadyStarted))
      else
        log_Debugln gctlog.ConnectionMgr "Connection manager starting..." ;;;
        mv <- load_manager l ;;
        match cfg mv with
        | None => panic nil_dereference
        | Some c =>
            cv <- load_cfg c ;;
            r <- call_connchecker_New (config.DNSList cv)
                   (config.PublicDomainList cv) (config.CheckInterval cv) ;;
            store_manager l (set_conn (fst r)) ;;;
            match snd r with
            | Some err =>
                atomic_CompareAndSwapInt32 l 1 0 ;;;
                ret (Some err)
            | None =>
                log_Debugln gctlog.ConnectionMgr "Connection manager started." ;;;
                ret None
            end
        end
  end.

(** The deferred function of [Stop]:
    [atomic.CompareAndSwapInt32(&m.started, 1, 0)]. *)
Definition connectionManager_Stop_deferred (l : loc) (w : World) : World :=
  snd (atomic_CompareAndSwapInt32 l 1 0 w).

(** [func (m *connectionManager) Stop() error] *)
Definition connectionManager_Stop (m : option loc) : M (option error) :=
  match m with
  | None => ret (Some (Errorf_w "connection manager: %w" ErrNilSubsystem))
  | Some l =>
      v <- atomic_LoadInt32 l ;;
      if v =? 0
      then ret (Some (Errorf_w "connection manager: %w" ErrSubSystemNotStarted))
      else
        with_defer (connectionManager_Stop_deferred l)
          (mv <- load_manager l ;;
           match conn mv with
           | None =>
               ret (Some (Errorf_w "connection manager: %w" errConnectionCheckerIsNil))
           | Some c =>
               log_Debugln gctlog.ConnectionMgr "Connection manager shutting down..." ;;;
               Checker_Shutdown c ;;;
               log_Debugln gctlog.ConnectionMgr "Connection manager stopped." ;;;
               ret None
           end)
  end.

End ConnectionManager.

(** ** engine.go: FlagSet *)

(** [type FlagSet map[string]bool]; reading a key that is not in the map
    gives [false]. *)
Abbreviation FlagSet := (gmap string bool) (only parsing).

Definition load_bool (p : option loc) : M bool :=
  fun w => match p with
           | None => (Panic nil_dereference, w)
           | Some l => match bools w !! l with
                       | Some v => (Ret v, w)
                       | None => (Panic "no bool at this address", w)
                       end
           end.

Definition store_bool (p : option loc) (v : bool) : M unit :=
  load_bool p ;;;
  match p with
  | None => panic nil_dereference
  | Some l => modify (upd_bools (fun h => <[l := v]> h))
  end.

(** [func (f FlagSet) WithBool(key string, flagValue *bool, configValue bool)]:
    [*flagValue = !isSet && configValue || isSet && *flagValue], the
    operators short-circuiting from left to right. *)
Definition FlagSet_WithBool (f : FlagSet) (key : string) (flagValue : option loc)
    (configValue : bool) : M unit :=
  let isSet := default false (f !! key) in
  v <- (if negb isSet && configValue then ret true
        else if isSet then load_bool flagValue else ret false) ;;
  store_bool flagValue v.

(** ** engine.go: Engine *)

Section Engine.

Variable E : Env.

(** *** Logging *)

Definition gctlog_Errorf (sl : gctlog.SubLogger) (format : string) (err : error) : M unit :=
  modify (emit (EvLog gctlog.Error sl format (Some err))).

Definition gctlog_Errorln (sl : gctlog.SubLogger) (text : string) : M unit :=
  modify (emit (EvLog gctlog.Error sl text None)).

Definition gctlog_Debugln (sl : gctlog.SubLogger) (text : string) : M unit :=
  modify (emit (EvLog gctlog.Debug sl text None)).

Definition gctlog_Debugf (sl : gctlog.SubLogger) (format : string) : M unit :=
  modify (emit (EvLog gctlog.Debug sl format None)).

Definition gctlog_Info (sl : gctlog.SubLogger) (text : string) : M unit :=
  modify (emit (EvLog gctlog.Info sl text None)).

(** [log.Printf] of the standard library *)
Definition log_Printf (format : string) (err : error) : M unit :=
  modify (emit (EvStdLog format (Some err))).

(** *** Collaborators *)

(** A call that returns an error. *)
Definition call_err (c : Call) : M (option error) :=
  fun w => (Ret (call_error E (trace w) c), emit (EvCall c) w).

(** A call that returns a pointer and an error. *)
Definition call_ptr_err (c : Call) : M (option loc * option error) :=
  fun w => (Ret (call_pointer E (trace w) c, call_error E (trace w) c),
            emit (EvCall c) w).

(** A call that returns a string and an error. *)
Definition call_text_err (c : Call) : M (string * option error) :=
  fun w => (Ret (call_text E (trace w) c, call_error E (trace w) c),
            emit (EvCall c) w).

(** A call that returns a pointer. *)
Definition call_ptr (c : Call) : M (option loc) :=
  fun w => (Ret (call_pointer E (trace w) c), emit (EvCall c) w).

(** A call that returns nothing. *)
Definition call_unit (c : Call) : M unit :=
  modify (emit (EvCall c)).

(** [go f(...)]: the goroutine is started; its body runs beside the
    caller and is not part of the caller's run. *)
Definition go (c : Call) : M unit :=
  modify (emit (EvGo c)).

(** The lifecycle methods of a subsystem that has been set up, and of
    package [dispatch], whose functions have no receiver. *)
Definition collab_Start (s : Sub) : M (option error) :=
  fun w => (Ret (call_error E (trace w) (lifecycle_Start s)), w).

Definition collab_IsRunning (s : Sub) : M bool :=
  fun w => (Ret (call_bool E (trace w) (lifecycle_IsRunning s)), w).

Definition collab_Stop (s : Sub) : M (option error) :=
  fun w => (Ret (call_error E (trace w) (lifecycle_Stop s)), w).

(** Modelled from the spec: [Start] of a manager whose source is absent
    (all but the connection manager), called on a pointer that may be
    nil.  By the lifecycle contract a nil subsystem never faults: [Start]
    returns [NilSubsystem] without side effects. *)
Definition absent_Start (s : Sub) (recv : option loc) : M (option error) :=
  match recv with
  | None => ret (Some ErrNilSubsystem)
  | Some _ => collab_Start s
  end.

(** Modelled from the spec: [IsRunning] of an absent manager; [false]
    for a nil receiver, never a fault. *)
Definition absent_IsRunning (s : Sub) (recv : option loc) : M bool :=
  match recv with
  | None => ret false
  | Some _ => collab_IsRunning s
  end.

(** Modelled from the spec: [Stop] of an absent manager; [NilSubsystem]
    for a nil receiver, without side effects. *)
Definition absent_Stop (s : Sub) (recv : option loc) : M (option error) :=
  match recv with
  | None => ret (Some ErrNilSubsystem)
  | Some _ => collab_Stop s
  end.

(** Modelled from the spec: [portfolioManager.GetAddresses], whose source
    is absent.  A nil manager behaves as an unconfigured one and never
    faults: it has no addresses. *)
Definition portfolioManager_GetAddresses_on (recv : option loc) : M (list string) :=
  fun w => (Ret (match recv with
                 | None => []
                 | Some _ => call_addresses E (trace w)
                 end),
            emit (EvCall portfolioManager_GetAddresses) w).

(** [portfolioManager.GetPortfolio], returning a [*portfolio.Base]. *)
Definition portfolioManager_GetPortfolio_on (recv : option loc)
    : M (option config.portfolio_Base) :=
  fun w => (Ret (call_portfolio E (trace w)),
            emit (EvCall portfolioManager_GetPortfolio) w).

(** The engine's lifecycle calls, recorded with their answers. *)
Definition engine_Start (s : Sub) (start : M (option error)) : M (option error) :=
  r <- start ;; modify (emit (EvStart s r)) ;;; ret r.

Definition engine_IsRunning (s : Sub) (isRunning : M bool) : M bool :=
  r <- isRunning ;; modify (emit (EvIsRunning s r)) ;;; ret r.

Definition engine_Stop (s : Sub) (stop : M (option error)) : M (option error) :=
  r <- stop ;; modify (emit (EvStop s r)) ;;; ret r.

(** *** The engine object *)

Definition load_engine (b : loc) : M Engine :=
  fun w => match engines w !! b with
           | Some e => (Ret e, w)
           | None => (Panic "no Engine at this address", w)
           end.

Definition store_engine (b : loc) (f : Engine -> Engine) : M unit :=
  e <- load_engine b ;;
  modify (upd_engines (fun h => <[b := f e]> h)).

(** [bot.Settings] *)
Definition Settings_of (b : loc) : M Settings :=
  e <- load_engine b ;; ret (bot_Settings e).

(** [bot.f] for a pointer field [f] *)
Definition other_of (b : loc) (f : Field) : M (option loc) :=
  e <- load_engine b ;; ret (bot_others e f).

(** [bot.Config.x]: the configuration object, a panic when [bot.Config]
    is nil. *)
Definition Config_of (b : loc) : M (loc * config.Config) :=
  e <- load_engine b ;;
  match bot_Config e with
  | None => panic nil_dereference
  | Some c =>
      fun w => match configs w !! c with
               | Some v => (Ret (c, v), w)
               | None => (Panic "no Config at this address", w)
               end
  end.

(** [newEngineMutex.Lock()] and [newEngineMutex.Unlock()] *)
Definition newEngineMutex_Lock : M unit :=
  fun w => if newEngineMutex w then (Blocked, w) else (Ret tt, set_mutex true w).

Definition newEngineMutex_Unlock (w : World) : World := set_mutex false w.

(** [strings.Contains] *)
Fixpoint strings_Contains (s substr : string) : bool :=
  String.prefix substr s ||
  match s with
  | EmptyString => false
  | String _ s' => strings_Contains s' substr
  end.

(** A part of [Start] that may leave the function: [Some err] is
    [return err], [None] goes on with the next statement. *)
Definition or_return (part : M (option error)) (rest : M (option error))
    : M (option error) :=
  r <- part ;;
  match r with
  | Some err => ret (Some err)
  | None => rest
  end.

Definition continue (part : M unit) : M (option error) :=
  part ;;; ret None.

(** The shape shared by most managers in [Start]: set up, store the
    pointer, log a failed setup, otherwise start and log a failed start. *)
Definition log_failure (sl : gctlog.SubLogger) (format : string) (err : option error) : M unit :=
  match err with
  | Some err => gctlog_Errorf sl format err
  | None => ret tt
  end.

(** *** Engine.Start, statement by statement *)

(** Lines 131-141: the database manager. *)
Definition Start_DatabaseManager (b : loc) : M unit :=
  st <- Settings_of b ;;
  if EnableDatabaseManager st then
    Config_of b ;;;
    r <- call_ptr_err SetupDatabaseConnectionManager ;;
    store_engine b (set_DatabaseManager (fst r)) ;;;
    match snd r with
    | Some err =>
        gctlog_Errorf gctlog.Global "Database manager unable to setup: %v" err
    | None =>
        e <- load_engine b ;;
        err <- engine_Start SubDatabase (absent_Start SubDatabase (bot_DatabaseManager e)) ;;
        log_failure gctlog.Global "Database manager unable to start: %v" err
    end
  else ret tt.

(** Lines 143-147: the dispatcher. *)
Definition Start_Dispatcher (b : loc) : M unit :=
  st <- Settings_of b ;;
  if EnableDispatcher st then
    err <- engine_Start SubDispatch (collab_Start SubDispatch) ;;
    log_failure gctlog.DispatchMgr "Dispatcher unable to start: %v" err
  else ret tt.

(** Lines 150-160: the connectivity monitor. *)
Definition Start_ConnectivityMonitor (b : loc) : M unit :=
  st <- Settings_of b ;;
  if EnableConnectivityMonitor st then
    c <- Config_of b ;;
    r <- setupConnectionManager E (Some (config.ConnectionMonitor (snd c))) ;;
    store_engine b (set_connectionManager (fst r)) ;;;
    match snd r with
    | Some err =>
        gctlog_Errorf gctlog.Global "Connection manager unable to setup: %v" err
    | None =>
        e <- load_engine b ;;
        err <- engine_Start SubConnection
                 (connectionManager_Start E (bot_connectionManager e)) ;;
        log_failure gctlog.Global "Connection manager unable to start: %v" err
    end
  else ret tt.

(** Lines 162-175: the NTP client. *)
Definition Start_NTPClient (b : loc) : M (option error) :=
  st <- Settings_of b ;;
  if EnableNTPClient st then
    c <- Config_of b ;;
    or_return
      (if config.NTPClient_Level (snd c) =? 0 then
         r <- call_text_err Config_SetNTPCheck ;;
         match snd r with
         | Some err => ret (Some (Errorf_w "unable to set NTP check: %w" err))
         | None => continue (gctlog_Info gctlog.TimeMgr (fst r))
         end
       else ret None)
      (c <- Config_of b ;;
       match config.Logging_Enabled (snd c) with
       | None => panic nil_dereference
       | Some _ =>
           r <- call_ptr_err setupNTPManager ;;
           store_engine b (set_other ntpManager (fst r)) ;;;
           continue (log_failure gctlog.Global "NTP manager unable to start: %s" (snd r))
       end)
  else ret None.

(** Lines 177-206: uptime, the banner, and the exchanges.  The numbers
    printed by the banner are not kept in the trace. *)
Definition Start_Exchanges (b : loc) : M (option error) :=
  (fun w => store_engine b (set_uptime (call_time E (trace w))) w) ;;;
  c <- Config_of b ;;
  gctlog_Debugf gctlog.Global "Bot '%s' started.\n" ;;;
  gctlog_Debugf gctlog.Global "Using data dir: %s\n" ;;;
  match config.Logging_Enabled (snd c) with
  | None => panic nil_dereference
  | Some enabled =>
      (if enabled && strings_Contains (config.Logging_Output (snd c)) "file"
       then gctlog_Debugf gctlog.Global "Using log file: %s\n"
       else ret tt) ;;;
      gctlog_Debugf gctlog.Global
        "Using %d out of %d logical processors for runtime performance\n" ;;;
      gctlog_Debugln gctlog.Global "EXCHANGE COVERAGE" ;;;
      gctlog_Debugf gctlog.Global
        "\t Available Exchanges: %d. Enabled Exchanges: %d.\n" ;;;
      st <- Settings_of b ;;
      (if ExchangePurgeCredentials st then
         gctlog_Debugln gctlog.Global "Purging exchange API credentials." ;;;
         call_unit Config_PurgeExchangeAPICredentials
       else ret tt) ;;;
      gctlog_Debugln gctlog.Global "Setting up exchanges.." ;;;
      call_err SetupExchanges
  end.

(** Lines 208-218: the communications manager. *)
Definition Start_CommsRelayer (b : loc) : M unit :=
  st <- Settings_of b ;;
  if EnableCommsRelayer st then
    r <- call_ptr_err SetupCommunicationManager ;;
    store_engine b (set_other CommunicationsManager (fst r)) ;;;
    match snd r with
    | Some err =>
        gctlog_Errorf gctlog.Global "Communications manager unable to setup: %s" err
    | None =>
        recv <- other_of b CommunicationsManager ;;
        err <- engine_Start SubComms (absent_Start SubComms recv) ;;
        log_failure gctlog.Global "Communications manager unable to start: %s" err
    end
  else ret tt.

(** Lines 220-237: the currency storage updater and the gRPC server. *)
Definition Start_StorageUpdater (b : loc) : M unit :=
  err <- call_err currency_RunStorageUpdater ;;
  log_failure gctlog.Global "ExchangeSettings updater system failed to start %s" err ;;;
  st <- Settings_of b ;;
  if EnableGRPC st then go StartRPCServer else ret tt.

(** Lines 239-251: the portfolio manager. *)
Definition Start_PortfolioManager (b : loc) : M unit :=
  st <- Settings_of b ;;
  if EnablePortfolioManager st then
    cur <- other_of b portfolioManager ;;
    if cur is None then
      r <- call_ptr_err setupPortfolioManager ;;
      store_engine b (set_other portfolioManager (fst r)) ;;;
      match snd r with
      | Some err =>
          gctlog_Errorf gctlog.Global "portfolio manager unable to setup: %s" err
      | None =>
          recv <- other_of b portfolioManager ;;
          err <- engine_Start SubPortfolio (absent_Start SubPortfolio recv) ;;
          log_failure gctlog.Global "portfolio manager unable to start: %s" err
      end
    else ret tt
  else ret tt.

(** Lines 253-265: the data history manager. *)
Definition Start_DataHistoryManager (b : loc) : M unit :=
  st <- Settings_of b ;;
  if EnableDataHistoryManager st then
    cur <- other_of b dataHistoryManager ;;
    if cur is None then
      r <- call_ptr_err SetupDataHistoryManager ;;
      store_engine b (set_other dataHistoryManager (fst r)) ;;;
      match snd r with
      | Some err =>
          gctlog_Errorf gctlog.Global "database history manager unable to setup: %s" err
      | None =>
          recv <- other_of b dataHistoryManager ;;
          err <- engine_Start SubDataHistory (absent_Start SubDataHistory recv) ;;
          log_failure gctlog.Global "database history manager unable to start: %s" err
      end
    else ret tt
  else ret tt.

(** Lines 267-270: the withdraw manager. *)
Definition Start_WithdrawManager (b : loc) : M (option error) :=
  r <- call_ptr_err SetupWithdrawManager ;;
  store_engine b (set_other WithdrawManager (fst r)) ;;;
  ret (snd r).

(** Lines 272-295: the REST and websocket API servers. *)
Definition Start_APIServer (b : loc) : M (option error) :=
  st <- Settings_of b ;;
  if EnableDeprecatedRPC st || EnableWebsocketRPC st then
    or_return (call_err config_GetAndMigrateDefaultPath)
      (r <- call_ptr_err setupAPIServerManager ;;
       store_engine b (set_other apiServer (fst r)) ;;;
       match snd r with
       | Some err =>
           continue (gctlog_Errorf gctlog.Global "API Server unable to start: %s" err)
       | None =>
           (if EnableDeprecatedRPC st then
              recv <- other_of b apiServer ;;
              err <- engine_Start SubRESTServer (absent_Start SubRESTServer recv) ;;
              log_failure gctlog.Global "could not start REST API server: %s" err
            else ret tt) ;;;
           (if EnableWebsocketRPC st then
              recv <- other_of b apiServer ;;
              err <- engine_Start SubWebsocketServer
                       (absent_Start SubWebsocketServer recv) ;;
              log_failure gctlog.Global "could not start websocket API server: %s" err
            else ret tt) ;;;
           ret None
       end)
  else ret None.

(** Lines 297-305: the deposit address manager, synchronised by a
    goroutine. *)
Definition Start_DepositAddressManager (b : loc) : M unit :=
  st <- Settings_of b ;;
  if EnableDepositAddressManager st then
    p <- call_ptr SetupDepositAddressManager ;;
    store_engine b (set_other DepositAddressManager p) ;;;
    go DepositAddressManager_Sync
  else ret tt.

(** Lines 307-321: the order manager. *)
Definition Start_OrderManager (b : loc) : M unit :=
  st <- Settings_of b ;;
  if EnableOrderManager st then
    r <- call_ptr_err SetupOrderManager ;;
    store_engine b (set_other OrderManager (fst r)) ;;;
    match snd r with
    | Some err =>
        gctlog_Errorf gctlog.Global "Order manager unable to setup: %s" err
    | None =>
        recv <- other_of b OrderManager ;;
        err <- engine_Start SubOrder (absent_Start SubOrder recv) ;;
        log_failure gctlog.Global "Order manager unable to start: %s" err
    end
  else ret tt.

(** Lines 323-352: the exchange sync manager, started by a goroutine. *)
Definition Start_ExchangeSyncManager (b : loc) : M unit :=
  st <- Settings_of b ;;
  if EnableExchangeSyncManager st then
    Config_of b ;;;
    r <- call_ptr_err setupSyncManager ;;
    store_engine b (set_other currencyPairSyncer (fst r)) ;;;
    match snd r with
    | Some err =>
        gctlog_Errorf gctlog.Global
          "Unable to initialise exchange currency pair syncer. Err: %s" err
    | None => go (lifecycle_Start SubSync)
    end
  else ret tt.

(** Lines 354-364: the event manager. *)
Definition Start_EventManager (b : loc) : M unit :=
  st <- Settings_of b ;;
  if EnableEventManager st then
    r <- call_ptr_err setupEventManager ;;
    store_engine b (set_other eventManager (fst r)) ;;;
    match snd r with
    | Some err =>
        gctlog_Errorf gctlog.Global "Unable to initialise event manager. Err: %s" err
    | None =>
        recv <- other_of b eventManager ;;
        err <- engine_Start SubEvent (absent_Start SubEvent recv) ;;
        log_failure gctlog.Global "failed to start event manager. Err: %s" err
    end
  else ret tt.

(** Lines 366-376: the websocket routine manager. *)
Definition Start_WebsocketRoutine (b : loc) : M unit :=
  st <- Settings_of b ;;
  if EnableWebsocketRoutine st then
    Config_of b ;;;
    r <- call_ptr_err setupWebsocketRoutineManager ;;
    store_engine b (set_other websocketRoutineManager (fst r)) ;;;
    match snd r with
    | Some err =>
        gctlog_Errorf gctlog.Global
          "Unable to initialise websocket routine manager. Err: %s" err
    | None =>
        recv <- other_of b websocketRoutineManager ;;
        err <- engine_Start SubWebsocketRoutine
                 (absent_Start SubWebsocketRoutine recv) ;;
        log_failure gctlog.Global
          "failed to start websocket routine manager. Err: %s" err
    end
  else ret tt.

(** Lines 378-386: the script manager; it is started whether or not its
    construction failed. *)
Definition Start_GCTScriptManager (b : loc) : M unit :=
  st <- Settings_of b ;;
  if EnableGCTScriptManager st then
    Config_of b ;;;
    r <- call_ptr_err gctscript_NewManager ;;
    store_engine b (set_other gctScriptManager (fst r)) ;;;
    log_failure gctlog.Global "failed to create script manager. Err: %s" (snd r) ;;;
    recv <- other_of b gctScriptManager ;;
    err <- engine_Start SubGCTScript (absent_Start SubGCTScript recv) ;;
    log_failure gctlog.Global "GCTScript manager unable to start: %s" err
  else ret tt.

(** Lines 388-406: the currency state manager. *)
Definition Start_CurrencyStateManager (b : loc) : M unit :=
  st <- Settings_of b ;;
  if EnableCurrencyStateManager st then
    Config_of b ;;;
    r <- call_ptr_err SetupCurrencyStateManager ;;
    store_engine b (set_other currencyStateManager (fst r)) ;;;
    match snd r with
    | Some err => gctlog_Errorf gctlog.Global "%s unable to setup: %s" err
    | None =>
        recv <- other_of b currencyStateManager ;;
        err <- engine_Start SubCurrencyState (absent_Start SubCurrencyState recv) ;;
        log_failure gctlog.Global "%s unable to start: %s" err
    end
  else ret tt.

(** What [Start] does once the database manager has been dealt with:
    line 143 to the end of the function. *)
Definition Start_after_DatabaseManager (b : loc) : M (option error) :=
  Start_Dispatcher b ;;;
  Start_ConnectivityMonitor b ;;;
  or_return (Start_NTPClient b)
    (or_return (Start_Exchanges b)
       (Start_CommsRelayer b ;;;
        Start_StorageUpdater b ;;;
        Start_PortfolioManager b ;;;
        Start_DataHistoryManager b ;;;
        or_return (Start_WithdrawManager b)
          (or_return (Start_APIServer b)
             (Start_DepositAddressManager b ;;;
              Start_OrderManager b ;;;
              Start_ExchangeSyncManager b ;;;
              Start_EventManager b ;;;
              Start_WebsocketRoutine b ;;;
              Start_GCTScriptManager b ;;;
              Start_CurrencyStateManager b ;;;
              ret None)))).

(** [func (bot *Engine) Start() error] *)
Definition Engine_Start (bot : option loc) : M (option error) :=
  match bot with
  | None => ret (Some (errors_New "engine instance is nil"))
  | Some b =>
      newEngineMutex_Lock ;;;
      with_defer newEngineMutex_Unlock
        (Start_DatabaseManager b ;;;
         Start_after_DatabaseManager b)
  end.

(** *** Engine.Stop *)

(** Lines 417-419: the address book goes back into the configuration. *)
Definition Stop_snapshot (b : loc) : M unit :=
  e <- load_engine b ;;
  addresses <- portfolioManager_GetAddresses_on (bot_others e portfolioManager) ;;
  if bool_decide (length addresses ≠ 0%nat) then
    p <- portfolioManager_GetPortfolio_on (bot_others e portfolioManager) ;;
    match p with
    | None => panic nil_dereference
    | Some base =>
        c <- Config_of b ;;
        modify (upd_configs (fun h => <[fst c := config.set_Portfolio base (snd c)]> h))
    end
  else ret tt.

(** One [if x.IsRunning() { if err := x.Stop(); err != nil { log } }]. *)
Definition stop_if_running (s : Sub) (isRunning : M bool) (stop : M (option error))
    (sl : gctlog.SubLogger) (format : string) : M unit :=
  running <- engine_IsRunning s isRunning ;;
  if running then
    err <- engine_Stop s stop ;;
    log_failure sl format err
  else ret tt.

(** The same for a manager whose source is absent, kept in [bot.f]. *)
Definition stop_absent (b : loc) (s : Sub) (f : Engine -> option loc)
    (sl : gctlog.SubLogger) (format : string) : M unit :=
  e <- load_engine b ;;
  stop_if_running s (absent_IsRunning s (f e)) (absent_Stop s (f e)) sl format.

(** Lines 421-492, in the order of the source. *)
Definition Stop_subsystems (b : loc) : M unit :=
  stop_absent b SubGCTScript (fun e => bot_others e gctScriptManager)
    gctlog.Global "GCTScript manager unable to stop. Error: %v" ;;;
  stop_absent b SubOrder (fun e => bot_others e OrderManager)
    gctlog.Global "Order manager unable to stop. Error: %v" ;;;
  stop_absent b SubEvent (fun e => bot_others e eventManager)
    gctlog.Global "event manager unable to stop. Error: %v" ;;;
  stop_absent b SubNTP (fun e => bot_others e ntpManager)
    gctlog.Global "NTP manager unable to stop. Error: %v" ;;;
  stop_absent b SubComms (fun e => bot_others e CommunicationsManager)
    gctlog.Global "Communication manager unable to stop. Error: %v" ;;;
  stop_absent b SubPortfolio (fun e => bot_others e portfolioManager)
    gctlog.Global "Fund manager unable to stop. Error: %v" ;;;
  (e <- load_engine b ;;
   stop_if_running SubConnection
     (connectionManager_IsRunning (bot_connectionManager e))
     (connectionManager_Stop (bot_connectionManager e))
     gctlog.Global "Connection manager unable to stop. Error: %v") ;;;
  stop_absent b SubRESTServer (fun e => bot_others e apiServer)
    gctlog.Global "API Server unable to stop REST server. Error: %s" ;;;
  stop_absent b SubWebsocketServer (fun e => bot_others e apiServer)
    gctlog.Global "API Server unable to stop websocket server. Error: %s" ;;;
  stop_absent b SubDataHistory (fun e => bot_others e dataHistoryManager)
    gctlog.DataHistory "data history manager unable to stop. Error: %v" ;;;
  stop_absent b SubDatabase bot_DatabaseManager
    gctlog.Global "Database manager unable to stop. Error: %v" ;;;
  stop_if_running SubDispatch (collab_IsRunning SubDispatch) (collab_Stop SubDispatch)
    gctlog.DispatchMgr "Dispatch system unable to stop. Error: %v" ;;;
  stop_absent b SubWebsocketRoutine (fun e => bot_others e websocketRoutineManager)
    gctlog.Global "websocket routine manager unable to stop. Error: %v" ;;;
  stop_absent b SubCurrencyState (fun e => bot_others e currencyStateManager)
    gctlog.Global "currency state manager unable to stop. Error: %v".

(** *** Packages common and config: saving the configuration *)

(** A call that returns a string, and one that returns a bool. *)
Definition call_txt (c : Call) : M string :=
  fun w => (Ret (call_text E (trace w) c), emit (EvCall c) w).

Definition call_flag (c : Call) : M bool :=
  fun w => (Ret (call_bool E (trace w) c), emit (EvCall c) w).

Definition gctlog_Warnln (sl : gctlog.SubLogger) (text : string) : M unit :=
  modify (emit (EvLog gctlog.Warn sl text None)).

(** [log.Error(sl, err)]: the error is the whole message. *)
Definition gctlog_Error (sl : gctlog.SubLogger) (err : error) : M unit :=
  modify (emit (EvLog gctlog.Error sl EmptyString (Some err))).

(** [func GetExecutablePath() (string, error)] *)
Definition common_GetExecutablePath : M (string * option error) :=
  ex <- call_text_err os_Executable ;;
  match snd ex with
  | Some err => ret (EmptyString, Some err)
  | None => ret (filepath_Dir E (fst ex), None)
  end.

(** [func GetDefaultDataDir(env string) string]; [user.Current] answers
    with the home directory of the user. *)
Definition common_GetDefaultDataDir (env : string) : M string :=
  if bool_decide (env = "windows") then
    appdata <- call_txt (os_Getenv "APPDATA") ;;
    ret (filepath_Join E appdata "GoCryptoTrader")
  else
    usr <- call_text_err user_Current ;;
    match snd usr with
    | None => ret (filepath_Join E (fst usr) ".gocryptotrader")
    | Some _ =>
        dir <- call_text_err os_UserHomeDir ;;
        match snd dir with
        | Some _ =>
            gctlog_Warnln gctlog.Global
              "Environment variable unset, defaulting to current directory" ;;;
            ret (filepath_Join E "." ".gocryptotrader")
        | None => ret (filepath_Join E (fst dir) ".gocryptotrader")
        end
    end.

(** The loop of [GetFilePath] over the default paths: [configFile], empty
    on entry, becomes the first path that exists. *)
Fixpoint first_existing (paths : list string) : M string :=
  match paths with
  | [] => ret EmptyString
  | p :: rest =>
      found <- call_flag (file_Exists p) ;;
      if found then ret p else first_existing rest
  end.

(** [func GetFilePath(configFile string) (string, bool, error)]; the
    error made by [fmt.Errorf] has no [%w] and is known by its text. *)
Definition config_GetFilePath (configFile : string)
    : M (string * bool * option error) :=
  if bool_decide (configFile <> EmptyString) then ret (configFile, false, None)
  else
    exe <- common_GetExecutablePath ;;
    match snd exe with
    | Some err => ret (EmptyString, false, Some err)
    | None =>
        newDir <- common_GetDefaultDataDir (GOOS E) ;;
        found <- first_existing
                   [filepath_Join E (fst exe) config.File;
                    filepath_Join E (fst exe) config.EncryptedFile;
                    filepath_Join E newDir config.File;
                    filepath_Join E newDir config.EncryptedFile] ;;
        if bool_decide (found = EmptyString) then
          ret (EmptyString, false,
               Some (errors_New
                       (String.append "config.json file not found in "
                          (String.append newDir
                             ", please follow README.md in root dir for config generation"))))
        else ret (found, true, None)
    end.

(** [*c] for a [*Config] *)
Definition load_config (c : option loc) : M config.Config :=
  fun w => match c with
           | None => (Panic nil_dereference, w)
           | Some l => match configs w !! l with
                       | Some v => (Ret v, w)
                       | None => (Panic "no Config at this address", w)
                       end
           end.

(** [makeNewSessionDK(key)] *)
Definition call_makeNewSessionDK
    : M (list Byte.byte * list Byte.byte * option error) :=
  fun w => (Ret (call_session E (trace w), call_error E (trace w) makeNewSessionDK),
            emit (EvCall makeNewSessionDK) w).

(** Lines 477-489 of [Save]: the session key is taken from the
    configuration or made from the key the user gives. *)
Definition Save_session_key (c : option loc) (keyProvider : M (option error))
    : M (option error) :=
  cv <- load_config c ;;
  if bool_decide (length (config.sessionDK cv) = 0%nat) then
    err <- keyProvider ;;
    match err with
    | Some err => ret (Some err)
    | None =>
        r <- call_makeNewSessionDK ;;
        match snd r with
        | Some err => ret (Some err)
        | None =>
            match c with
            | None => panic nil_dereference
            | Some l =>
                modify (upd_configs (fun h =>
                  <[l := config.set_session (fst (fst r)) (snd (fst r)) cv]> h)) ;;;
                ret None
            end
        end
    end
  else ret None.

(** [func (c *Config) Save(writerProvider, keyProvider) error].  The
    provider of [SaveConfigToFile] stores the file it opens in the
    variable [writer] of its caller; here [Save] hands that value back
    beside its result, nil as long as the provider has not been called.
    [json.MarshalIndent] takes the pointer as it is; the first thing that
    reads through it is [c.EncryptConfig]. *)
Definition Config_Save (c : option loc)
    (writerProvider : M (option loc * option error))
    (keyProvider : M (option error)) : M (option loc * option error) :=
  err <- call_err json_MarshalIndent ;;
  match err with
  | Some err => ret (None, Some err)
  | None =>
      cv <- load_config c ;;
      err <- (if config.EncryptConfig cv =? config.fileEncryptionEnabled then
                or_return (Save_session_key c keyProvider)
                  (call_err Config_encryptConfigFile)
              else ret None) ;;
      match err with
      | Some err => ret (None, Some err)
      | None =>
          wr <- writerProvider ;;
          match snd wr with
          | Some err => ret (fst wr, Some err)
          | None =>
              err <- call_err io_Copy ;;
              ret (fst wr, err)
          end
      end
  end.

(** The deferred function of [SaveConfigToFile]. *)
Definition SaveConfigToFile_deferred (writer : option loc) : M unit :=
  match writer with
  | None => ret tt
  | Some _ =>
      err <- call_err File_Close ;;
      match err with
      | Some err => gctlog_Error gctlog.ConfigMgr err
      | None => ret tt
      end
  end.

(** [func (c *Config) SaveConfigToFile(configPath string) error].  The
    deferred function runs after [Save] has produced the result and
    cannot change it.  [Save] can panic only on a nil [c], before the
    writer has been asked for, when the deferred function has nothing to
    do; so it is written after [Save] here. *)
Definition Config_SaveConfigToFile_on (c : option loc) (configPath : string)
    : M (option error) :=
  p <- config_GetFilePath configPath ;;
  match snd p with
  | Some err => ret (Some err)
  | None =>
      r <- Config_Save c (call_ptr_err (file_Writer (fst (fst p))))
             (call_err PromptForConfigKey) ;;
      SaveConfigToFile_deferred (fst r) ;;;
      ret (snd r)
  end.

(** [bot.ServicesWG.Wait()].  The counter is moved by the services'
    goroutines alone, which are not part of this run: the environment
    says whether it comes down to zero, and while it does not the call
    does not return. *)
Definition ServicesWG_Wait_on : M unit :=
  fun w => if call_bool E (trace w) ServicesWG_Wait
           then (Ret tt, emit (EvCall ServicesWG_Wait) w)
           else (Blocked, emit (EvCall ServicesWG_Wait) w).

(** Lines 494-511: the storage updater, the configuration file, the wait
    group and the logger. *)
Definition Stop_finish (b : loc) : M unit :=
  err <- call_err currency_ShutdownStorageUpdater ;;
  log_failure gctlog.Global "ExchangeSettings storage system. Error: %v" err ;;;
  e <- load_engine b ;;
  (if negb (EnableDryRun (bot_Settings e)) then
     err <- Config_SaveConfigToFile_on (bot_Config e) (ConfigFile (bot_Settings e)) ;;
     modify (emit (EvSave err)) ;;;
     match err with
     | Some _ => gctlog_Errorln gctlog.Global "Unable to save config."
     | None => gctlog_Debugln gctlog.Global "Config file saved successfully."
     end
   else ret tt) ;;;
  ServicesWG_Wait_on ;;;
  err <- call_err gctlog_CloseLogger ;;
  match err with
  | Some err => log_Printf "Failed to close logger. Error: %v\n" err
  | None => ret tt
  end.

(** [func (bot *Engine) Stop()] *)
Definition Engine_Stop (bot : option loc) : M unit :=
  newEngineMutex_Lock ;;;
  with_defer newEngineMutex_Unlock
    (gctlog_Debugln gctlog.Global "Engine shutting down.." ;;;
     match bot with
     | None => panic nil_dereference
     | Some b =>
         Stop_snapshot b ;;;
         Stop_subsystems b ;;;
         Stop_finish b
     end).

End Engine.

(** ** Vocabulary of the statements *)

(** The first line [Start] logs. *)
Definition starting_event : Event :=
  EvLog gctlog.Debug gctlog.ConnectionMgr "Connection manager starting..." None.

(** The first line [Engine.Stop] logs. *)
Definition shutting_down : Event :=
  EvLog gctlog.Debug gctlog.Global "Engine shutting down.." None.

(** How many checkers a run has asked [connchecker.New] for. *)
Definition is_New (ev : Event) : bool :=
  match ev with EvNew _ _ _ => true | _ => false end.

Fixpoint count_New (tr : list Event) : nat :=
  match tr with
  | [] => 0%nat
  | ev :: tr' => ((if is_New ev then 1 else 0) + count_New tr')%nat
  end.

(** The start flag of the manager at [l]. *)
Definition started_at (l : loc) (w : World) : option Z :=
  started <$> managers w !! l.

(** A configuration with the defaults in place of its unset members, in
    the words of the specification. *)
Definition with_defaults (E : Env) (cv : config.ConnectionMonitorConfig)
    : config.ConnectionMonitorConfig :=
  {| config.DNSList :=
       if config.DNSList cv is None then DefaultDNSList E else config.DNSList cv;
     config.PublicDomainList :=
       if config.PublicDomainList cv is None then DefaultDomainList E
       else config.PublicDomainList cv;
     config.CheckInterval :=
       if config.CheckInterval cv =? 0 then DefaultCheckInterval E
       else config.CheckInterval cv |}.

(** Lifecycle calls made by the engine. *)
Definition is_lifecycle (ev : Event) : bool :=
  match ev with
  | EvStart _ _ | EvIsRunning _ _ | EvStop _ _ => true
  | _ => false
  end.

Definition quiet (evs : list Event) : Prop :=
  Forall (fun ev => is_lifecycle ev = false) evs.

(** The lifecycle calls of a run that are about the subsystem [s]. *)
Definition about (s : Sub) (ev : Event) : bool :=
  match ev with
  | EvStart s' _ | EvIsRunning s' _ | EvStop s' _ => bool_decide (s' = s)
  | _ => false
  end.

(** The pointer [Engine.Stop] calls the lifecycle methods of [s] on;
    the dispatcher is a package and has none. *)
Definition receiver (e : Engine) (s : Sub) : option loc :=
  match s with
  | SubGCTScript => bot_others e gctScriptManager
  | SubOrder => bot_others e OrderManager
  | SubEvent => bot_others e eventManager
  | SubNTP => bot_others e ntpManager
  | SubComms => bot_others e CommunicationsManager
  | SubPortfolio => bot_others e portfolioManager
  | SubConnection => bot_connectionManager e
  | SubRESTServer | SubWebsocketServer => bot_others e apiServer
  | SubDataHistory => bot_others e dataHistoryManager
  | SubDatabase => bot_DatabaseManager e
  | SubDispatch => None
  | SubWebsocketRoutine => bot_others e websocketRoutineManager
  | SubCurrencyState => bot_others e currencyStateManager
  | SubSync => bot_others e currencyPairSyncer
  end.

(** Whether the subsystem [s] of the engine [e] is running after the
    history [h]: the connection manager by its flag in the store [mg], a
    collaborator by what it answers then, a subsystem that was never set
    up not at all. *)
Definition running (E : Env) (e : Engine) (mg : gmap loc connectionManager)
    (h : list Event) (s : Sub) : bool :=
  match s with
  | SubConnection =>
      match bot_connectionManager e with
      | Some l => if mg !! l is Some m then started m =? 1 else false
      | None => false
      end
  | SubDispatch => call_bool E h (lifecycle_IsRunning SubDispatch)
  | _ => if receiver e s is Some _ then call_bool E h (lifecycle_IsRunning s)
         else false
  end.

(** What the [Stop] of a running subsystem [s] does ([inner]) and
    returns ([r]) when called after the history [h]: the connection
    manager shuts its checker down, or has none and says so; a
    collaborator answers. *)
Definition stopping (E : Env) (e : Engine) (mg : gmap loc connectionManager)
    (h : list Event) (s : Sub) (inner : list Event) (r : option error) : Prop :=
  match s with
  | SubConnection =>
      exists l m,
        bot_connectionManager e = Some l /\ mg !! l = Some m
        /\ match conn m with
           | Some c =>
               inner = [EvLog gctlog.Debug gctlog.ConnectionMgr
                          "Connection manager shutting down..." None;
                        EvShutdown c;
                        EvLog gctlog.Debug gctlog.ConnectionMgr
                          "Connection manager stopped." None]
               /\ r = None
           | None =>
               inner = []
               /\ r = Some (Errorf_w "connection manager: %w"
                              errConnectionCheckerIsNil)
           end
  | _ => inner = [] /\ r = call_error E h (lifecycle_Stop s)
  end.

(** What [Engine.Stop] does about the subsystem [s] when it comes to it
    after the history [h]: it asks; a subsystem that is not running is
    left alone; one that is running is stopped, and the error of a
    failed [Stop] is logged. *)
Inductive stop_block (E : Env) (e : Engine) (mg : gmap loc connectionManager)
    (h : list Event) (s : Sub) : list Event -> Prop :=
| block_not_running :
    running E e mg h s = false ->
    stop_block E e mg h s [EvIsRunning s false]
| block_stopped inner :
    running E e mg h s = true ->
    stopping E e mg (h ++ [EvIsRunning s true]) s inner None ->
    stop_block E e mg h s (EvIsRunning s true :: inner ++ [EvStop s None])
| block_stop_failed inner err sl format :
    running E e mg h s = true ->
    stopping E e mg (h ++ [EvIsRunning s true]) s inner (Some err) ->
    stop_block E e mg h s
      (EvIsRunning s true :: inner ++
       [EvStop s (Some err); EvLog gctlog.Error sl format (Some err)]).

(** One block for each subsystem of a list, each after the history the
    earlier ones have left. *)
Inductive stop_blocks (E : Env) (e : Engine) (mg : gmap loc connectionManager)
    : list Event -> list Sub -> list (list Event) -> Prop :=
| blocks_nil h : stop_blocks E e mg h [] []
| blocks_cons h s ss blk blks :
    stop_block E e mg h s blk ->
    stop_blocks E e mg (h ++ blk) ss blks ->
    stop_blocks E e mg h (s :: ss) (blk :: blks).

(** The subsystems [Engine.Stop] goes through, in its order. *)
Definition shutdown_order : list Sub :=
  [SubGCTScript; SubOrder; SubEvent; SubNTP; SubComms; SubPortfolio;
   SubConnection; SubRESTServer; SubWebsocketServer; SubDataHistory;
   SubDatabase; SubDispatch; SubWebsocketRoutine; SubCurrencyState].

(** The connection managers once [Engine.Stop] has been through them:
    the flag of the engine's manager is down if it was up. *)
Definition managers_after (e : Engine) (mg : gmap loc connectionManager)
    : gmap loc connectionManager :=
  match bot_connectionManager e with
  | Some l =>
      match mg !! l with
      | Some m => if started m =? 1 then <[l := set_started 0 m]> mg else mg
      | None => mg
      end
  | None => mg
  end.

(** The log line of a failure, if there is one. *)
Definition failure_line (sl : gctlog.SubLogger) (format : string)
    (r : option error) : list Event :=
  match r with
  | Some err => [EvLog gctlog.Error sl format (Some err)]
  | None => []
  end.

(** What [SaveConfigToFile] does itself: it asks the operating system,
    the file system and the encoder, prompts for the key, logs a failure
    to close the file on the configuration manager's sub logger, and
    warns when no home directory is known. *)
Definition save_call (c : Call) : bool :=
  match c with
  | os_Executable | os_Getenv _ | user_Current | os_UserHomeDir
  | file_Exists _ | file_Writer _ | File_Close | json_MarshalIndent
  | PromptForConfigKey | makeNewSessionDK | Config_encryptConfigFile
  | io_Copy => true
  | _ => false
  end.

Definition save_internal (ev : Event) : Prop :=
  match ev with
  | EvCall c => save_call c = true
  | EvLog gctlog.Error gctlog.ConfigMgr _ (Some _) => True
  | EvLog gctlog.Warn gctlog.Global _ None => True
  | _ => False
  end.

(** Saving the configuration, as [Engine.Stop] does it: the save runs,
    answers, and the engine logs the line that goes with the answer. *)
Inductive save_events : list Event -> Prop :=
| save_failed inner err :
    Forall save_internal inner ->
    save_events (inner ++
                 [EvSave (Some err);
                  EvLog gctlog.Error gctlog.Global "Unable to save config." None])
| save_done inner :
    Forall save_internal inner ->
    save_events (inner ++
                 [EvSave None;
                  EvLog gctlog.Debug gctlog.Global
                    "Config file saved successfully." None]).

(** The last step of [Engine.Stop]: the logger is closed, and a failure
    to close it, which the closed logger cannot take, is reported on the
    logger of the standard library. *)
Definition CloseLogger_step (r : option error) : list Event :=
  EvCall gctlog_CloseLogger ::
  match r with
  | Some err => [EvStdLog "Failed to close logger. Error: %v\n" (Some err)]
  | None => []
  end.

(** [w'] differs from [w] in its trace at most. *)
Definition same_state (w w' : World) : Prop :=
  cfgs w' = cfgs w /\ managers w' = managers w /\ configs w' = configs w
  /\ engines w' = engines w /\ newEngineMutex w' = newEngineMutex w.

(** [w'] is [w] with the engine's connection manager stopped and a trace
    of its own. *)
Definition stopped_state (e : Engine) (w w' : World) : Prop :=
  cfgs w' = cfgs w /\ managers w' = managers_after e (managers w)
  /\ configs w' = configs w /\ engines w' = engines w
  /\ newEngineMutex w' = newEngineMutex w.

(** What saving the configuration leaves alone; the configurations are
    kept where they are, one of them perhaps with a session key. *)
Definition save_frame (w w' : World) : Prop :=
  cfgs w' = cfgs w /\ managers w' = managers w /\ engines w' = engines w
  /\ newEngineMutex w' = newEngineMutex w
  /\ (forall c, is_Some (configs w !! c) -> is_Some (configs w' !! c))
  /\ exists evs, trace w' = trace w ++ evs /\ Forall save_internal evs.

(** [m] returns and stays within [save_frame] wherever the configuration
    at [c] exists. *)
Definition saves {A} (c : loc) (m : M A) : Prop :=
  forall w, is_Some (configs w !! c) ->
            exists r w', m w = (Ret r, w') /\ save_frame w w'.

(** ** Sample environments and states *)

(** An environment whose checker construction fails with [offline], if
    given, and whose other collaborators fail as [failing] says. *)
Definition env_with (offline : option string) (failing : Call -> option error) : Env :=
  {| DefaultDNSList := Some ["8.8.8.8"; "8.8.4.4"; "1.1.1.1"; "1.0.0.1"];
     DefaultDomainList := Some ["www.google.com"; "www.cloudflare.com"];
     DefaultCheckInterval := 1000000000;
     connchecker_New := fun h _ _ _ =>
       match offline with
       | Some text => (None, Some text)
       | None => (Some (CheckerRef (length h)), None)
       end;
     call_error := fun _ c => failing c;
     call_pointer := fun _ c => if failing c is None then Some 7%positive else None;
     call_bool := fun _ _ => true;
     call_time := fun h => Z.of_nat (length h);
     call_text := fun _ _ => "NTP check disabled";
     call_addresses := fun _ => [];
     call_portfolio := fun _ => None;
     GOOS := "linux";
     filepath_Join := fun dir name => String.append dir (String.append "/" name);
     filepath_Dir := fun path => path;
     call_session := fun _ => ([Byte.x01], [Byte.x02]) |}.

Definition env_online : Env := env_with None (fun _ => None).

Definition env_offline : Env := env_with (Some "no connectivity") (fun _ => None).

Definition env_db_down : Env :=
  env_with None
    (fun c => if decide (c = SetupDatabaseConnectionManager)
              then Some (External "db down") else None).


Definition empty_world : World :=
  {| cfgs := ∅; managers := ∅; configs := ∅; engines := ∅; bools := ∅;
     newEngineMutex := false; trace := [] |}.

Definition unset_cfg : config.ConnectionMonitorConfig :=
  {| config.DNSList := None; config.PublicDomainList := None;
     config.CheckInterval := 0 |}.

Definition sample_cfg : config.ConnectionMonitorConfig :=
  {| config.DNSList := Some ["9.9.9.9"]; config.PublicDomainList := None;
     config.CheckInterval := 5000000000 |}.

(** A configuration that was never set up. *)
Definition world_unset : World :=
  upd_cfgs (fun _ => {[ 1%positive := unset_cfg ]}) empty_world.

(** A stopped manager. *)
Definition manager_stopped : connectionManager :=
  {| started := 0; conn := None; cfg := Some 1%positive |}.

Definition world_stopped : World :=
  upd_managers (fun _ => {[ 1%positive := manager_stopped ]})
    (upd_cfgs (fun _ => {[ 1%positive := sample_cfg ]}) empty_world).

(** A manager that claims to run and has no checker. *)
Definition manager_broken : connectionManager :=
  {| started := 1; conn := None; cfg := Some 1%positive |}.

Definition world_broken : World :=
  upd_managers (fun _ => {[ 1%positive := manager_broken ]})
    (upd_cfgs (fun _ => {[ 1%positive := sample_cfg ]}) empty_world).

(** A flag variable holding [true]. *)
Definition world_flag : World :=
  upd_bools (fun _ => {[ 1%positive := true ]}) empty_world.

Definition settings_none : Settings :=
  {| ConfigFile := "config.json"; DataDir := "/data"; EnableDryRun := false;
     EnableDatabaseManager := false; EnableDispatcher := false;
     EnableConnectivityMonitor := false; EnableNTPClient := false;
     ExchangePurgeCredentials := false; EnableCommsRelayer := false;
     EnableGRPC := false; EnablePortfolioManager := false;
     EnableDataHistoryManager := false; EnableDeprecatedRPC := false;
     EnableWebsocketRPC := false; EnableDepositAddressManager := false;
     EnableOrderManager := false; EnableExchangeSyncManager := false;
     EnableEventManager := false; EnableWebsocketRoutine := false;
     EnableGCTScriptManager := false; EnableCurrencyStateManager := false |}.

(** Only the database manager and the dispatcher are enabled. *)
Definition settings_db : Settings :=
  {| ConfigFile := "config.json"; DataDir := "/data"; EnableDryRun := false;
     EnableDatabaseManager := true; EnableDispatcher := true;
     EnableConnectivityMonitor := false; EnableNTPClient := false;
     ExchangePurgeCredentials := false; EnableCommsRelayer := false;
     EnableGRPC := false; EnablePortfolioManager := false;
     EnableDataHistoryManager := false; EnableDeprecatedRPC := false;
     EnableWebsocketRPC := false; EnableDepositAddressManager := false;
     EnableOrderManager := false; EnableExchangeSyncManager := false;
     EnableEventManager := false; EnableWebsocketRoutine := false;
     EnableGCTScriptManager := false; EnableCurrencyStateManager := false |}.

Definition sample_Config : config.Config :=
  {| config.Name := "gotradebot"; config.ConnectionMonitor := 1%positive;
     config.NTPClient_Level := 0; config.Logging_Enabled := Some true;
     config.Logging_Output := "console"; config.Portfolio := config.BaseOf [];
     config.EncryptConfig := config.fileEncryptionDisabled;
     config.storedSalt := []; config.sessionDK := [] |}.

(** An engine that has not been started. *)
Definition engine_idle : Engine :=
  {| bot_Config := Some 1%positive; bot_connectionManager := None;
     bot_DatabaseManager := None; bot_Settings := settings_db;
     bot_uptime := 0; bot_others := fun _ => None |}.

Definition world_idle : World :=
  upd_engines (fun _ => {[ 1%positive := engine_idle ]})
    (upd_configs (fun _ => {[ 1%positive := sample_Config ]})
       (upd_cfgs (fun _ => {[ 1%positive := sample_cfg ]}) empty_world)).

(** An engine of which only the connection manager and the order manager
    were set up; every other subsystem field is nil. *)
Definition manager_running : connectionManager :=
  {| started := 1; conn := Some (CheckerRef 3); cfg := Some 1%positive |}.

Definition engine_up : Engine :=
  {| bot_Config := Some 1%positive; bot_connectionManager := Some 1%positive;
     bot_DatabaseManager := None; bot_Settings := settings_none;
     bot_uptime := 0;
     bot_others := fun f => if decide (f = OrderManager) then Some 5%positive else None |}.

Definition world_up : World :=
  upd_engines (fun _ => {[ 1%positive := engine_up ]})
    (upd_managers (fun _ => {[ 1%positive := manager_running ]})
       (upd_configs (fun _ => {[ 1%positive := sample_Config ]})
          (upd_cfgs (fun _ => {[ 1%positive := sample_cfg ]}) empty_world))).

(** Only the exchange sync manager is enabled. *)
Definition settings_sync : Settings :=
  {| ConfigFile := "config.json"; DataDir := "/data"; EnableDryRun := false;
     EnableDatabaseManager := false; EnableDispatcher := false;
     EnableConnectivityMonitor := false; EnableNTPClient := false;
     ExchangePurgeCredentials := false; EnableCommsRelayer := false;
     EnableGRPC := false; EnablePortfolioManager := false;
     EnableDataHistoryManager := false; EnableDeprecatedRPC := false;
     EnableWebsocketRPC := false; EnableDepositAddressManager := false;
     EnableOrderManager := false; EnableExchangeSyncManager := true;
     EnableEventManager := false; EnableWebsocketRoutine := false;
     EnableGCTScriptManager := false; EnableCurrencyStateManager := false |}.

Definition engine_sync : Engine :=
  {| bot_Config := Some 1%positive; bot_connectionManager := None;
     bot_DatabaseManager := None; bot_Settings := settings_sync;
     bot_uptime := 0; bot_others := fun _ => None |}.

Definition world_sync : World :=
  upd_engines (fun _ => {[ 1%positive := engine_sync ]})
    (upd_configs (fun _ => {[ 1%positive := sample_Config ]})
       (upd_cfgs (fun _ => {[ 1%positive := sample_cfg ]}) empty_world)).

(** The state [Start] leaves behind on [world_sync]. *)
Definition world_synced : World :=
  (Engine_Start env_online (Some 1%positive) world_sync).2.

(** ** connection_manager.go: IsOnline *)

(** ** connection_manager.go: IsOnline *)

Section IsOnline.

(** [c.IsConnected()] of package [connchecker], as it answers after the
    given history. *)
Variable IsConnected : list Event -> Checker -> bool.

(** [func (m *connectionManager) IsOnline() bool] *)
Definition connectionManager_IsOnline (m : option loc) : M bool :=
  match m with
  | None => ret false
  | Some l =>
      mv <- load_manager l ;;
      match conn mv with
      | None =>
          modify (emit (EvLog gctlog.Warn gctlog.ConnectionMgr
                          "Connection manager: IsOnline called but conn is nil" None)) ;;;
          ret false
      | Some c => fun w => (Ret (IsConnected (trace w) c), w)
      end
  end.

End IsOnline.

(** ** Package common: two helpers on slices of strings *)

Module common.

(** The innermost loop of [StringSliceDifference]: is [s1] among
    [slice2]? *)
Fixpoint found (s1 : string) (slice2 : list string) : bool :=
  match slice2 with
  | [] => false
  | s2 :: rest => if bool_decide (s1 = s2) then true else found s1 rest
  end.

(** [append(diff, s)]: the nil slice becomes a slice of one element. *)
Definition append (diff : option (list string)) (s : string) : option (list string) :=
  Some (default [] diff ++ [s]).

(** One round of the outer loop: the members of [slice1] that are not in
    [slice2] are appended to [diff], in their order. *)
Fixpoint missing (slice1 slice2 : list string) (diff : option (list string))
    : option (list string) :=
  match slice1 with
  | [] => diff
  | s1 :: rest =>
      missing rest slice2 (if found s1 slice2 then diff else append diff s1)
  end.

(** [func StringSliceDifference(slice1, slice2 []string) []string]: two
    rounds, the slices swapped after the first; the result is nil when
    nothing was appended.  Ranging over a nil slice is ranging over an
    empty one. *)
Definition StringSliceDifference (slice1 slice2 : option (list string))
    : option (list string) :=
  let l1 := default [] slice1 in
  let l2 := default [] slice2 in
  missing l2 l1 (missing l1 l2 None).

(** [int(limit)] for a [uint] of 64 bits. *)
Definition int_of_uint (limit : Z) : Z :=
  if limit <? 2 ^ 63 then limit else limit - 2 ^ 64.

(** The loop of [SplitStringSliceByLimit]; [limit] is the [uint], [il]
    is [int(limit)].  Slicing [in[:limit]] beyond the capacity panics;
    the capacity of [in] is at least its length and below [2 ^ 63].  A
    loop that has not come to its end when the fuel is used up has not
    returned. *)
Fixpoint split_loop (fuel : nat) (inp : list string) (limit il : Z)
    (sliceSlice : list (list string)) : Outcome (list (list string) * list string) :=
  if Z.of_nat (length inp) <? il then Ret (sliceSlice, inp)
  else
    match fuel with
    | O => Blocked
    | S fuel' =>
        if 2 ^ 63 <=? limit then Panic "slice bounds out of range"
        else
          split_loop fuel' (drop (Z.to_nat limit) inp) limit il
            (sliceSlice ++ [take (Z.to_nat limit) inp])
    end.

(** [func SplitStringSliceByLimit(in []string, limit uint) [][]string].
    The division for the capacity panics on [int(limit) = 0]; [make]
    panics on a negative capacity.  Go divides towards zero. *)
Definition SplitStringSliceByLimit (inp : list string) (limit : Z)
    : Outcome (list (list string)) :=
  let il := int_of_uint limit in
  if il =? 0 then Panic "integer divide by zero"
  else if Z.quot (Z.of_nat (length inp)) il + 1 <? 0
  then Panic "makeslice: cap out of range"
  else
    match split_loop (S (length inp)) inp limit il [] with
    | Ret (sliceSlice, rest) =>
        Ret (if bool_decide (0 < length rest)%nat then sliceSlice ++ [rest]
             else sliceSlice)
    | Panic reason => Panic reason
    | Blocked => Blocked
    end.

End common.

(** ** Vocabulary of the further statements *)

(** What a part of [Engine.Start] other than the connectivity monitor
    leaves alone: the connection managers and configurations, the mutex,
    the history so far, and the engine's settings, configuration pointer
    and connection manager pointer. *)
Definition start_frame (b : loc) (w w' : World) : Prop :=
  managers w' = managers w /\ cfgs w' = cfgs w /\ configs w' = configs w
  /\ newEngineMutex w' = newEngineMutex w
  /\ (exists evs, trace w' = trace w ++ evs)
  /\ (forall e, engines w !! b = Some e ->
        exists e', engines w' !! b = Some e'
          /\ bot_Settings e' = bot_Settings e /\ bot_Config e' = bot_Config e
          /\ bot_connectionManager e' = bot_connectionManager e).

(** The collaborators whose failure makes [Engine.Start] return. *)
Definition hard_call (c : Call) : Prop :=
  c = Config_SetNTPCheck \/ c = SetupExchanges \/ c = SetupWithdrawManager
  \/ c = config_GetAndMigrateDefaultPath.

(** What [Engine.Start] returns for the error [err] of such a call. *)
Definition returned_for (c : Call) (err : error) : error :=
  match c with
  | Config_SetNTPCheck => Errorf_w "unable to set NTP check: %w" err
  | _ => err
  end.

(** [r] is nil, or it is the error of a hard call that failed and that was
    the last thing done in the history [tr]. *)
Definition hard_outcome (E : Env) (r : option error) (tr : list Event) : Prop :=
  match r with
  | None => True
  | Some res =>
      exists c h err,
        hard_call c /\ tr = h ++ [EvCall c] /\ call_error E h c = Some err
        /\ res = returned_for c err
  end.

(** The engine at [b] has the settings [st] and the configuration [cv],
    kept at [c]. *)
Definition ready (b : loc) (st : Settings) (c : loc) (cv : config.Config)
    (w : World) : Prop :=
  exists e, engines w !! b = Some e /\ bot_Settings e = st
            /\ bot_Config e = Some c /\ configs w !! c = Some cv.

(** The engine at [b] has a connection manager whose flag is 1. *)
Definition monitored (b : loc) (w : World) : Prop :=
  exists e l m, engines w !! b = Some e /\ bot_connectionManager e = Some l
                /\ managers w !! l = Some m /\ started m = 1.

(** Where [Engine.Start] stands part way: the engine is as [ready] says,
    the mutex is [mx], and the connection manager runs if [Q] holds. *)
Definition underway (b : loc) (st : Settings) (c : loc) (cv : config.Config)
    (mx : bool) (Q : Prop) (w : World) : Prop :=
  ready b st c cv w /\ newEngineMutex w = mx /\ (Q -> monitored b w).

(** The connectivity checker can always be built. *)
Definition always_online (E : Env) : Prop :=
  forall h dns doms iv, (connchecker_New E h dns doms iv).2 = None.

(** Every collaborator called in [evs], a run that starts after the
    history [h], returned a nil error. *)
Fixpoint all_succeeded (E : Env) (h evs : list Event) : Prop :=
  match evs with
  | [] => True
  | ev :: rest =>
      (if ev is EvCall k then call_error E h k = None else True)
      /\ all_succeeded E (h ++ [ev]) rest
  end.

(** ** Further sample states *)

(** Only the connectivity monitor and the NTP client are enabled. *)
Definition settings_monitor : Settings :=
  {| ConfigFile := "config.json"; DataDir := "/data"; EnableDryRun := false;
     EnableDatabaseManager := false; EnableDispatcher := false;
     EnableConnectivityMonitor := true; EnableNTPClient := true;
     ExchangePurgeCredentials := false; EnableCommsRelayer := false;
     EnableGRPC := false; EnablePortfolioManager := false;
     EnableDataHistoryManager := false; EnableDeprecatedRPC := false;
     EnableWebsocketRPC := false; EnableDepositAddressManager := false;
     EnableOrderManager := false; EnableExchangeSyncManager := false;
     EnableEventManager := false; EnableWebsocketRoutine := false;
     EnableGCTScriptManager := false; EnableCurrencyStateManager := false |}.

Definition engine_monitor : Engine :=
  {| bot_Config := Some 1%positive; bot_connectionManager := None;
     bot_DatabaseManager := None; bot_Settings := settings_monitor;
     bot_uptime := 0; bot_others := fun _ => None |}.

Definition world_monitor : World :=
  upd_engines (fun _ => {[ 1%positive := engine_monitor ]})
    (upd_configs (fun _ => {[ 1%positive := sample_Config ]})
       (upd_cfgs (fun _ => {[ 1%positive := sample_cfg ]}) empty_world)).

(** A configuration that is to be saved encrypted and has no session key
    yet. *)
Definition encrypting_Config : config.Config :=
  {| config.Name := "gotradebot"; config.ConnectionMonitor := 1%positive;
     config.NTPClient_Level := 0; config.Logging_Enabled := Some true;
     config.Logging_Output := "console"; config.Portfolio := config.BaseOf [];
     config.EncryptConfig := config.fileEncryptionEnabled;
     config.storedSalt := []; config.sessionDK := [] |}.

Definition world_encrypting : World :=
  upd_configs (fun _ => {[ 1%positive := encrypting_Config ]}) empty_world.

(** * Properties *)

(** ** Running monadic code *)

Lemma bind_Ret {A B} (m : M A) (k : A -> M B) w a w' :
  m w = (Ret a, w') -> bind m k w = k a w'.
Proof. intros H. unfold bind. by rewrite H. Qed.

Lemma bind_assoc {A B C} (m : M A) (k1 : A -> M B) (k2 : B -> M C) w :
  bind (bind m k1) k2 w = bind m (fun a => bind (k1 a) k2) w.
Proof. unfold bind. by destruct (m w) as [[a|r|] w']. Qed.

Lemma load_manager_Some l m w :
  managers w !! l = Some m -> load_manager l w = (Ret m, w).
Proof. intros H. unfold load_manager. by rewrite H. Qed.

Lemma load_cfg_Some l c w :
  cfgs w !! l = Some c -> load_cfg l w = (Ret c, w).
Proof. intros H. unfold load_cfg. by rewrite H. Qed.

Lemma atomic_LoadInt32_Some l m w :
  managers w !! l = Some m -> atomic_LoadInt32 l w = (Ret (started m), w).
Proof.
  intros H. unfold atomic_LoadInt32.
  by rewrite (bind_Ret _ _ _ _ _ (load_manager_Some _ _ _ H)).
Qed.

Lemma store_manager_Some l m f w :
  managers w !! l = Some m ->
  store_manager l f w = (Ret tt, upd_managers (fun h => <[l := f m]> h) w).
Proof.
  intros H. unfold store_manager.
  by rewrite (bind_Ret _ _ _ _ _ (load_manager_Some _ _ _ H)).
Qed.

Lemma store_cfg_Some l c f w :
  cfgs w !! l = Some c ->
  store_cfg l f w = (Ret tt, upd_cfgs (fun h => <[l := f c]> h) w).
Proof.
  intros H. unfold store_cfg.
  by rewrite (bind_Ret _ _ _ _ _ (load_cfg_Some _ _ _ H)).
Qed.

Lemma load_engine_Some b e w :
  engines w !! b = Some e -> load_engine b w = (Ret e, w).
Proof. intros H. unfold load_engine. by rewrite H. Qed.

Lemma store_engine_Some b e f w :
  engines w !! b = Some e ->
  store_engine b f w = (Ret tt, upd_engines (fun h => <[b := f e]> h) w).
Proof.
  intros H. unfold store_engine.
  by rewrite (bind_Ret _ _ _ _ _ (load_engine_Some _ _ _ H)).
Qed.

Lemma Config_of_Some b e c cv w :
  engines w !! b = Some e -> bot_Config e = Some c -> configs w !! c = Some cv ->
  Config_of b w = (Ret (c, cv), w).
Proof.
  intros Hb Hc Hcv. unfold Config_of.
  rewrite (bind_Ret _ _ _ _ _ (load_engine_Some _ _ _ Hb)), Hc. by rewrite Hcv.
Qed.

(** A compare-and-swap that finds the expected value writes the new one. *)
Lemma CAS_hit l m old new w :
  managers w !! l = Some m -> started m = old ->
  atomic_CompareAndSwapInt32 l old new w
  = (Ret true, upd_managers (fun h => <[l := set_started new m]> h) w).
Proof.
  intros H Hs. unfold atomic_CompareAndSwapInt32.
  rewrite (bind_Ret _ _ _ _ _ (load_manager_Some _ _ _ H)).
  rewrite Hs, Z.eqb_refl.
  by rewrite (bind_Ret _ _ _ _ _ (store_manager_Some _ _ _ _ H)).
Qed.

(** One that finds another value changes nothing. *)
Lemma CAS_miss l m old new w :
  managers w !! l = Some m -> started m <> old ->
  atomic_CompareAndSwapInt32 l old new w = (Ret false, w).
Proof.
  intros H Hs. unfold atomic_CompareAndSwapInt32.
  rewrite (bind_Ret _ _ _ _ _ (load_manager_Some _ _ _ H)).
  by apply Z.eqb_neq in Hs as ->.
Qed.

Ltac lookup_now :=
  simpl; first [ eassumption | apply lookup_insert_eq
               | rewrite lookup_insert_eq; reflexivity ].

Ltac step_by :=
  first [ eapply load_manager_Some; lookup_now
        | eapply load_cfg_Some; lookup_now
        | eapply atomic_LoadInt32_Some; lookup_now
        | eapply store_manager_Some; lookup_now
        | eapply store_cfg_Some; lookup_now
        | eapply CAS_hit; [lookup_now | simpl; first [eassumption | reflexivity] ]
        | reflexivity ].

(** Run the first statement of the program in the goal. *)
Ltac step :=
  match goal with
  | |- context [bind ?m ?k ?w] => erewrite (bind_Ret m k w) by step_by
  end; simpl.

Lemma count_New_app tr1 tr2 :
  count_New (tr1 ++ tr2) = (count_New tr1 + count_New tr2)%nat.
Proof. induction tr1 as [|ev tr1 IH]; simpl; [done|]. rewrite IH. lia. Qed.

(** ** The connection manager *)

Lemma IsRunning_at l w m :
  managers w !! l = Some m ->
  connectionManager_IsRunning (Some l) w = (Ret (started m =? 1), w).
Proof.
  intros H. unfold connectionManager_IsRunning.
  by rewrite (bind_Ret _ _ _ _ _ (atomic_LoadInt32_Some _ _ _ H)).
Qed.

(** [Start] on a stopped manager whose checker can be built. *)
Lemma Start_ok E l w m c cv chk :
  managers w !! l = Some m -> started m = 0 -> cfg m = Some c ->
  cfgs w !! c = Some cv ->
  connchecker_New E (trace w ++ [starting_event])
    (config.DNSList cv) (config.PublicDomainList cv) (config.CheckInterval cv)
  = (chk, None) ->
  exists w1,
    connectionManager_Start E (Some l) w = (Ret None, w1)
    /\ managers w1 !! l = Some {| started := 1; conn := chk; cfg := Some c |}
    /\ cfgs w1 = cfgs w
    /\ trace w1 = trace w ++
        [starting_event;
         EvNew (config.DNSList cv) (config.PublicDomainList cv) (config.CheckInterval cv);
         EvLog gctlog.Debug gctlog.ConnectionMgr "Connection manager started." None].
Proof.
  intros H Hs Hc Hcv HN. unfold starting_event in *.
  eexists. split.
  - unfold connectionManager_Start.
    step. step. step. rewrite Hc. step.
    unfold call_connchecker_New. unfold bind at 1. simpl. rewrite HN. simpl.
    step. step. reflexivity.
  - simpl. rewrite lookup_insert_eq, <- !app_assoc. simpl.
    unfold set_conn, set_started; simpl. by rewrite Hc.
Qed.

(** [Start] on a stopped manager whose checker cannot be built. *)
Lemma Start_fail E l w m c cv chk text :
  managers w !! l = Some m -> started m = 0 -> cfg m = Some c ->
  cfgs w !! c = Some cv ->
  connchecker_New E (trace w ++ [starting_event])
    (config.DNSList cv) (config.PublicDomainList cv) (config.CheckInterval cv)
  = (chk, Some text) ->
  exists w1,
    connectionManager_Start E (Some l) w = (Ret (Some (External text)), w1)
    /\ managers w1 !! l = Some {| started := 0; conn := chk; cfg := Some c |}
    /\ cfgs w1 = cfgs w
    /\ trace w1 = trace w ++
        [starting_event;
         EvNew (config.DNSList cv) (config.PublicDomainList cv) (config.CheckInterval cv)].
Proof.
  intros H Hs Hc Hcv HN. unfold starting_event in *.
  eexists. split.
  - unfold connectionManager_Start.
    step. step. step. rewrite Hc. step.
    unfold call_connchecker_New. unfold bind at 1. simpl. rewrite HN. simpl.
    step. step. reflexivity.
  - simpl. rewrite lookup_insert_eq, <- !app_assoc. simpl.
    unfold set_conn, set_started; simpl. by rewrite Hc.
Qed.

(** [Start] on a manager whose flag is not 0. *)
Lemma Start_already E l w m :
  managers w !! l = Some m -> started m <> 0 ->
  connectionManager_Start E (Some l) w
  = (Ret (Some (Errorf_w "connection manager %w" ErrSubSystemAlreadyStarted)), w).
Proof.
  intros H Hs. unfold connectionManager_Start.
  by rewrite (bind_Ret _ _ _ _ _ (CAS_miss _ _ _ _ _ H Hs)).
Qed.

(** [Stop] on a running manager, with or without a checker. *)
Lemma Stop_running l w m :
  managers w !! l = Some m -> started m = 1 ->
  exists w1 r,
    connectionManager_Stop (Some l) w = (Ret r, w1)
    /\ managers w1 = <[l := set_started 0 m]> (managers w)
    /\ cfgs w1 = cfgs w /\ engines w1 = engines w /\ configs w1 = configs w
    /\ newEngineMutex w1 = newEngineMutex w
    /\ r = (if conn m is None
            then Some (Errorf_w "connection manager: %w" errConnectionCheckerIsNil)
            else None)
    /\ trace w1 = trace w ++
         (if conn m is Some c
          then [EvLog gctlog.Debug gctlog.ConnectionMgr
                  "Connection manager shutting down..." None;
                EvShutdown c;
                EvLog gctlog.Debug gctlog.ConnectionMgr
                  "Connection manager stopped." None]
          else []).
Proof.
  intros H Hs. unfold connectionManager_Stop.
  step. rewrite Hs. simpl. unfold with_defer.
  destruct (conn m) as [c|] eqn:Hc; eexists _, _.
  - step. rewrite Hc. repeat step. unfold ret, connectionManager_Stop_deferred.
    erewrite CAS_hit by (simpl; eauto). simpl.
    split; [reflexivity|]. simpl. by rewrite <- !app_assoc.
  - step. rewrite Hc. unfold ret, connectionManager_Stop_deferred.
    erewrite CAS_hit by (simpl; eauto). simpl.
    split; [reflexivity|]. simpl. by rewrite app_nil_r.
Qed.

(** [setupConnectionManager] on a configuration that exists. *)
Lemma setup_ok E c cv w :
  cfgs w !! c = Some cv ->
  exists l w1,
    setupConnectionManager E (Some c) w = (Ret (Some l, None), w1)
    /\ managers w !! l = None
    /\ managers w1 = <[l := {| started := 0; conn := None; cfg := Some c |}]> (managers w)
    /\ cfgs w1 = <[c := with_defaults E cv]> (cfgs w)
    /\ trace w1 = trace w
    /\ configs w1 = configs w /\ engines w1 = engines w /\ bools w1 = bools w
    /\ newEngineMutex w1 = newEngineMutex w.
Proof.
  intros Hcv. unfold setupConnectionManager, with_defaults.
  exists (fresh (dom (managers w))).
  assert (Hfresh : managers w !! fresh (dom (managers w)) = None).
  { apply not_elem_of_dom, is_fresh. }
  destruct cv as [dns doms iv]; simpl in *.
  destruct dns as [dns|], doms as [doms|], (iv =? 0) eqn:Hiv;
    eexists; (split; [repeat (step; rewrite ?Hiv); reflexivity|]); simpl;
    rewrite ?insert_insert_eq; repeat split; try done;
    symmetry; by apply insert_id.
Qed.

(** C4. On a nil [*connectionManager], [Start] and [Stop] return an error
    that wraps [ErrNilSubsystem] and [IsRunning] returns [false]; each
    returns normally and leaves the world as it was. *)
Theorem connectionManager_nil_receiver E w :
  connectionManager_Start E None w
  = (Ret (Some (Errorf_w "connection manager %w" ErrNilSubsystem)), w)
  /\ connectionManager_Stop None w
     = (Ret (Some (Errorf_w "connection manager: %w" ErrNilSubsystem)), w)
  /\ connectionManager_IsRunning None w = (Ret false, w)
  /\ errors_Is (Errorf_w "connection manager %w" ErrNilSubsystem) ErrNilSubsystem = true
  /\ errors_Is (Errorf_w "connection manager: %w" ErrNilSubsystem) ErrNilSubsystem = true.
Proof. repeat split. Qed.

(** C2. On a stopped manager whose checker can be built, the first
    [Start] swaps the flag from 0 to 1 and returns nil; a second [Start]
    returns an error wrapping [ErrSubSystemAlreadyStarted] and leaves the
    world exactly as the first left it, so [conn] is not assigned again
    and over both calls the checker is built once. *)
Theorem connectionManager_Start_twice E l w m c cv chk :
  managers w !! l = Some m -> started m = 0 -> cfg m = Some c ->
  cfgs w !! c = Some cv ->
  connchecker_New E (trace w ++ [starting_event])
    (config.DNSList cv) (config.PublicDomainList cv) (config.CheckInterval cv)
  = (chk, None) ->
  exists w0 w1,
    atomic_CompareAndSwapInt32 l 0 1 w = (Ret true, w0)
    /\ started_at l w0 = Some 1
    /\ connectionManager_Start E (Some l) w = (Ret None, w1)
    /\ started_at l w1 = Some 1
    /\ connectionManager_Start E (Some l) w1
       = (Ret (Some (Errorf_w "connection manager %w" ErrSubSystemAlreadyStarted)), w1)
    /\ errors_Is (Errorf_w "connection manager %w" ErrSubSystemAlreadyStarted)
         ErrSubSystemAlreadyStarted = true
    /\ count_New (trace w1) = S (count_New (trace w)).
Proof.
  intros H Hs Hc Hcv HN.
  destruct (Start_ok E l w m c cv chk H Hs Hc Hcv HN) as (w1 & H1 & Hm1 & _ & Htr).
  eexists _, w1. split; [by apply CAS_hit|].
  split; [unfold started_at; simpl; by rewrite lookup_insert_eq|].
  split; [done|]. split; [unfold started_at; by rewrite Hm1|].
  split; [by apply (Start_already E l w1 _ Hm1)|]. split; [done|].
  rewrite Htr, count_New_app. simpl. lia.
Qed.

Lemma connectionManager_Start_twice_witness :
  exists w0 w1,
    atomic_CompareAndSwapInt32 1%positive 0 1 world_stopped = (Ret true, w0)
    /\ started_at 1%positive w0 = Some 1
    /\ connectionManager_Start env_online (Some 1%positive) world_stopped = (Ret None, w1)
    /\ started_at 1%positive w1 = Some 1
    /\ connectionManager_Start env_online (Some 1%positive) w1
       = (Ret (Some (Errorf_w "connection manager %w" ErrSubSystemAlreadyStarted)), w1)
    /\ errors_Is (Errorf_w "connection manager %w" ErrSubSystemAlreadyStarted)
         ErrSubSystemAlreadyStarted = true
    /\ count_New (trace w1) = S (count_New (trace world_stopped)).
Proof.
  apply (connectionManager_Start_twice env_online 1%positive world_stopped
           manager_stopped 1%positive sample_cfg (Some (CheckerRef 1)));
    reflexivity.
Defined.

(** C3. On a stopped manager whose checker cannot be built, [Start]
    returns the error after putting the flag back to 0: [IsRunning] is
    then [false], and the next [Start] is not turned away with
    [ErrSubSystemAlreadyStarted] but gets as far as building a checker
    again. *)
Theorem connectionManager_Start_rollback E l w m c cv chk text :
  managers w !! l = Some m -> started m = 0 -> cfg m = Some c ->
  cfgs w !! c = Some cv ->
  connchecker_New E (trace w ++ [starting_event])
    (config.DNSList cv) (config.PublicDomainList cv) (config.CheckInterval cv)
  = (chk, Some text) ->
  exists w1 r2 w2,
    connectionManager_Start E (Some l) w = (Ret (Some (External text)), w1)
    /\ started_at l w1 = Some 0
    /\ connectionManager_IsRunning (Some l) w1 = (Ret false, w1)
    /\ connectionManager_Start E (Some l) w1 = (Ret r2, w2)
    /\ (forall err, r2 = Some err -> errors_Is err ErrSubSystemAlreadyStarted = false)
    /\ count_New (trace w2) = S (count_New (trace w1)).
Proof.
  intros H Hs Hc Hcv HN.
  destruct (Start_fail E l w m c cv chk text H Hs Hc Hcv HN)
    as (w1 & H1 & Hm1 & Hc1 & Htr).
  assert (Hcv1 : cfgs w1 !! c = Some cv) by (by rewrite Hc1).
  destruct (connchecker_New E (trace w1 ++ [starting_event])
              (config.DNSList cv) (config.PublicDomainList cv) (config.CheckInterval cv))
    as [chk2 [text2|]] eqn:HN2.
  - destruct (Start_fail E l w1 _ c cv chk2 text2 Hm1 eq_refl eq_refl Hcv1 HN2)
      as (w2 & H2 & _ & _ & Htr2).
    exists w1, (Some (External text2)), w2.
    split; [done|]. split; [unfold started_at; by rewrite Hm1|].
    split; [by rewrite (IsRunning_at _ _ _ Hm1)|].
    split; [done|]. split; [by intros err [= <-]|].
    rewrite Htr2, count_New_app. simpl. lia.
  - destruct (Start_ok E l w1 _ c cv chk2 Hm1 eq_refl eq_refl Hcv1 HN2)
      as (w2 & H2 & _ & _ & Htr2).
    exists w1, None, w2.
    split; [done|]. split; [unfold started_at; by rewrite Hm1|].
    split; [by rewrite (IsRunning_at _ _ _ Hm1)|].
    split; [done|]. split; [by intros err [=]|].
    rewrite Htr2, count_New_app. simpl. lia.
Qed.

Lemma connectionManager_Start_rollback_witness :
  exists w1 r2 w2,
    connectionManager_Start env_offline (Some 1%positive) world_stopped
    = (Ret (Some (External "no connectivity")), w1)
    /\ started_at 1%positive w1 = Some 0
    /\ connectionManager_IsRunning (Some 1%positive) w1 = (Ret false, w1)
    /\ connectionManager_Start env_offline (Some 1%positive) w1 = (Ret r2, w2)
    /\ (forall err, r2 = Some err -> errors_Is err ErrSubSystemAlreadyStarted = false)
    /\ count_New (trace w2) = S (count_New (trace w1)).
Proof.
  apply (connectionManager_Start_rollback env_offline 1%positive world_stopped
           manager_stopped 1%positive sample_cfg None "no connectivity");
    reflexivity.
Defined.

(** C7. After [setupConnectionManager] on a configuration, with a checker
    that can be built every time, [Start], [Stop], [Start] ends with a
    [Start] that returns nil: the manager is stopped, running, stopped
    and running again. *)
Theorem connectionManager_restart E c cv w :
  cfgs w !! c = Some cv ->
  (forall h dns doms iv, (connchecker_New E h dns doms iv).2 = None) ->
  exists l w1 w2 r w3 w4,
    setupConnectionManager E (Some c) w = (Ret (Some l, None), w1)
    /\ connectionManager_IsRunning (Some l) w1 = (Ret false, w1)
    /\ connectionManager_Start E (Some l) w1 = (Ret None, w2)
    /\ connectionManager_IsRunning (Some l) w2 = (Ret true, w2)
    /\ connectionManager_Stop (Some l) w2 = (Ret r, w3)
    /\ connectionManager_IsRunning (Some l) w3 = (Ret false, w3)
    /\ connectionManager_Start E (Some l) w3 = (Ret None, w4)
    /\ connectionManager_IsRunning (Some l) w4 = (Ret true, w4).
Proof.
  intros Hcv HN.
  destruct (setup_ok E c cv w Hcv) as (l & w1 & H1 & _ & Hm1 & Hc1 & _).
  assert (Hl1 : managers w1 !! l = Some {| started := 0; conn := None; cfg := Some c |})
    by (rewrite Hm1; apply lookup_insert_eq).
  assert (Hcv1 : cfgs w1 !! c = Some (with_defaults E cv))
    by (rewrite Hc1; apply lookup_insert_eq).
  set (cd := with_defaults E cv) in *.
  destruct (connchecker_New E (trace w1 ++ [starting_event])
              (config.DNSList cd) (config.PublicDomainList cd) (config.CheckInterval cd))
    as [chk e1] eqn:HN1.
  assert (e1 = None) as -> by (by rewrite <- (HN (trace w1 ++ [starting_event])
    (config.DNSList cd) (config.PublicDomainList cd) (config.CheckInterval cd)), HN1).
  destruct (Start_ok E l w1 _ c cd chk Hl1 eq_refl eq_refl Hcv1 HN1)
    as (w2 & H2 & Hl2 & Hc2 & _).
  destruct (Stop_running l w2 _ Hl2 eq_refl) as (w3 & r & H3 & Hm3 & Hc3 & _).
  assert (Hl3 : managers w3 !! l
                = Some (set_started 0 {| started := 1; conn := chk; cfg := Some c |}))
    by (rewrite Hm3; apply lookup_insert_eq).
  assert (Hcv3 : cfgs w3 !! c = Some cd) by (by rewrite Hc3, Hc2).
  destruct (connchecker_New E (trace w3 ++ [starting_event])
              (config.DNSList cd) (config.PublicDomainList cd) (config.CheckInterval cd))
    as [chk' e3] eqn:HN3.
  assert (e3 = None) as -> by (by rewrite <- (HN (trace w3 ++ [starting_event])
    (config.DNSList cd) (config.PublicDomainList cd) (config.CheckInterval cd)), HN3).
  destruct (Start_ok E l w3 _ c cd chk' Hl3 eq_refl eq_refl Hcv3 HN3)
    as (w4 & H4 & Hl4 & _).
  exists l, w1, w2, r, w3, w4.
  rewrite (IsRunning_at _ _ _ Hl1), (IsRunning_at _ _ _ Hl2),
    (IsRunning_at _ _ _ Hl3), (IsRunning_at _ _ _ Hl4).
  by repeat split.
Qed.

Lemma connectionManager_restart_witness :
  exists l w1 w2 r w3 w4,
    setupConnectionManager env_online (Some 1%positive) world_unset
    = (Ret (Some l, None), w1)
    /\ connectionManager_IsRunning (Some l) w1 = (Ret false, w1)
    /\ connectionManager_Start env_online (Some l) w1 = (Ret None, w2)
    /\ connectionManager_IsRunning (Some l) w2 = (Ret true, w2)
    /\ connectionManager_Stop (Some l) w2 = (Ret r, w3)
    /\ connectionManager_IsRunning (Some l) w3 = (Ret false, w3)
    /\ connectionManager_Start env_online (Some l) w3 = (Ret None, w4)
    /\ connectionManager_IsRunning (Some l) w4 = (Ret true, w4).
Proof.
  apply (connectionManager_restart env_online 1%positive unset_cfg world_unset).
  - reflexivity.
  - intros h dns doms iv. reflexivity.
Defined.

(** C8. [setupConnectionManager(nil)] returns nil and [errNilConfig]; on
    a configuration it returns a new manager and no error, the
    configuration then holding the defaults in place of a nil [DNSList],
    a nil [PublicDomainList] and a zero [CheckInterval]; the manager is
    not running and nothing has been started: the trace has not grown. *)
Theorem setupConnectionManager_defaults E w c cv :
  cfgs w !! c = Some cv ->
  setupConnectionManager E None w = (Ret (None, Some errNilConfig), w)
  /\ exists l w1,
       setupConnectionManager E (Some c) w = (Ret (Some l, None), w1)
       /\ managers w !! l = None
       /\ managers w1 !! l = Some {| started := 0; conn := None; cfg := Some c |}
       /\ cfgs w1 !! c = Some (with_defaults E cv)
       /\ connectionManager_IsRunning (Some l) w1 = (Ret false, w1)
       /\ trace w1 = trace w.
Proof.
  intros Hcv. split; [done|].
  destruct (setup_ok E c cv w Hcv) as (l & w1 & H1 & Hf & Hm1 & Hc1 & Htr & _).
  assert (Hl1 : managers w1 !! l = Some {| started := 0; conn := None; cfg := Some c |})
    by (rewrite Hm1; apply lookup_insert_eq).
  exists l, w1. rewrite (IsRunning_at _ _ _ Hl1), Hc1, lookup_insert_eq.
  by repeat split.
Qed.

Lemma setupConnectionManager_defaults_witness :
  setupConnectionManager env_online None world_unset
  = (Ret (None, Some errNilConfig), world_unset)
  /\ exists l w1,
       setupConnectionManager env_online (Some 1%positive) world_unset
       = (Ret (Some l, None), w1)
       /\ managers world_unset !! l = None
       /\ managers w1 !! l
          = Some {| started := 0; conn := None; cfg := Some 1%positive |}
       /\ cfgs w1 !! 1%positive = Some (with_defaults env_online unset_cfg)
       /\ connectionManager_IsRunning (Some l) w1 = (Ret false, w1)
       /\ trace w1 = trace world_unset.
Proof.
  apply (setupConnectionManager_defaults env_online world_unset 1%positive unset_cfg).
  reflexivity.
Defined.

(** C9. On a manager whose flag is 1 and whose checker is nil, [Stop]
    returns an error wrapping [errConnectionCheckerIsNil], which is
    neither [ErrSubSystemNotStarted] nor [ErrNilSubsystem]; the deferred
    swap still puts the flag back to 0, so [IsRunning] is then [false] and
    another [Stop] returns an error wrapping [ErrSubSystemNotStarted]. *)
Theorem connectionManager_Stop_nil_checker l w m :
  managers w !! l = Some m -> started m = 1 -> conn m = None ->
  exists w1,
    connectionManager_Stop (Some l) w
    = (Ret (Some (Errorf_w "connection manager: %w" errConnectionCheckerIsNil)), w1)
    /\ errors_Is (Errorf_w "connection manager: %w" errConnectionCheckerIsNil)
         errConnectionCheckerIsNil = true
    /\ errors_Is (Errorf_w "connection manager: %w" errConnectionCheckerIsNil)
         ErrSubSystemNotStarted = false
    /\ errors_Is (Errorf_w "connection manager: %w" errConnectionCheckerIsNil)
         ErrNilSubsystem = false
    /\ started_at l w1 = Some 0
    /\ connectionManager_IsRunning (Some l) w1 = (Ret false, w1)
    /\ connectionManager_Stop (Some l) w1
       = (Ret (Some (Errorf_w "connection manager: %w" ErrSubSystemNotStarted)), w1)
    /\ errors_Is (Errorf_w "connection manager: %w" ErrSubSystemNotStarted)
         ErrSubSystemNotStarted = true.
Proof.
  intros H Hs Hc.
  destruct (Stop_running l w m H Hs) as (w1 & r & H1 & Hm1 & _ & _ & _ & _ & Hr & _).
  assert (Hl1 : managers w1 !! l = Some (set_started 0 m))
    by (rewrite Hm1; apply lookup_insert_eq).
  rewrite Hc in Hr. subst r. exists w1.
  rewrite (IsRunning_at _ _ _ Hl1). unfold started_at. rewrite Hl1.
  repeat split; try done.
  unfold connectionManager_Stop.
  by rewrite (bind_Ret _ _ _ _ _ (atomic_LoadInt32_Some _ _ _ Hl1)).
Qed.

Lemma connectionManager_Stop_nil_checker_witness :
  exists w1,
    connectionManager_Stop (Some 1%positive) world_broken
    = (Ret (Some (Errorf_w "connection manager: %w" errConnectionCheckerIsNil)), w1)
    /\ errors_Is (Errorf_w "connection manager: %w" errConnectionCheckerIsNil)
         errConnectionCheckerIsNil = true
    /\ errors_Is (Errorf_w "connection manager: %w" errConnectionCheckerIsNil)
         ErrSubSystemNotStarted = false
    /\ errors_Is (Errorf_w "connection manager: %w" errConnectionCheckerIsNil)
         ErrNilSubsystem = false
    /\ started_at 1%positive w1 = Some 0
    /\ connectionManager_IsRunning (Some 1%positive) w1 = (Ret false, w1)
    /\ connectionManager_Stop (Some 1%positive) w1
       = (Ret (Some (Errorf_w "connection manager: %w" ErrSubSystemNotStarted)), w1)
    /\ errors_Is (Errorf_w "connection manager: %w" ErrSubSystemNotStarted)
         ErrSubSystemNotStarted = true.
Proof.
  apply (connectionManager_Stop_nil_checker 1%positive world_broken manager_broken);
    reflexivity.
Defined.

(** ** FlagSet *)

(** C10. After [f.WithBool(key, flagValue, configValue)] on a non-nil
    [flagValue], [*flagValue] is what it was when [f[key]] is true and is
    [configValue] when [f[key]] is false. *)
Theorem FlagSet_WithBool_precedence (f : gmap string bool) key p v0 configValue w :
  bools w !! p = Some v0 ->
  exists w1,
    FlagSet_WithBool f key (Some p) configValue w = (Ret tt, w1)
    /\ bools w1 !! p = Some (if default false (f !! key) then v0 else configValue).
Proof.
  intros H. unfold FlagSet_WithBool, store_bool, load_bool, bind, ret, modify.
  destruct (default false (f !! key)), configValue; simpl; rewrite ?H; simpl;
    rewrite ?H; eexists; (split; [reflexivity|]); simpl; by rewrite lookup_insert_eq.
Qed.

Lemma FlagSet_WithBool_precedence_witness :
  exists w1,
    FlagSet_WithBool {[ "verbose" := true ]} "dryrun" (Some 1%positive) false world_flag
    = (Ret tt, w1)
    /\ bools w1 !! 1%positive
       = Some (if default false (({[ "verbose" := true ]} : gmap string bool) !! "dryrun")
               then true else false).
Proof.
  apply (FlagSet_WithBool_precedence {[ "verbose" := true ]} "dryrun" 1%positive
           true false world_flag).
  reflexivity.
Defined.

(** ** Engine.Start *)

(** C1, as the code has it.  When the database manager is enabled and its
    setup fails, [Start] logs the error on the global logger, does not
    start the database manager, and goes on with the dispatcher and all
    that follows; what [Start] returns is what the rest of the startup
    returns. *)
Theorem Engine_Start_database_setup_failure_is_logged E b e c cv err w :
  engines w !! b = Some e ->
  newEngineMutex w = false ->
  EnableDatabaseManager (bot_Settings e) = true ->
  bot_Config e = Some c -> configs w !! c = Some cv ->
  call_error E (trace w) SetupDatabaseConnectionManager = Some err ->
  exists w1,
    Start_DatabaseManager E b (set_mutex true w) = (Ret tt, w1)
    /\ trace w1 = trace w ++
         [EvCall SetupDatabaseConnectionManager;
          EvLog gctlog.Error gctlog.Global "Database manager unable to setup: %v" (Some err)]
    /\ Engine_Start E (Some b) w
       = with_defer newEngineMutex_Unlock (Start_after_DatabaseManager E b) w1.
Proof.
  intros Hb Hmx Hdb Hc Hcv Herr.
  assert (HDB : Start_DatabaseManager E b (set_mutex true w)
    = (Ret tt,
       emit (EvLog gctlog.Error gctlog.Global "Database manager unable to setup: %v"
               (Some err))
         (upd_engines
            (fun h => <[b := set_DatabaseManager
                               (call_pointer E (trace w) SetupDatabaseConnectionManager) e]> h)
            (emit (EvCall SetupDatabaseConnectionManager) (set_mutex true w))))).
  { unfold Start_DatabaseManager, Settings_of.
    rewrite bind_assoc.
    erewrite bind_Ret by (eapply load_engine_Some; simpl; eassumption).
    erewrite bind_Ret by reflexivity. rewrite Hdb.
    erewrite bind_Ret by (eapply Config_of_Some; simpl; eassumption).
    unfold call_ptr_err. unfold bind at 1. simpl trace. rewrite Herr. simpl.
    erewrite bind_Ret by (eapply store_engine_Some; simpl; eassumption).
    reflexivity. }
  eexists. split; [exact HDB|]. split.
  - simpl. by rewrite <- app_assoc.
  - unfold Engine_Start, newEngineMutex_Lock. unfold bind at 1. rewrite Hmx.
    unfold with_defer. by rewrite (bind_Ret _ _ _ _ _ HDB).
Qed.

Lemma Engine_Start_database_setup_failure_witness :
  exists w1,
    Start_DatabaseManager env_db_down 1%positive (set_mutex true world_idle) = (Ret tt, w1)
    /\ trace w1 = trace world_idle ++
         [EvCall SetupDatabaseConnectionManager;
          EvLog gctlog.Error gctlog.Global "Database manager unable to setup: %v"
            (Some (External "db down"))]
    /\ Engine_Start env_db_down (Some 1%positive) world_idle
       = with_defer newEngineMutex_Unlock
           (Start_after_DatabaseManager env_db_down 1%positive) w1.
Proof.
  apply (Engine_Start_database_setup_failure_is_logged env_db_down 1%positive
           engine_idle 1%positive sample_Config (External "db down") world_idle);
    reflexivity.
Defined.

(** C1 as written does not hold.  With the database manager enabled
    and its setup failing, [Start] returns nil, not the error, after
    having started the dispatcher and set up the exchanges. *)
Lemma Engine_Start_database_setup_failure_not_returned :
  EnableDatabaseManager (bot_Settings engine_idle) = true
  /\ call_error env_db_down (trace world_idle) SetupDatabaseConnectionManager
     = Some (External "db down")
  /\ (Engine_Start env_db_down (Some 1%positive) world_idle).1 = Ret None
  /\ trace (Engine_Start env_db_down (Some 1%positive) world_idle).2
     = [EvCall SetupDatabaseConnectionManager;
        EvLog gctlog.Error gctlog.Global "Database manager unable to setup: %v"
          (Some (External "db down"));
        EvStart SubDispatch None;
        EvLog gctlog.Debug gctlog.Global "Bot '%s' started.\n" None;
        EvLog gctlog.Debug gctlog.Global "Using data dir: %s\n" None;
        EvLog gctlog.Debug gctlog.Global
          "Using %d out of %d logical processors for runtime performance\n" None;
        EvLog gctlog.Debug gctlog.Global "EXCHANGE COVERAGE" None;
        EvLog gctlog.Debug gctlog.Global
          "\t Available Exchanges: %d. Enabled Exchanges: %d.\n" None;
        EvLog gctlog.Debug gctlog.Global "Setting up exchanges.." None;
        EvCall SetupExchanges;
        EvCall currency_RunStorageUpdater;
        EvCall SetupWithdrawManager].
Proof. repeat split. Qed.

(** ** Engine.Stop *)

Lemma engine_IsRunning_Ret s (isRunning : M bool) w r w' :
  isRunning w = (Ret r, w') ->
  engine_IsRunning s isRunning w = (Ret r, emit (EvIsRunning s r) w').
Proof. intros H. unfold engine_IsRunning. by rewrite (bind_Ret _ _ _ _ _ H). Qed.

Lemma engine_Stop_Ret s (stop : M (option error)) w r w' :
  stop w = (Ret r, w') ->
  engine_Stop s stop w = (Ret r, emit (EvStop s r) w').
Proof. intros H. unfold engine_Stop. by rewrite (bind_Ret _ _ _ _ _ H). Qed.

Lemma same_state_trans w1 w2 w3 :
  same_state w1 w2 -> same_state w2 w3 -> same_state w1 w3.
Proof.
  intros (? & ? & ? & ? & ?) (? & ? & ? & ? & ?). repeat split; congruence.
Qed.

Lemma stopped_state_same e w1 w2 w3 :
  stopped_state e w1 w2 -> same_state w2 w3 -> stopped_state e w1 w3.
Proof.
  intros (? & ? & ? & ? & ?) (? & ? & ? & ? & ?). repeat split; congruence.
Qed.

(** A collaborator's block: the answers are the collaborator's, asked at
    the moment the engine asks. *)
Lemma stop_collab_block E e mg s sl format w :
  running E e mg (trace w) s = call_bool E (trace w) (lifecycle_IsRunning s) ->
  s <> SubConnection ->
  exists blk w',
    stop_if_running s (collab_IsRunning E s) (collab_Stop E s) sl format w = (Ret tt, w')
    /\ trace w' = trace w ++ blk
    /\ same_state w w'
    /\ stop_block E e mg (trace w) s blk.
Proof.
  intros Hrun Hs. unfold stop_if_running.
  rewrite (bind_Ret _ _ _ _ _
             (engine_IsRunning_Ret s (collab_IsRunning E s) w _ w eq_refl)).
  destruct (call_bool E (trace w) (lifecycle_IsRunning s)) eqn:Ha.
  - rewrite (bind_Ret _ _ _ _ _
               (engine_Stop_Ret s (collab_Stop E s) _ _ _ eq_refl)).
    assert (Hst : forall r, r = call_error E (trace w ++ [EvIsRunning s true])
                                  (lifecycle_Stop s) ->
                  stopping E e mg (trace w ++ [EvIsRunning s true]) s [] r).
    { intros r ->. unfold stopping. by destruct s. }
    simpl trace.
    destruct (call_error E (trace w ++ [EvIsRunning s true]) (lifecycle_Stop s))
      as [err|] eqn:Hr.
    + eexists _, _. split; [reflexivity|]. split; [|split; [done|]].
      * simpl. rewrite <- !app_assoc. reflexivity.
      * apply (block_stop_failed E e mg (trace w) s [] err sl format); auto.
    + eexists _, _. split; [reflexivity|]. split; [|split; [done|]].
      * simpl. rewrite <- !app_assoc. reflexivity.
      * apply (block_stopped E e mg (trace w) s []); auto.
  - eexists _, _. split; [reflexivity|]. split; [reflexivity|]. split; [done|].
    by constructor.
Qed.

(** The block of a manager whose source is absent, kept in [bot.f]. *)
Lemma stop_absent_block E b e mg s f sl format w :
  engines w !! b = Some e ->
  f e = receiver e s -> s <> SubConnection -> s <> SubDispatch ->
  exists blk w',
    stop_absent E b s f sl format w = (Ret tt, w')
    /\ trace w' = trace w ++ blk
    /\ same_state w w'
    /\ stop_block E e mg (trace w) s blk.
Proof.
  intros Hb Hf Hc Hd. unfold stop_absent.
  rewrite (bind_Ret _ _ _ _ _ (load_engine_Some _ _ _ Hb)).
  destruct (f e) as [p|] eqn:Hp.
  - apply stop_collab_block; [|done].
    unfold running. rewrite <- Hf. by destruct s.
  - unfold stop_if_running, absent_IsRunning.
    rewrite (bind_Ret _ _ _ _ _
               (engine_IsRunning_Ret s (ret false) w false w eq_refl)).
    eexists _, _. split; [reflexivity|]. split; [reflexivity|]. split; [done|].
    constructor. unfold running. rewrite <- Hf. by destruct s.
Qed.

Lemma stop_dispatch_block E e mg sl format w :
  exists blk w',
    stop_if_running SubDispatch (collab_IsRunning E SubDispatch)
      (collab_Stop E SubDispatch) sl format w = (Ret tt, w')
    /\ trace w' = trace w ++ blk
    /\ same_state w w'
    /\ stop_block E e mg (trace w) SubDispatch blk.
Proof. by apply stop_collab_block. Qed.

(** The connection manager's block: the answer is the flag, and a
    running manager is stopped. *)
Lemma stop_connection_block E b e sl format w :
  engines w !! b = Some e ->
  (forall l, bot_connectionManager e = Some l -> is_Some (managers w !! l)) ->
  exists blk w',
    (e <- load_engine b ;;
     stop_if_running SubConnection
       (connectionManager_IsRunning (bot_connectionManager e))
       (connectionManager_Stop (bot_connectionManager e)) sl format) w = (Ret tt, w')
    /\ trace w' = trace w ++ blk
    /\ stopped_state e w w'
    /\ stop_block E e (managers w) (trace w) SubConnection blk.
Proof.
  intros Hb Hwf.
  rewrite (bind_Ret _ _ _ _ _ (load_engine_Some _ _ _ Hb)).
  unfold stop_if_running, stopped_state, managers_after.
  destruct (bot_connectionManager e) as [l|] eqn:Hl.
  - destruct (Hwf l eq_refl) as [m Hm]. rewrite Hm.
    rewrite (bind_Ret _ _ _ _ _ (engine_IsRunning_Ret _ _ _ _ _ (IsRunning_at _ _ _ Hm))).
    destruct (started m =? 1) eqn:Hs.
    + apply Z.eqb_eq in Hs.
      destruct (Stop_running l (emit (EvIsRunning SubConnection true) w) m Hm Hs)
        as (w1 & r & H1 & Hm1 & Hc1 & He1 & Hg1 & Hx1 & Hr & Htr).
      rewrite (bind_Ret _ _ _ _ _ (engine_Stop_Ret _ _ _ _ _ H1)).
      assert (Hrun : running E e (managers w) (trace w) SubConnection = true).
      { unfold running. rewrite Hl, Hm. by apply Z.eqb_eq. }
      destruct (conn m) as [c|] eqn:Hconn; subst r; simpl.
      * eexists _, _. split; [reflexivity|]. split; [|split].
        -- simpl. rewrite Htr. simpl. rewrite <- !app_assoc. reflexivity.
        -- by repeat split.
        -- apply (block_stopped E e (managers w) (trace w) SubConnection [_; _; _]);
             [done|]. exists l, m. by rewrite Hconn.
      * eexists _, _. split; [reflexivity|]. split; [|split].
        -- simpl. rewrite Htr. simpl. rewrite <- !app_assoc. reflexivity.
        -- by repeat split.
        -- apply (block_stop_failed E e (managers w) (trace w) SubConnection []);
             [done|]. exists l, m. by rewrite Hconn.
    + eexists _, _. split; [reflexivity|]. split; [reflexivity|]. split.
      * by repeat split.
      * constructor. unfold running. by rewrite Hl, Hm.
  - rewrite (bind_Ret _ _ _ _ _ (engine_IsRunning_Ret SubConnection
               (connectionManager_IsRunning None) w false w eq_refl)).
    eexists _, _. split; [reflexivity|]. split; [reflexivity|]. split.
    + by repeat split.
    + constructor. unfold running. by rewrite Hl.
Qed.

Lemma chain_step E e mg (m rest : M unit) s ss w (P : World -> Prop) :
  (exists blk w1,
     m w = (Ret tt, w1) /\ trace w1 = trace w ++ blk
     /\ stop_block E e mg (trace w) s blk
     /\ exists blks w',
          rest w1 = (Ret tt, w') /\ trace w' = trace w1 ++ concat blks
          /\ stop_blocks E e mg (trace w1) ss blks /\ P w') ->
  exists blks w',
    (m ;;; rest) w = (Ret tt, w') /\ trace w' = trace w ++ concat blks
    /\ stop_blocks E e mg (trace w) (s :: ss) blks /\ P w'.
Proof.
  intros (blk & w1 & R1 & T1 & B1 & blks & w' & R & T & Bs & HP).
  exists (blk :: blks), w'. split; [by rewrite (bind_Ret _ _ _ _ _ R1)|].
  split; [simpl; by rewrite T, T1, app_assoc|]. split; [|done].
  constructor; [done|]. by rewrite <- T1.
Qed.

Lemma chain_last E e mg (m : M unit) s w (P : World -> Prop) :
  (exists blk w1,
     m w = (Ret tt, w1) /\ trace w1 = trace w ++ blk
     /\ stop_block E e mg (trace w) s blk /\ P w1) ->
  exists blks w',
    m w = (Ret tt, w') /\ trace w' = trace w ++ concat blks
    /\ stop_blocks E e mg (trace w) [s] blks /\ P w'.
Proof.
  intros (blk & w1 & R1 & T1 & B1 & HP). exists [blk], w1.
  split; [done|]. split; [simpl; by rewrite app_nil_r|]. split; [|done].
  by repeat constructor.
Qed.

(** One block of a manager whose source is absent, before and after the
    connection manager has had its turn. *)
Ltac absent_block E b e mg :=
  apply chain_step;
  let blk := fresh "blk" in let w1 := fresh "w" in
  let R := fresh "R" in let T := fresh "T" in
  let S := fresh "S" in let B := fresh "B" in
  match goal with
  | Hb : engines ?wi !! b = Some e, Hst : same_state ?w0 ?wi
    |- exists _ _, stop_absent _ _ ?s ?f ?sl ?fmt ?wi = _ /\ _ =>
      destruct (stop_absent_block E b e mg s f sl fmt wi Hb eq_refl
                  ltac:(done) ltac:(done)) as (blk & w1 & R & T & S & B);
      exists blk, w1; split; [exact R|split; [exact T|split; [exact B|]]];
      apply (same_state_trans _ _ _ Hst) in S;
      assert (engines w1 !! b = Some e)
        by (destruct S as (_ & _ & _ & -> & _), Hst as (_ & _ & _ & <- & _);
            apply Hb);
      clear Hst R T B Hb; try clear blk; try clear wi
  end.

Ltac halted_block E b e mg :=
  apply chain_step;
  let blk := fresh "blk" in let w1 := fresh "w" in
  let R := fresh "R" in let T := fresh "T" in
  let S := fresh "S" in let B := fresh "B" in
  match goal with
  | Hb : engines ?wi !! b = Some e, Hst : stopped_state e ?w0 ?wi
    |- exists _ _, stop_absent _ _ ?s ?f ?sl ?fmt ?wi = _ /\ _ =>
      destruct (stop_absent_block E b e mg s f sl fmt wi Hb eq_refl
                  ltac:(done) ltac:(done)) as (blk & w1 & R & T & S & B);
      exists blk, w1; split; [exact R|split; [exact T|split; [exact B|]]];
      pose proof (stopped_state_same _ _ _ _ Hst S);
      assert (engines w1 !! b = Some e)
        by (destruct S as (_ & _ & _ & -> & _); apply Hb);
      clear Hst R T B S Hb; try clear blk; try clear wi
  end.

(** Lines 421-492 go through every subsystem of [shutdown_order], one
    block each, whatever the earlier ones answered, and leave the state
    as it was but for the connection manager. *)
Lemma Stop_subsystems_runs E b e w :
  engines w !! b = Some e ->
  (forall l, bot_connectionManager e = Some l -> is_Some (managers w !! l)) ->
  exists blocks w',
    Stop_subsystems E b w = (Ret tt, w')
    /\ trace w' = trace w ++ concat blocks
    /\ stop_blocks E e (managers w) (trace w) shutdown_order blocks
    /\ stopped_state e w w'.
Proof.
  intros Hb Hwf. unfold Stop_subsystems, shutdown_order.
  assert (Hst : same_state w w) by done.
  set (mg := managers w).
  revert Hst Hb. generalize w at 2 3 4 5 6 as wi. intros wi Hst Hb.
  do 6 absent_block E b e mg.
  apply chain_step.
  match goal with
  | Hb : engines ?wi !! b = Some e, Hst : same_state w ?wi |- _ =>
      destruct (stop_connection_block E b e gctlog.Global
                  "Connection manager unable to stop. Error: %v" wi Hb)
        as (blkc & wc & Rc & Tc & Sc & Bc);
      [ intros l Hl; destruct Hst as (_ & -> & _); by apply Hwf |];
      exists blkc, wc; split; [exact Rc|]; split; [exact Tc|]; split;
      [ destruct Hst as (_ & Hm & _); rewrite Hm in Bc; exact Bc |];
      assert (Hsp : stopped_state e w wc)
        by (destruct Hst as (? & ? & ? & ? & ?), Sc as (? & ? & ? & ? & ?);
            repeat split; congruence);
      assert (Hbc : engines wc !! b = Some e)
        by (destruct Sc as (_ & _ & _ & -> & _); apply Hb);
      clear Hst Rc Tc Bc Sc Hb
  end.
  do 4 halted_block E b e mg.
  apply chain_step.
  match goal with
  | Hb : engines ?wi !! b = Some e, Hst : stopped_state e w ?wi |- _ =>
      destruct (stop_dispatch_block E e mg gctlog.DispatchMgr
                  "Dispatch system unable to stop. Error: %v" wi)
        as (blkd & wd & Rd & Td & Sd & Bd);
      exists blkd, wd; split; [exact Rd|]; split; [exact Td|]; split; [exact Bd|];
      pose proof (stopped_state_same _ _ _ _ Hst Sd) as Hspd;
      assert (Hbd : engines wd !! b = Some e)
        by (destruct Sd as (_ & _ & _ & -> & _); apply Hb);
      clear Hst Rd Td Bd Sd Hb
  end.
  halted_block E b e mg.
  apply chain_last.
  match goal with
  | Hb : engines ?wi !! b = Some e, Hst : stopped_state e w ?wi |- _ =>
      destruct (stop_absent_block E b e mg SubCurrencyState
                  (fun e => bot_others e currencyStateManager) gctlog.Global
                  "currency state manager unable to stop. Error: %v" wi Hb eq_refl
                  ltac:(done) ltac:(done)) as (blkl & wl & Rl & Tl & Sl & Bl);
      exists blkl, wl; split; [exact Rl|]; split; [exact Tl|]; split; [exact Bl|];
      exact (stopped_state_same _ _ _ _ Hst Sl)
  end.
Qed.

(** Lines 417-419. *)
Lemma Stop_snapshot_runs E b e c cv w :
  engines w !! b = Some e -> bot_Config e = Some c -> configs w !! c = Some cv ->
  (bot_others e portfolioManager <> None -> forall h, is_Some (call_portfolio E h)) ->
  exists snap w',
    Stop_snapshot E b w = (Ret tt, w')
    /\ trace w' = trace w ++ EvCall portfolioManager_GetAddresses :: snap
    /\ (snap = [] \/ snap = [EvCall portfolioManager_GetPortfolio])
    /\ cfgs w' = cfgs w /\ managers w' = managers w /\ engines w' = engines w
    /\ newEngineMutex w' = newEngineMutex w
    /\ is_Some (configs w' !! c).
Proof.
  intros Hb Hc Hcv Hp. unfold Stop_snapshot.
  rewrite (bind_Ret _ _ _ _ _ (load_engine_Some _ _ _ Hb)).
  unfold portfolioManager_GetAddresses_on. unfold bind at 1.
  destruct (bot_others e portfolioManager) as [pm|] eqn:Hpm; simpl.
  - case_bool_decide as Hlen.
    + unfold portfolioManager_GetPortfolio_on. unfold bind at 1.
      destruct (Hp ltac:(done) (trace w ++ [EvCall portfolioManager_GetAddresses]))
        as [base Hbase].
      simpl. rewrite Hbase.
      erewrite bind_Ret by (eapply Config_of_Some; simpl; eauto). simpl.
      eexists _, _. split; [reflexivity|]. simpl. rewrite <- app_assoc.
      split; [reflexivity|]. split; [by right|]. repeat split; try done.
      all: try rewrite lookup_insert_eq; by eexists.
    + eexists _, _. split; [reflexivity|]. simpl.
      split; [reflexivity|]. split; [by left|]. repeat split; try done.
      all: by eexists.
  - eexists _, _. split; [reflexivity|]. simpl.
    split; [reflexivity|]. split; [by left|]. repeat split; try done.
    all: by eexists.
Qed.

(** *** Saving the configuration *)

Lemma save_frame_refl w : save_frame w w.
Proof.
  repeat split; try done. exists []. split; [by rewrite app_nil_r|constructor].
Qed.

Lemma save_frame_trans w1 w2 w3 :
  save_frame w1 w2 -> save_frame w2 w3 -> save_frame w1 w3.
Proof.
  intros (? & ? & ? & ? & Hc & ev1 & T1 & F1) (? & ? & ? & ? & Hc' & ev2 & T2 & F2).
  repeat split; try congruence; [auto|].
  exists (ev1 ++ ev2). split; [by rewrite T2, T1, app_assoc|by apply Forall_app].
Qed.

Lemma saves_bind {A B} c (m : M A) (k : A -> M B) :
  saves c m -> (forall x, saves c (k x)) -> saves c (bind m k).
Proof.
  intros Hm Hk w Hc. destruct (Hm w Hc) as (x & w1 & R1 & F1).
  destruct (Hk x w1) as (y & w2 & R2 & F2).
  { destruct F1 as (_ & _ & _ & _ & H & _). by apply H. }
  exists y, w2. split; [by rewrite (bind_Ret _ _ _ _ _ R1)|].
  by eapply save_frame_trans.
Qed.

Lemma saves_ret {A} c (x : A) : saves c (ret x).
Proof. intros w _. exists x, w. split; [done|apply save_frame_refl]. Qed.

Lemma saves_emit c ev : save_internal ev -> saves c (modify (emit ev)).
Proof.
  intros Hev w _. eexists _, _. split; [reflexivity|].
  repeat split; try done. exists [ev]. split; [done|by repeat constructor].
Qed.

Lemma saves_call_err E c k : save_call k = true -> saves c (call_err E k).
Proof.
  intros Hk w _. eexists _, _. split; [reflexivity|].
  repeat split; try done. exists [EvCall k]. split; [done|by repeat constructor].
Qed.

Lemma saves_call_text_err E c k : save_call k = true -> saves c (call_text_err E k).
Proof.
  intros Hk w _. eexists _, _. split; [reflexivity|].
  repeat split; try done. exists [EvCall k]. split; [done|by repeat constructor].
Qed.

Lemma saves_call_ptr_err E c k : save_call k = true -> saves c (call_ptr_err E k).
Proof.
  intros Hk w _. eexists _, _. split; [reflexivity|].
  repeat split; try done. exists [EvCall k]. split; [done|by repeat constructor].
Qed.

Lemma saves_call_txt E c k : save_call k = true -> saves c (call_txt E k).
Proof.
  intros Hk w _. eexists _, _. split; [reflexivity|].
  repeat split; try done. exists [EvCall k]. split; [done|by repeat constructor].
Qed.

Lemma saves_call_flag E c k : save_call k = true -> saves c (call_flag E k).
Proof.
  intros Hk w _. eexists _, _. split; [reflexivity|].
  repeat split; try done. exists [EvCall k]. split; [done|by repeat constructor].
Qed.

Lemma saves_makeNewSessionDK E c : saves c (call_makeNewSessionDK E).
Proof.
  intros w _. eexists _, _. split; [reflexivity|].
  repeat split; try done. exists [EvCall makeNewSessionDK].
  split; [done|by repeat constructor].
Qed.

Lemma saves_load_config c : saves c (load_config (Some c)).
Proof.
  intros w [cv Hcv]. exists cv, w. split; [|apply save_frame_refl].
  unfold load_config. by rewrite Hcv.
Qed.

Lemma saves_store_session c dk salt cv :
  saves c (modify (upd_configs (fun h => <[c := config.set_session dk salt cv]> h))).
Proof.
  intros w _. eexists _, _. split; [reflexivity|].
  repeat split; try done.
  - intros c' Hc'. simpl. destruct (decide (c = c')) as [->|Hne].
    + rewrite lookup_insert_eq. by eexists.
    + by rewrite lookup_insert_ne.
  - exists []. split; [simpl; by rewrite app_nil_r|constructor].
Qed.

(** Close the goal [saves c m] for straight-line code. *)
Ltac saves_now :=
  repeat first
    [ apply saves_ret
    | apply saves_load_config
    | apply saves_store_session
    | apply saves_makeNewSessionDK
    | apply saves_call_err; reflexivity
    | apply saves_call_text_err; reflexivity
    | apply saves_call_ptr_err; reflexivity
    | apply saves_call_txt; reflexivity
    | apply saves_call_flag; reflexivity
    | apply saves_emit; exact I
    | apply saves_bind; [|intros ?]
    | match goal with
      | |- saves _ (if ?x then _ else _) => destruct x
      | |- saves _ (match ?x with _ => _ end) => destruct x
      end ].

Lemma saves_first_existing E c paths : saves c (first_existing E paths).
Proof.
  induction paths as [|p rest IH]; simpl; [apply saves_ret|].
  apply saves_bind; [by apply saves_call_flag|]. intros [|]; [apply saves_ret|done].
Qed.

Lemma saves_GetFilePath E c path : saves c (config_GetFilePath E path).
Proof.
  unfold config_GetFilePath, common_GetExecutablePath, common_GetDefaultDataDir,
    gctlog_Warnln.
  case_bool_decide; [apply saves_ret|].
  apply saves_bind; [saves_now|]. intros exe.
  destruct (snd exe); [apply saves_ret|].
  apply saves_bind; [saves_now|]. intros newDir.
  apply saves_bind; [apply saves_first_existing|]. intros found.
  saves_now.
Qed.

Lemma saves_Save E c path :
  saves c (Config_Save E (Some c) (call_ptr_err E (file_Writer path))
             (call_err E PromptForConfigKey)).
Proof.
  unfold Config_Save, Save_session_key, or_return. saves_now.
Qed.

(** [SaveConfigToFile] on a configuration that exists returns, whatever
    the file system does, and keeps to itself. *)
Lemma saves_SaveConfigToFile E c path :
  saves c (Config_SaveConfigToFile_on E (Some c) path).
Proof.
  unfold Config_SaveConfigToFile_on, SaveConfigToFile_deferred, gctlog_Error.
  apply saves_bind; [apply saves_GetFilePath|]. intros p.
  destruct (snd p); [apply saves_ret|].
  apply saves_bind; [apply saves_Save|]. intros r.
  saves_now.
Qed.

(** *** The end of Engine.Stop *)

Lemma log_failure_runs sl format r w :
  exists w',
    log_failure sl format r w = (Ret tt, w')
    /\ trace w' = trace w ++ failure_line sl format r
    /\ same_state w w'.
Proof.
  destruct r as [err|]; eexists; (split; [reflexivity|]); simpl.
  - by repeat split.
  - rewrite app_nil_r. by repeat split.
Qed.

(** Lines 498-505: the configuration is saved unless the run is dry. *)
Lemma Stop_save_runs E e c w :
  bot_Config e = Some c -> is_Some (configs w !! c) ->
  exists sv w',
    (if negb (EnableDryRun (bot_Settings e)) then
       err <- Config_SaveConfigToFile_on E (bot_Config e)
                (ConfigFile (bot_Settings e)) ;;
       modify (emit (EvSave err)) ;;;
       match err with
       | Some _ => gctlog_Errorln gctlog.Global "Unable to save config."
       | None => gctlog_Debugln gctlog.Global "Config file saved successfully."
       end
     else ret tt) w = (Ret tt, w')
    /\ trace w' = trace w ++ sv
    /\ (if EnableDryRun (bot_Settings e) then sv = [] else save_events sv)
    /\ managers w' = managers w /\ engines w' = engines w
    /\ newEngineMutex w' = newEngineMutex w.
Proof.
  intros Hc Hcv. destruct (EnableDryRun (bot_Settings e)); cbn [negb].
  - exists [], w. rewrite app_nil_r. by repeat split.
  - rewrite Hc.
    destruct (saves_SaveConfigToFile E c (ConfigFile (bot_Settings e)) w Hcv)
      as (r & w1 & R & Hcf & Hm & He & Hx & _ & inner & T & Hin).
    rewrite (bind_Ret _ _ _ _ _ R).
    erewrite bind_Ret by reflexivity.
    destruct r as [err|]; eexists _, _; (split; [reflexivity|]); simpl;
      rewrite T, <- !app_assoc; simpl.
    + split; [reflexivity|]. split; [by constructor|done].
    + split; [reflexivity|]. split; [by constructor|done].
Qed.

(** Lines 507-511: the wait, and behind it the closing of the logger. *)
Lemma Stop_close_runs E w :
  exists w',
    (ServicesWG_Wait_on E ;;;
     err <- call_err E gctlog_CloseLogger ;;
     match err with
     | Some err => log_Printf "Failed to close logger. Error: %v\n" err
     | None => ret tt
     end) w
    = (if call_bool E (trace w) ServicesWG_Wait then Ret tt else Blocked, w')
    /\ trace w' = trace w ++ EvCall ServicesWG_Wait ::
         (if call_bool E (trace w) ServicesWG_Wait
          then CloseLogger_step
                 (call_error E (trace w ++ [EvCall ServicesWG_Wait]) gctlog_CloseLogger)
          else [])
    /\ same_state w w'.
Proof.
  unfold bind at 1. unfold ServicesWG_Wait_on.
  destruct (call_bool E (trace w) ServicesWG_Wait).
  - unfold bind, call_err, CloseLogger_step. simpl.
    destruct (call_error E (trace w ++ [EvCall ServicesWG_Wait]) gctlog_CloseLogger);
      eexists; (split; [reflexivity|]); simpl; rewrite <- !app_assoc;
      by repeat split.
  - eexists. split; [reflexivity|]. by repeat split.
Qed.

(** Lines 494-511. *)
Lemma Stop_finish_runs E b e c w :
  engines w !! b = Some e -> bot_Config e = Some c -> is_Some (configs w !! c) ->
  exists sv w',
    let su := failure_line gctlog.Global "ExchangeSettings storage system. Error: %v"
                (call_error E (trace w) currency_ShutdownStorageUpdater) in
    let h := trace w ++ [EvCall currency_ShutdownStorageUpdater] ++ su ++ sv in
    (if EnableDryRun (bot_Settings e) then sv = [] else save_events sv)
    /\ Stop_finish E b w
       = (if call_bool E h ServicesWG_Wait then Ret tt else Blocked, w')
    /\ trace w' = h ++ EvCall ServicesWG_Wait ::
         (if call_bool E h ServicesWG_Wait
          then CloseLogger_step
                 (call_error E (h ++ [EvCall ServicesWG_Wait]) gctlog_CloseLogger)
          else [])
    /\ managers w' = managers w /\ engines w' = engines w
    /\ newEngineMutex w' = newEngineMutex w.
Proof.
  intros Hb Hc Hcv. unfold Stop_finish.
  erewrite bind_Ret by reflexivity. simpl fst. simpl snd.
  set (r0 := call_error E (trace w) currency_ShutdownStorageUpdater).
  destruct (log_failure_runs gctlog.Global
              "ExchangeSettings storage system. Error: %v" r0
              (emit (EvCall currency_ShutdownStorageUpdater) w))
    as (w1 & R1 & T1 & (Hc1 & Hm1 & Hg1 & He1 & Hx1)).
  rewrite (bind_Ret _ _ _ _ _ R1).
  assert (Hb1 : engines w1 !! b = Some e) by (by rewrite He1).
  rewrite (bind_Ret _ _ _ _ _ (load_engine_Some _ _ _ Hb1)).
  destruct (Stop_save_runs E e c w1 Hc) as (sv & w2 & R2 & T2 & Hsv & Hm2 & He2 & Hx2).
  { by rewrite Hg1. }
  rewrite (bind_Ret _ _ _ _ _ R2).
  destruct (Stop_close_runs E w2) as (w3 & R3 & T3 & (Hc3 & Hm3 & Hg3 & He3 & Hx3)).
  assert (Ht2 : trace w2 = trace w ++ [EvCall currency_ShutdownStorageUpdater]
                  ++ failure_line gctlog.Global
                       "ExchangeSettings storage system. Error: %v" r0 ++ sv).
  { rewrite T2, T1. simpl. by rewrite <- !app_assoc. }
  exists sv, w3. cbv zeta. rewrite <- Ht2. split; [done|]. split; [exact R3|].
  split; [exact T3|]. simpl in Hm1, He1, Hx1. repeat split; congruence.
Qed.

(** The whole of [Engine.Stop] on an engine whose configuration and
    connection manager pointers are sound. *)
Lemma Engine_Stop_run E b e c cv w :
  engines w !! b = Some e ->
  newEngineMutex w = false ->
  bot_Config e = Some c -> configs w !! c = Some cv ->
  (forall l, bot_connectionManager e = Some l -> is_Some (managers w !! l)) ->
  (bot_others e portfolioManager <> None -> forall h, is_Some (call_portfolio E h)) ->
  exists snap blocks sv w',
    let h1 := trace w ++ [shutting_down; EvCall portfolioManager_GetAddresses] ++ snap in
    let h2 := h1 ++ concat blocks in
    let su := failure_line gctlog.Global "ExchangeSettings storage system. Error: %v"
                (call_error E h2 currency_ShutdownStorageUpdater) in
    let h := h2 ++ [EvCall currency_ShutdownStorageUpdater] ++ su ++ sv in
    (snap = [] \/ snap = [EvCall portfolioManager_GetPortfolio])
    /\ stop_blocks E e (managers w) h1 shutdown_order blocks
    /\ (if EnableDryRun (bot_Settings e) then sv = [] else save_events sv)
    /\ Engine_Stop E (Some b) w
       = (if call_bool E h ServicesWG_Wait then Ret tt else Blocked, w')
    /\ trace w' = h ++ EvCall ServicesWG_Wait ::
         (if call_bool E h ServicesWG_Wait
          then CloseLogger_step
                 (call_error E (h ++ [EvCall ServicesWG_Wait]) gctlog_CloseLogger)
          else [])
    /\ newEngineMutex w' = negb (call_bool E h ServicesWG_Wait)
    /\ managers w' = managers_after e (managers w)
    /\ engines w' = engines w.
Proof.
  intros Hb Hmx Hc Hcv Hwf Hp.
  set (w0 := emit shutting_down (set_mutex true w)).
  assert (Hb0 : engines w0 !! b = Some e) by done.
  destruct (Stop_snapshot_runs E b e c cv w0 Hb0 Hc Hcv Hp)
    as (snap & w1 & R1 & T1 & Hsnap & _ & Hm1 & He1 & Hx1 & Hcv1).
  assert (Hb1 : engines w1 !! b = Some e) by (by rewrite He1).
  destruct (Stop_subsystems_runs E b e w1 Hb1)
    as (blocks & w2 & R2 & T2 & Hblocks & (_ & Hm2 & Hg2 & He2 & Hx2)).
  { intros l Hl. rewrite Hm1. by apply Hwf. }
  assert (Hb2 : engines w2 !! b = Some e) by (by rewrite He2).
  destruct (Stop_finish_runs E b e c w2 Hb2 Hc)
    as (sv & w3 & Hsv & R3 & T3 & Hm3 & He3 & Hx3).
  { by rewrite Hg2. }
  cbv zeta in R3, T3.
  assert (Ht1 : trace w1 = trace w ++ [shutting_down; EvCall portfolioManager_GetAddresses]
                  ++ snap).
  { rewrite T1. simpl. by rewrite <- app_assoc. }
  assert (Ht2 : trace w2 = (trace w ++ [shutting_down; EvCall portfolioManager_GetAddresses]
                  ++ snap) ++ concat blocks).
  { by rewrite T2, Ht1. }
  rewrite Ht2 in R3, T3. rewrite Ht1, Hm1 in Hblocks.
  assert (Hbody :
    with_defer newEngineMutex_Unlock
      (gctlog_Debugln gctlog.Global "Engine shutting down.." ;;;
       Stop_snapshot E b ;;; Stop_subsystems E b ;;; Stop_finish E b)
      (set_mutex true w)
    = with_defer newEngineMutex_Unlock (fun _ => Stop_finish E b w2) w).
  { unfold with_defer, gctlog_Debugln. unfold bind at 1. simpl.
    fold shutting_down. fold w0.
    by rewrite (bind_Ret _ _ _ _ _ R1), (bind_Ret _ _ _ _ _ R2). }
  exists snap, blocks, sv.
  exists (if call_bool E
               (((trace w ++ [shutting_down; EvCall portfolioManager_GetAddresses] ++ snap)
                 ++ concat blocks)
                ++ [EvCall currency_ShutdownStorageUpdater]
                ++ failure_line gctlog.Global "ExchangeSettings storage system. Error: %v"
                     (call_error E
                        ((trace w ++ [shutting_down; EvCall portfolioManager_GetAddresses]
                          ++ snap) ++ concat blocks)
                        currency_ShutdownStorageUpdater)
                ++ sv) ServicesWG_Wait
          then newEngineMutex_Unlock w3 else w3).
  cbv zeta. split; [done|]. split; [done|]. split; [done|].
  split.
  { unfold Engine_Stop, newEngineMutex_Lock. unfold bind at 1. rewrite Hmx.
    rewrite Hbody. unfold with_defer. rewrite R3.
    by destruct (call_bool E _ ServicesWG_Wait). }
  destruct (call_bool E _ ServicesWG_Wait); simpl.
  - split; [exact T3|]. split; [done|]. split; [|by rewrite He3, He2, He1].
    by rewrite Hm3, Hm2, Hm1.
  - split; [exact T3|]. split; [by rewrite Hx3, Hx2, Hx1|].
    split; [|by rewrite He3, He2, He1]. by rewrite Hm3, Hm2, Hm1.
Qed.

Lemma save_internal_quiet inner : Forall save_internal inner -> quiet inner.
Proof.
  intros H. eapply Forall_impl; [exact H|].
  intros ev. by destruct ev.
Qed.

Lemma managers_after_halted e mg l :
  bot_connectionManager e = Some l -> is_Some (mg !! l) ->
  exists m, managers_after e mg !! l = Some m /\ started m <> 1.
Proof.
  intros Hl [m Hm]. unfold managers_after. rewrite Hl, Hm.
  destruct (started m =? 1) eqn:Hs.
  - exists (set_started 0 m). by rewrite lookup_insert_eq.
  - exists m. split; [done|]. by apply Z.eqb_neq.
Qed.

(** C5, as the code has it.  [Engine.Stop] does not fault whichever
    subsystem fields are nil: it returns, or waits for the wait group for
    ever.  It first takes the portfolio manager's addresses; then, for
    every subsystem of [shutdown_order] in turn, it asks [IsRunning],
    gets the answer of that subsystem (the flag of the connection
    manager, what a collaborator says, [false] where the field is nil)
    and calls [Stop] exactly on the answer [true], logging a [Stop] error
    and going on to the next subsystem; no lifecycle call is made outside
    these blocks; and afterwards the engine's connection manager is not
    running. *)
Theorem Engine_Stop_best_effort E b e c cv w :
  engines w !! b = Some e ->
  newEngineMutex w = false ->
  bot_Config e = Some c -> configs w !! c = Some cv ->
  (forall l, bot_connectionManager e = Some l -> is_Some (managers w !! l)) ->
  (bot_others e portfolioManager <> None -> forall h, is_Some (call_portfolio E h)) ->
  exists snap blocks fin o w',
    Engine_Stop E (Some b) w = (o, w')
    /\ (o = Ret tt \/ o = Blocked /\ last fin = Some (EvCall ServicesWG_Wait))
    /\ trace w' = trace w ++ [shutting_down; EvCall portfolioManager_GetAddresses]
                   ++ snap ++ concat blocks ++ fin
    /\ quiet snap
    /\ stop_blocks E e (managers w)
         (trace w ++ [shutting_down; EvCall portfolioManager_GetAddresses] ++ snap)
         shutdown_order blocks
    /\ quiet fin
    /\ (forall l, bot_connectionManager e = Some l ->
          connectionManager_IsRunning (Some l) w' = (Ret false, w')).
Proof.
  intros Hb Hmx Hc Hcv Hwf Hp.
  destruct (Engine_Stop_run E b e c cv w Hb Hmx Hc Hcv Hwf Hp)
    as (snap & blocks & sv & w' & Hsnap & Hblocks & Hsv & R & T & _ & Hm & _).
  cbv zeta in R, T.
  set (h2 := (trace w ++ [shutting_down; EvCall portfolioManager_GetAddresses] ++ snap)
             ++ concat blocks) in *.
  set (su := failure_line gctlog.Global "ExchangeSettings storage system. Error: %v"
               (call_error E h2 currency_ShutdownStorageUpdater)) in *.
  set (h := h2 ++ [EvCall currency_ShutdownStorageUpdater] ++ su ++ sv) in *.
  assert (Hquiet : quiet ([EvCall currency_ShutdownStorageUpdater] ++ su ++ sv)).
  { unfold quiet. rewrite !Forall_app. repeat split.
    - by repeat constructor.
    - unfold su, failure_line. destruct (call_error E h2 _); by repeat constructor.
    - destruct (EnableDryRun (bot_Settings e)); [subst sv; constructor|].
      destruct Hsv as [inner err Hin|inner Hin]; apply Forall_app;
        (split; [by apply save_internal_quiet|by repeat constructor]). }
  assert (Hhalt : forall l, bot_connectionManager e = Some l ->
            connectionManager_IsRunning (Some l) w' = (Ret false, w')).
  { intros l Hl. destruct (managers_after_halted e (managers w) l Hl (Hwf l Hl))
      as (m & Hlm & Hs). rewrite <- Hm in Hlm. rewrite (IsRunning_at _ _ _ Hlm).
    by apply Z.eqb_neq in Hs as ->. }
  exists snap, blocks.
  destruct (call_bool E h ServicesWG_Wait).
  - exists ([EvCall currency_ShutdownStorageUpdater] ++ su ++ sv
            ++ EvCall ServicesWG_Wait ::
               CloseLogger_step
                 (call_error E (h ++ [EvCall ServicesWG_Wait]) gctlog_CloseLogger)),
      (Ret tt), w'.
    split; [done|]. split; [by left|]. split.
    { rewrite T. unfold h, h2. by rewrite <- !app_assoc. }
    split; [destruct Hsnap as [-> | ->]; by repeat constructor|].
    split; [done|]. split; [|done].
    rewrite !app_assoc. apply Forall_app. split; [by rewrite <- !app_assoc|].
    unfold CloseLogger_step. destruct (call_error E _ gctlog_CloseLogger);
      by repeat constructor.
  - exists ([EvCall currency_ShutdownStorageUpdater] ++ su ++ sv
            ++ [EvCall ServicesWG_Wait]), Blocked, w'.
    split; [done|]. split.
    { right. split; [done|]. by rewrite !app_assoc, last_snoc. }
    split.
    { rewrite T. unfold h, h2. by rewrite <- !app_assoc. }
    split; [destruct Hsnap as [-> | ->]; by repeat constructor|].
    split; [done|]. split; [|done].
    rewrite !app_assoc. apply Forall_app. split; [by rewrite <- !app_assoc|].
    by repeat constructor.
Qed.

Lemma Engine_Stop_best_effort_witness :
  exists snap blocks fin o w',
    Engine_Stop env_online (Some 1%positive) world_up = (o, w')
    /\ (o = Ret tt \/ o = Blocked /\ last fin = Some (EvCall ServicesWG_Wait))
    /\ trace w' = trace world_up ++ [shutting_down; EvCall portfolioManager_GetAddresses]
                   ++ snap ++ concat blocks ++ fin
    /\ quiet snap
    /\ stop_blocks env_online engine_up (managers world_up)
         (trace world_up ++ [shutting_down; EvCall portfolioManager_GetAddresses] ++ snap)
         shutdown_order blocks
    /\ quiet fin
    /\ (forall l, bot_connectionManager engine_up = Some l ->
          connectionManager_IsRunning (Some l) w' = (Ret false, w')).
Proof.
  apply (Engine_Stop_best_effort env_online 1%positive engine_up 1%positive
           sample_Config world_up).
  - reflexivity.
  - reflexivity.
  - reflexivity.
  - reflexivity.
  - intros l [= <-]. by exists manager_running.
  - intros H. by destruct H.
Defined.

(** C5 as written does not hold.  [Start] with the exchange sync
    manager enabled sets the manager up and starts it in a goroutine; the
    manager says it is running; the [Stop] that follows returns without
    having asked it or stopped it. *)
Lemma Engine_Stop_sync_manager_not_asked :
  (Engine_Start env_online (Some 1%positive) world_sync).1 = Ret None
  /\ last (trace world_synced) = Some (EvGo (lifecycle_Start SubSync))
  /\ (fun e => receiver e SubSync) <$> engines world_synced !! 1%positive
     = Some (Some 7%positive)
  /\ call_bool env_online (trace world_synced) (lifecycle_IsRunning SubSync) = true
  /\ (Engine_Stop env_online (Some 1%positive) world_synced).1 = Ret tt
  /\ trace (Engine_Stop env_online (Some 1%positive) world_synced).2
     = trace world_synced ++
       [shutting_down;
        EvCall portfolioManager_GetAddresses;
        EvIsRunning SubGCTScript false;
        EvIsRunning SubOrder false;
        EvIsRunning SubEvent false;
        EvIsRunning SubNTP false;
        EvIsRunning SubComms false;
        EvIsRunning SubPortfolio false;
        EvIsRunning SubConnection false;
        EvIsRunning SubRESTServer false;
        EvIsRunning SubWebsocketServer false;
        EvIsRunning SubDataHistory false;
        EvIsRunning SubDatabase false;
        EvIsRunning SubDispatch true; EvStop SubDispatch None;
        EvIsRunning SubWebsocketRoutine false;
        EvIsRunning SubCurrencyState false;
        EvCall currency_ShutdownStorageUpdater;
        EvCall json_MarshalIndent;
        EvCall (file_Writer "config.json");
        EvCall io_Copy;
        EvCall File_Close;
        EvSave None;
        EvLog gctlog.Debug gctlog.Global "Config file saved successfully." None;
        EvCall ServicesWG_Wait;
        EvCall gctlog_CloseLogger]
  /\ existsb (about SubSync)
       (trace (Engine_Stop env_online (Some 1%positive) world_synced).2) = false.
Proof. repeat split. Qed.



(** * Further properties *)

(** ** The connection manager *)

(** X1. [Stop] on a manager that is not started returns an error wrapping
    [ErrSubSystemNotStarted] and does nothing: no checker is shut down and
    the state is as before.  This is what [Stop] answers straight after
    [setupConnectionManager]. *)
Theorem connectionManager_Stop_before_Start E c cv w :
  cfgs w !! c = Some cv ->
  (forall l m w0, managers w0 !! l = Some m -> started m = 0 ->
     connectionManager_Stop (Some l) w0
     = (Ret (Some (Errorf_w "connection manager: %w" ErrSubSystemNotStarted)), w0))
  /\ exists l w1,
       setupConnectionManager E (Some c) w = (Ret (Some l, None), w1)
       /\ connectionManager_Stop (Some l) w1
          = (Ret (Some (Errorf_w "connection manager: %w" ErrSubSystemNotStarted)), w1)
       /\ errors_Is (Errorf_w "connection manager: %w" ErrSubSystemNotStarted)
            ErrSubSystemNotStarted = true.
Proof.
  intros Hcv.
  assert (Hgen : forall l m w0, managers w0 !! l = Some m -> started m = 0 ->
     connectionManager_Stop (Some l) w0
     = (Ret (Some (Errorf_w "connection manager: %w" ErrSubSystemNotStarted)), w0)).
  { intros l m w0 Hm Hs. unfold connectionManager_Stop.
    rewrite (bind_Ret _ _ _ _ _ (atomic_LoadInt32_Some _ _ _ Hm)). by rewrite Hs. }
  split; [exact Hgen|].
  destruct (setup_ok E c cv w Hcv) as (l & w1 & H1 & _ & Hm1 & _).
  exists l, w1. split; [done|]. split; [|done].
  apply (Hgen l {| started := 0; conn := None; cfg := Some c |}); [|done].
  rewrite Hm1. apply lookup_insert_eq.
Qed.

Lemma connectionManager_Stop_before_Start_witness :
  (forall l m w0, managers w0 !! l = Some m -> started m = 0 ->
     connectionManager_Stop (Some l) w0
     = (Ret (Some (Errorf_w "connection manager: %w" ErrSubSystemNotStarted)), w0))
  /\ exists l w1,
       setupConnectionManager env_online (Some 1%positive) world_unset
       = (Ret (Some l, None), w1)
       /\ connectionManager_Stop (Some l) w1
          = (Ret (Some (Errorf_w "connection manager: %w" ErrSubSystemNotStarted)), w1)
       /\ errors_Is (Errorf_w "connection manager: %w" ErrSubSystemNotStarted)
            ErrSubSystemNotStarted = true.
Proof.
  apply (connectionManager_Stop_before_Start env_online 1%positive unset_cfg world_unset).
  reflexivity.
Defined.

(** X2. [Start] on a manager whose [cfg] is nil (one that was not made by
    [setupConnectionManager]) panics when it reads [m.cfg.DNSList]; the
    flag, already swapped to 1, is not put back.  The manager then reports
    that it runs and turns the next [Start] away, though no checker was
    ever asked for. *)
Theorem connectionManager_Start_without_cfg E l w m :
  managers w !! l = Some m -> started m = 0 -> cfg m = None ->
  exists w1,
    connectionManager_Start E (Some l) w = (Panic nil_dereference, w1)
    /\ started_at l w1 = Some 1
    /\ connectionManager_IsRunning (Some l) w1 = (Ret true, w1)
    /\ connectionManager_Start E (Some l) w1
       = (Ret (Some (Errorf_w "connection manager %w" ErrSubSystemAlreadyStarted)), w1)
    /\ count_New (trace w1) = count_New (trace w).
Proof.
  intros H Hs Hc. eexists. split.
  - unfold connectionManager_Start. step. step. step. rewrite Hc. reflexivity.
  - set (w1 := emit _ _).
    assert (Hm1 : managers w1 !! l = Some (set_started 1 m)) by apply lookup_insert_eq.
    split; [unfold started_at; by rewrite Hm1|].
    split; [by rewrite (IsRunning_at _ _ _ Hm1)|].
    split; [by apply (Start_already E l w1 _ Hm1)|].
    unfold w1. simpl. rewrite count_New_app. simpl. lia.
Qed.

Lemma connectionManager_Start_without_cfg_witness :
  exists w1,
    connectionManager_Start env_online (Some 1%positive)
      (upd_managers (fun _ => {[ 1%positive := mkConnectionManager 0 None None ]}) empty_world)
    = (Panic nil_dereference, w1)
    /\ started_at 1%positive w1 = Some 1
    /\ connectionManager_IsRunning (Some 1%positive) w1 = (Ret true, w1)
    /\ connectionManager_Start env_online (Some 1%positive) w1
       = (Ret (Some (Errorf_w "connection manager %w" ErrSubSystemAlreadyStarted)), w1)
    /\ count_New (trace w1)
       = count_New (trace (upd_managers
           (fun _ => {[ 1%positive := mkConnectionManager 0 None None ]}) empty_world)).
Proof.
  apply (connectionManager_Start_without_cfg env_online 1%positive _
           (mkConnectionManager 0 None None)); reflexivity.
Defined.

(** X3. [Start] followed by [Stop]: the checker [connchecker.New]
    returned is the one [Stop] shuts down, once; [Stop] returns nil and
    puts the flag back to 0, and leaves [conn] pointing at the checker it
    has shut down. *)
Theorem connectionManager_Start_Stop E l w m c cv ck :
  managers w !! l = Some m -> started m = 0 -> cfg m = Some c ->
  cfgs w !! c = Some cv ->
  connchecker_New E (trace w ++ [starting_event])
    (config.DNSList cv) (config.PublicDomainList cv) (config.CheckInterval cv)
  = (Some ck, None) ->
  exists w1 w2,
    connectionManager_Start E (Some l) w = (Ret None, w1)
    /\ connectionManager_Stop (Some l) w1 = (Ret None, w2)
    /\ trace w2 = trace w1 ++
         [EvLog gctlog.Debug gctlog.ConnectionMgr "Connection manager shutting down..." None;
          EvShutdown ck;
          EvLog gctlog.Debug gctlog.ConnectionMgr "Connection manager stopped." None]
    /\ managers w2 !! l = Some {| started := 0; conn := Some ck; cfg := Some c |}.
Proof.
  intros H Hs Hc Hcv HN.
  destruct (Start_ok E l w m c cv (Some ck) H Hs Hc Hcv HN) as (w1 & H1 & Hm1 & _ & _).
  destruct (Stop_running l w1 _ Hm1 eq_refl)
    as (w2 & r & H2 & Hm2 & _ & _ & _ & _ & Hr & Htr).
  simpl in Hr, Htr. subst r. exists w1, w2.
  repeat split; try done. rewrite Hm2. apply lookup_insert_eq.
Qed.

Lemma connectionManager_Start_Stop_witness :
  exists w1 w2,
    connectionManager_Start env_online (Some 1%positive) world_stopped = (Ret None, w1)
    /\ connectionManager_Stop (Some 1%positive) w1 = (Ret None, w2)
    /\ trace w2 = trace w1 ++
         [EvLog gctlog.Debug gctlog.ConnectionMgr "Connection manager shutting down..." None;
          EvShutdown (CheckerRef 1);
          EvLog gctlog.Debug gctlog.ConnectionMgr "Connection manager stopped." None]
    /\ managers w2 !! 1%positive
       = Some {| started := 0; conn := Some (CheckerRef 1); cfg := Some 1%positive |}.
Proof.
  apply (connectionManager_Start_Stop env_online 1%positive world_stopped
           manager_stopped 1%positive sample_cfg (CheckerRef 1)); reflexivity.
Defined.

Lemma with_defaults_idempotent E cv :
  with_defaults E (with_defaults E cv) = with_defaults E cv.
Proof.
  destruct cv as [dns doms iv]. unfold with_defaults. simpl.
  destruct dns, doms, (iv =? 0) eqn:Hiv; simpl; rewrite ?Hiv;
    repeat match goal with
           | |- context [DefaultDNSList E] => destruct (DefaultDNSList E)
           | |- context [DefaultDomainList E] => destruct (DefaultDomainList E)
           | |- context [DefaultCheckInterval E =? 0] =>
               destruct (DefaultCheckInterval E =? 0) eqn:?
           end; done.
Qed.

(** X4. [setupConnectionManager] called twice on one configuration: the
    second call changes nothing more in the configuration, and the two
    managers it returns are different objects that hold the same
    configuration pointer. *)
Theorem setupConnectionManager_twice E c cv w :
  cfgs w !! c = Some cv ->
  exists l1 w1 l2 w2,
    setupConnectionManager E (Some c) w = (Ret (Some l1, None), w1)
    /\ setupConnectionManager E (Some c) w1 = (Ret (Some l2, None), w2)
    /\ l1 <> l2
    /\ cfgs w2 = cfgs w1
    /\ cfg <$> managers w2 !! l1 = Some (Some c)
    /\ cfg <$> managers w2 !! l2 = Some (Some c).
Proof.
  intros Hcv.
  destruct (setup_ok E c cv w Hcv) as (l1 & w1 & H1 & _ & Hm1 & Hc1 & _).
  assert (Hcv1 : cfgs w1 !! c = Some (with_defaults E cv))
    by (rewrite Hc1; apply lookup_insert_eq).
  destruct (setup_ok E c _ w1 Hcv1) as (l2 & w2 & H2 & Hf2 & Hm2 & Hc2 & _).
  assert (Hne : l1 <> l2).
  { intros ->. rewrite Hm1, lookup_insert_eq in Hf2. done. }
  exists l1, w1, l2, w2. repeat split; try done.
  - rewrite Hc2, with_defaults_idempotent. by apply insert_id.
  - rewrite Hm2, lookup_insert_ne, Hm1, lookup_insert_eq by done. done.
  - by rewrite Hm2, lookup_insert_eq.
Qed.

Lemma setupConnectionManager_twice_witness :
  exists l1 w1 l2 w2,
    setupConnectionManager env_online (Some 1%positive) world_unset
    = (Ret (Some l1, None), w1)
    /\ setupConnectionManager env_online (Some 1%positive) w1 = (Ret (Some l2, None), w2)
    /\ l1 <> l2
    /\ cfgs w2 = cfgs w1
    /\ cfg <$> managers w2 !! l1 = Some (Some 1%positive)
    /\ cfg <$> managers w2 !! l2 = Some (Some 1%positive).
Proof.
  apply (setupConnectionManager_twice env_online 1%positive unset_cfg world_unset).
  reflexivity.
Defined.

(** X5. [IsOnline] never faults.  On a nil manager it is [false]; on a
    manager without a checker it is [false] and logs one warning; once
    [Start] has stored a checker it is that checker's [IsConnected], and
    it still is after [Stop], which keeps the checker it has shut down. *)
Theorem connectionManager_IsOnline_answers IsConnected E l w m c cv ck :
  managers w !! l = Some m -> started m = 0 -> conn m = None -> cfg m = Some c ->
  cfgs w !! c = Some cv ->
  connchecker_New E (trace w ++ [starting_event])
    (config.DNSList cv) (config.PublicDomainList cv) (config.CheckInterval cv)
  = (Some ck, None) ->
  connectionManager_IsOnline IsConnected None w = (Ret false, w)
  /\ connectionManager_IsOnline IsConnected (Some l) w
     = (Ret false,
        emit (EvLog gctlog.Warn gctlog.ConnectionMgr
                "Connection manager: IsOnline called but conn is nil" None) w)
  /\ exists w1 w2,
       connectionManager_Start E (Some l) w = (Ret None, w1)
       /\ connectionManager_IsOnline IsConnected (Some l) w1
          = (Ret (IsConnected (trace w1) ck), w1)
       /\ connectionManager_Stop (Some l) w1 = (Ret None, w2)
       /\ connectionManager_IsOnline IsConnected (Some l) w2
          = (Ret (IsConnected (trace w2) ck), w2).
Proof.
  intros H Hs Hcn Hc Hcv HN. split; [done|]. split.
  - unfold connectionManager_IsOnline.
    rewrite (bind_Ret _ _ _ _ _ (load_manager_Some _ _ _ H)), Hcn. done.
  - destruct (Start_ok E l w m c cv (Some ck) H Hs Hc Hcv HN) as (w1 & H1 & Hm1 & _ & _).
    destruct (Stop_running l w1 _ Hm1 eq_refl)
      as (w2 & r & H2 & Hm2 & _ & _ & _ & _ & Hr & _).
    simpl in Hr. subst r.
    assert (Hl2 : managers w2 !! l
                  = Some (set_started 0 {| started := 1; conn := Some ck; cfg := Some c |}))
      by (rewrite Hm2; apply lookup_insert_eq).
    exists w1, w2. repeat split; try done.
    + unfold connectionManager_IsOnline.
      by rewrite (bind_Ret _ _ _ _ _ (load_manager_Some _ _ _ Hm1)).
    + unfold connectionManager_IsOnline.
      by rewrite (bind_Ret _ _ _ _ _ (load_manager_Some _ _ _ Hl2)).
Qed.

Lemma connectionManager_IsOnline_answers_witness :
  connectionManager_IsOnline (fun _ _ => true) None world_stopped = (Ret false, world_stopped)
  /\ connectionManager_IsOnline (fun _ _ => true) (Some 1%positive) world_stopped
     = (Ret false,
        emit (EvLog gctlog.Warn gctlog.ConnectionMgr
                "Connection manager: IsOnline called but conn is nil" None) world_stopped)
  /\ exists w1 w2,
       connectionManager_Start env_online (Some 1%positive) world_stopped = (Ret None, w1)
       /\ connectionManager_IsOnline (fun _ _ => true) (Some 1%positive) w1
          = (Ret ((fun _ _ => true) (trace w1) (CheckerRef 1)), w1)
       /\ connectionManager_Stop (Some 1%positive) w1 = (Ret None, w2)
       /\ connectionManager_IsOnline (fun _ _ => true) (Some 1%positive) w2
          = (Ret ((fun _ _ => true) (trace w2) (CheckerRef 1)), w2).
Proof.
  apply (connectionManager_IsOnline_answers (fun _ _ => true) env_online 1%positive
           world_stopped manager_stopped 1%positive sample_cfg (CheckerRef 1));
    reflexivity.
Defined.

(** ** FlagSet *)

(** X6. [WithBool] is idempotent: applied a second time with the same
    arguments it leaves [*flagValue] as the first application set it. *)
Theorem FlagSet_WithBool_idempotent (f : gmap string bool) key p v0 configValue w :
  bools w !! p = Some v0 ->
  exists w1 w2,
    FlagSet_WithBool f key (Some p) configValue w = (Ret tt, w1)
    /\ FlagSet_WithBool f key (Some p) configValue w1 = (Ret tt, w2)
    /\ bools w2 = bools w1.
Proof.
  intros H. unfold FlagSet_WithBool, store_bool, load_bool, bind, ret, modify.
  destruct (default false (f !! key)), configValue; simpl; rewrite ?H; simpl;
    rewrite ?H; eexists _, _; (split; [reflexivity|]); simpl;
    rewrite ?lookup_insert_eq; simpl; rewrite ?lookup_insert_eq;
    (split; [reflexivity|]); simpl; by rewrite insert_insert_eq.
Qed.

Lemma FlagSet_WithBool_idempotent_witness :
  exists w1 w2,
    FlagSet_WithBool {[ "verbose" := true ]} "verbose" (Some 1%positive) false world_flag
    = (Ret tt, w1)
    /\ FlagSet_WithBool {[ "verbose" := true ]} "verbose" (Some 1%positive) false w1
       = (Ret tt, w2)
    /\ bools w2 = bools w1.
Proof.
  apply (FlagSet_WithBool_idempotent {[ "verbose" := true ]} "verbose" 1%positive
           true false world_flag).
  reflexivity.
Defined.

(** ** Engine *)

(** X7. The two methods differ on a nil engine: [Start] returns an error
    and touches nothing, not even the mutex; [Stop] has no such check,
    logs that it shuts down and panics on [bot.portfolioManager], the
    deferred call releasing the mutex. *)
Theorem Engine_nil_receiver E w :
  newEngineMutex w = false ->
  Engine_Start E None w = (Ret (Some (errors_New "engine instance is nil")), w)
  /\ Engine_Stop E None w = (Panic nil_dereference, emit shutting_down w).
Proof.
  intros Hmx. split; [done|].
  unfold Engine_Stop, newEngineMutex_Lock. unfold bind at 1. rewrite Hmx.
  unfold with_defer, gctlog_Debugln. unfold bind at 1. simpl.
  destruct w; simpl in *. by subst.
Qed.

Lemma Engine_nil_receiver_witness :
  Engine_Start env_online None world_idle
  = (Ret (Some (errors_New "engine instance is nil")), world_idle)
  /\ Engine_Stop env_online None world_idle
     = (Panic nil_dereference, emit shutting_down world_idle).
Proof. apply (Engine_nil_receiver env_online world_idle). reflexivity. Defined.

(** ** Engine.Start, part by part *)

Lemma start_frame_refl b w : start_frame b w w.
Proof.
  repeat split; try done; [by exists []; rewrite app_nil_r|].
  intros e He. by exists e.
Qed.

Lemma start_frame_trans b w1 w2 w3 :
  start_frame b w1 w2 -> start_frame b w2 w3 -> start_frame b w1 w3.
Proof.
  intros (Hm & Hc & Hg & Hx & [ev1 Ht] & He) (Hm' & Hc' & Hg' & Hx' & [ev2 Ht'] & He').
  repeat split; try congruence.
  - exists (ev1 ++ ev2). by rewrite Ht', Ht, app_assoc.
  - intros e H1. destruct (He e H1) as (e2 & H2 & Hs2 & Hc2 & Hm2).
    destruct (He' e2 H2) as (e3 & H3 & Hs3 & Hc3 & Hm3).
    exists e3. repeat split; congruence.
Qed.

(** Run a part of [Start] on an engine known by [He], [Hc], [Hcv]. *)
Ltac run_part He Hc Hcv :=
  do 60 (try first
    [ rewrite bind_assoc
    | progress (erewrite bind_Ret by
        first [ eapply load_engine_Some; simpl; first [eassumption | apply lookup_insert_eq]
              | eapply store_engine_Some; simpl;
                first [eassumption | apply lookup_insert_eq]
              | eapply Config_of_Some; simpl;
                [ first [eassumption | apply lookup_insert_eq]
                | simpl; eassumption | simpl; eassumption ]
              | reflexivity ]);
      cbn [fst snd config.Logging_Enabled config.NTPClient_Level config.Logging_Output
           config.ConnectionMonitor]; cbv beta iota
    | match goal with
      | |- context [if ?x then _ else _] =>
          lazymatch x with
          | context [if _ then _ else _] => fail
          | context [match _ with _ => _ end] => fail
          | _ => let H := fresh "Hb" in destruct x eqn:H
          end
      | |- context [match ?x with _ => _ end] =>
          lazymatch x with
          | context [bind] => fail
          | context [if _ then _ else _] => fail
          | context [match _ with _ => _ end] => fail
          | _ => let H := fresh "Hd" in destruct x eqn:H
          end
      end ]).

Ltac frame_now :=
  repeat split; simpl; try done;
  match goal with
  | |- exists evs, _ = _ ++ evs =>
      eexists; rewrite <- ?app_assoc; simpl;
      first [reflexivity | symmetry; apply app_nil_r]
  | |- forall e0, _ !! _ = Some e0 -> _ =>
      let e0 := fresh "e" in let H0 := fresh "H" in
      intros e0 H0;
      repeat match goal with
             | H1 : ?m !! ?b = Some ?e1, H2 : ?m !! ?b = Some ?e2 |- _ =>
                 rewrite H1 in H2; injection H2 as <-
             end;
      eexists; split;
      [ first [eassumption | apply lookup_insert_eq] | by repeat split ]
  end.


Lemma Start_DatabaseManager_frame E b st c cv w :
  ready b st c cv w ->
  exists w', Start_DatabaseManager E b w = (Ret tt, w') /\ start_frame b w w'.
Proof.
  intros (e & He & Hs & Hc & Hcv). unfold Start_DatabaseManager, Settings_of, other_of, call_ptr_err,
    call_ptr, call_err, call_unit, go, engine_Start, absent_Start, collab_Start,
    log_failure, gctlog_Errorf.
  run_part He Hc Hcv.
  all: eexists; (split; [reflexivity|]).
  all: frame_now.
Qed.

Lemma Start_Dispatcher_frame E b st c cv w :
  ready b st c cv w ->
  exists w', Start_Dispatcher E b w = (Ret tt, w') /\ start_frame b w w'.
Proof.
  intros (e & He & Hs & Hc & Hcv). unfold Start_Dispatcher, Settings_of, other_of, call_ptr_err,
    call_ptr, call_err, call_unit, go, engine_Start, absent_Start, collab_Start,
    log_failure, gctlog_Errorf.
  run_part He Hc Hcv.
  all: eexists; (split; [reflexivity|]).
  all: frame_now.
Qed.

Lemma Start_CommsRelayer_frame E b st c cv w :
  ready b st c cv w ->
  exists w', Start_CommsRelayer E b w = (Ret tt, w') /\ start_frame b w w'.
Proof.
  intros (e & He & Hs & Hc & Hcv). unfold Start_CommsRelayer, Settings_of, other_of, call_ptr_err,
    call_ptr, call_err, call_unit, go, engine_Start, absent_Start, collab_Start,
    log_failure, gctlog_Errorf.
  run_part He Hc Hcv.
  all: eexists; (split; [reflexivity|]).
  all: frame_now.
Qed.

Lemma Start_StorageUpdater_frame E b st c cv w :
  ready b st c cv w ->
  exists w', Start_StorageUpdater E b w = (Ret tt, w') /\ start_frame b w w'.
Proof.
  intros (e & He & Hs & Hc & Hcv). unfold Start_StorageUpdater, Settings_of, other_of, call_ptr_err,
    call_ptr, call_err, call_unit, go, engine_Start, absent_Start, collab_Start,
    log_failure, gctlog_Errorf.
  run_part He Hc Hcv.
  all: eexists; (split; [reflexivity|]).
  all: frame_now.
Qed.

Lemma Start_PortfolioManager_frame E b st c cv w :
  ready b st c cv w ->
  exists w', Start_PortfolioManager E b w = (Ret tt, w') /\ start_frame b w w'.
Proof.
  intros (e & He & Hs & Hc & Hcv). unfold Start_PortfolioManager, Settings_of, other_of, call_ptr_err,
    call_ptr, call_err, call_unit, go, engine_Start, absent_Start, collab_Start,
    log_failure, gctlog_Errorf.
  run_part He Hc Hcv.
  all: eexists; (split; [reflexivity|]).
  all: frame_now.
Qed.

Lemma Start_DataHistoryManager_frame E b st c cv w :
  ready b st c cv w ->
  exists w', Start_DataHistoryManager E b w = (Ret tt, w') /\ start_frame b w w'.
Proof.
  intros (e & He & Hs & Hc & Hcv). unfold Start_DataHistoryManager, Settings_of, other_of, call_ptr_err,
    call_ptr, call_err, call_unit, go, engine_Start, absent_Start, collab_Start,
    log_failure, gctlog_Errorf.
  run_part He Hc Hcv.
  all: eexists; (split; [reflexivity|]).
  all: frame_now.
Qed.

Lemma Start_DepositAddressManager_frame E b st c cv w :
  ready b st c cv w ->
  exists w', Start_DepositAddressManager E b w = (Ret tt, w') /\ start_frame b w w'.
Proof.
  intros (e & He & Hs & Hc & Hcv). unfold Start_DepositAddressManager, Settings_of, other_of, call_ptr_err,
    call_ptr, call_err, call_unit, go, engine_Start, absent_Start, collab_Start,
    log_failure, gctlog_Errorf.
  run_part He Hc Hcv.
  all: eexists; (split; [reflexivity|]).
  all: frame_now.
Qed.

Lemma Start_OrderManager_frame E b st c cv w :
  ready b st c cv w ->
  exists w', Start_OrderManager E b w = (Ret tt, w') /\ start_frame b w w'.
Proof.
  intros (e & He & Hs & Hc & Hcv). unfold Start_OrderManager, Settings_of, other_of, call_ptr_err,
    call_ptr, call_err, call_unit, go, engine_Start, absent_Start, collab_Start,
    log_failure, gctlog_Errorf.
  run_part He Hc Hcv.
  all: eexists; (split; [reflexivity|]).
  all: frame_now.
Qed.

Lemma Start_ExchangeSyncManager_frame E b st c cv w :
  ready b st c cv w ->
  exists w', Start_ExchangeSyncManager E b w = (Ret tt, w') /\ start_frame b w w'.
Proof.
  intros (e & He & Hs & Hc & Hcv). unfold Start_ExchangeSyncManager, Settings_of, other_of, call_ptr_err,
    call_ptr, call_err, call_unit, go, engine_Start, absent_Start, collab_Start,
    log_failure, gctlog_Errorf.
  run_part He Hc Hcv.
  all: eexists; (split; [reflexivity|]).
  all: frame_now.
Qed.

Lemma Start_EventManager_frame E b st c cv w :
  ready b st c cv w ->
  exists w', Start_EventManager E b w = (Ret tt, w') /\ start_frame b w w'.
Proof.
  intros (e & He & Hs & Hc & Hcv). unfold Start_EventManager, Settings_of, other_of, call_ptr_err,
    call_ptr, call_err, call_unit, go, engine_Start, absent_Start, collab_Start,
    log_failure, gctlog_Errorf.
  run_part He Hc Hcv.
  all: eexists; (split; [reflexivity|]).
  all: frame_now.
Qed.

Lemma Start_WebsocketRoutine_frame E b st c cv w :
  ready b st c cv w ->
  exists w', Start_WebsocketRoutine E b w = (Ret tt, w') /\ start_frame b w w'.
Proof.
  intros (e & He & Hs & Hc & Hcv). unfold Start_WebsocketRoutine, Settings_of, other_of, call_ptr_err,
    call_ptr, call_err, call_unit, go, engine_Start, absent_Start, collab_Start,
    log_failure, gctlog_Errorf.
  run_part He Hc Hcv.
  all: eexists; (split; [reflexivity|]).
  all: frame_now.
Qed.

Lemma Start_GCTScriptManager_frame E b st c cv w :
  ready b st c cv w ->
  exists w', Start_GCTScriptManager E b w = (Ret tt, w') /\ start_frame b w w'.
Proof.
  intros (e & He & Hs & Hc & Hcv). unfold Start_GCTScriptManager, Settings_of, other_of, call_ptr_err,
    call_ptr, call_err, call_unit, go, engine_Start, absent_Start, collab_Start,
    log_failure, gctlog_Errorf.
  run_part He Hc Hcv.
  all: eexists; (split; [reflexivity|]).
  all: frame_now.
Qed.

Lemma Start_CurrencyStateManager_frame E b st c cv w :
  ready b st c cv w ->
  exists w', Start_CurrencyStateManager E b w = (Ret tt, w') /\ start_frame b w w'.
Proof.
  intros (e & He & Hs & Hc & Hcv). unfold Start_CurrencyStateManager, Settings_of, other_of, call_ptr_err,
    call_ptr, call_err, call_unit, go, engine_Start, absent_Start, collab_Start,
    log_failure, gctlog_Errorf.
  run_part He Hc Hcv.
  all: eexists; (split; [reflexivity|]).
  all: frame_now.
Qed.

Lemma ready_frame b st c cv w w' :
  ready b st c cv w -> start_frame b w w' -> ready b st c cv w'.
Proof.
  intros (e & He & Hs & Hc & Hcv) (_ & _ & Hg & _ & _ & Hf).
  destruct (Hf e He) as (e' & He' & Hs' & Hc' & _).
  exists e'. repeat split; congruence.
Qed.

Lemma monitored_frame b w w' :
  monitored b w -> start_frame b w w' -> monitored b w'.
Proof.
  intros (e & l & m & He & Hl & Hm & Hs) (Hmg & _ & _ & _ & _ & Hf).
  destruct (Hf e He) as (e' & He' & _ & _ & Hl').
  exists e', l, m. repeat split; congruence.
Qed.

Ltac hard_now :=
  unfold hard_outcome; simpl;
  first [ done
        | eexists _, _, _;
          split; [|split; [reflexivity|split; [eassumption|reflexivity]]];
          unfold hard_call; tauto ].

Lemma Start_NTPClient_frame E b st c cv w :
  ready b st c cv w -> is_Some (config.Logging_Enabled cv) ->
  exists r w', Start_NTPClient E b w = (Ret r, w') /\ start_frame b w w'
               /\ hard_outcome E r (trace w').
Proof.
  intros (e & He & Hs & Hc & Hcv) [en Hen]. destruct cv as [nm cm lvl le lo pf ec salt dk]. simpl in Hen. subst le.
  unfold Start_NTPClient, Settings_of, other_of, call_ptr_err, call_text_err,
    call_ptr, call_err, call_unit, go, engine_Start, absent_Start, collab_Start,
    log_failure, gctlog_Errorf, gctlog_Info, or_return, continue.
  run_part He Hc Hcv.
  all: eexists _, _; (split; [reflexivity|]).
  all: split; [frame_now|hard_now].
Qed.

Lemma Start_Exchanges_frame E b st c cv w :
  ready b st c cv w -> is_Some (config.Logging_Enabled cv) ->
  exists r w', Start_Exchanges E b w = (Ret r, w') /\ start_frame b w w'
               /\ hard_outcome E r (trace w').
Proof.
  intros (e & He & Hs & Hc & Hcv) [en Hen]. destruct cv as [nm cm lvl le lo pf ec salt dk]. simpl in Hen. subst le.
  unfold Start_Exchanges, Settings_of, other_of, call_ptr_err, call_text_err,
    call_ptr, call_err, call_unit, go, engine_Start, absent_Start, collab_Start,
    log_failure, gctlog_Errorf, gctlog_Info, gctlog_Debugf, gctlog_Debugln,
    or_return, continue.
  run_part He Hc Hcv.
  all: match goal with
       | |- context [Ret (call_error ?E' ?h ?c')] =>
           destruct (call_error E' h c') eqn:?
       end.
  all: eexists _, _; (split; [reflexivity|]).
  all: split; [frame_now|hard_now].
Qed.

Lemma Start_WithdrawManager_frame E b st c cv w :
  ready b st c cv w ->
  exists r w', Start_WithdrawManager E b w = (Ret r, w') /\ start_frame b w w'
               /\ hard_outcome E r (trace w').
Proof.
  intros (e & He & Hs & Hc & Hcv).
  unfold Start_WithdrawManager, Settings_of, other_of, call_ptr_err, call_text_err,
    call_ptr, call_err, call_unit, go, engine_Start, absent_Start, collab_Start,
    log_failure, gctlog_Errorf, gctlog_Info, or_return, continue.
  run_part He Hc Hcv.
  destruct (call_error E (trace w) SetupWithdrawManager) eqn:Hd.
  all: eexists _, _; (split; [reflexivity|]).
  all: split; [frame_now|hard_now].
Qed.

Lemma Start_APIServer_frame E b st c cv w :
  ready b st c cv w ->
  exists r w', Start_APIServer E b w = (Ret r, w') /\ start_frame b w w'
               /\ hard_outcome E r (trace w').
Proof.
  intros (e & He & Hs & Hc & Hcv).
  unfold Start_APIServer, Settings_of, other_of, call_ptr_err, call_text_err,
    call_ptr, call_err, call_unit, go, engine_Start, absent_Start, collab_Start,
    log_failure, gctlog_Errorf, gctlog_Info, or_return, continue.
  run_part He Hc Hcv.
  all: eexists _, _; (split; [reflexivity|]).
  all: split; [frame_now|hard_now].
Qed.

Lemma engine_Start_Ret s (start : M (option error)) w r w' :
  start w = (Ret r, w') ->
  engine_Start s start w = (Ret r, emit (EvStart s r) w').
Proof. intros H. unfold engine_Start. by rewrite (bind_Ret _ _ _ _ _ H). Qed.

Lemma underway_frame b st c cv mx Q w w' :
  underway b st c cv mx Q w -> start_frame b w w' -> underway b st c cv mx Q w'.
Proof.
  intros (Hr & Hmx & Hq) F. split; [by eapply ready_frame|]. split.
  - destruct F as (_ & _ & _ & -> & _). done.
  - intros q. eapply monitored_frame; eauto.
Qed.

(** [Start] on a stopped manager with a configuration: what it touches,
    and that the flag ends at 1 exactly when the checker could be built. *)
Lemma Start_stopped E l w m c cv :
  managers w !! l = Some m -> started m = 0 -> cfg m = Some c ->
  cfgs w !! c = Some cv ->
  exists r w1 m1,
    connectionManager_Start E (Some l) w = (Ret r, w1)
    /\ engines w1 = engines w /\ configs w1 = configs w /\ cfgs w1 = cfgs w
    /\ newEngineMutex w1 = newEngineMutex w
    /\ (exists evs, trace w1 = trace w ++ evs)
    /\ managers w1 !! l = Some m1
    /\ (started m1 = 1 <-> r = None)
    /\ (r = None <->
        (connchecker_New E (trace w ++ [starting_event]) (config.DNSList cv)
           (config.PublicDomainList cv) (config.CheckInterval cv)).2 = None).
Proof.
  intros H Hs Hc Hcv. unfold starting_event in *.
  destruct (connchecker_New E
    (trace w ++ [EvLog gctlog.Debug gctlog.ConnectionMgr "Connection manager starting..." None])
    (config.DNSList cv) (config.PublicDomainList cv) (config.CheckInterval cv))
    as [chk [text|]] eqn:HN.
  - eexists _, _, _. split.
    + unfold connectionManager_Start.
      step. step. step. rewrite Hc. step.
      unfold call_connchecker_New. unfold bind at 1. simpl. rewrite HN. simpl.
      step. step. reflexivity.
    + simpl. rewrite lookup_insert_eq.
      repeat split; try done.
      * eexists. rewrite <- !app_assoc. reflexivity.
  - eexists _, _, _. split.
    + unfold connectionManager_Start.
      step. step. step. rewrite Hc. step.
      unfold call_connchecker_New. unfold bind at 1. simpl. rewrite HN. simpl.
      step. step. reflexivity.
    + simpl. rewrite lookup_insert_eq.
      repeat split; try done.
      * eexists. rewrite <- !app_assoc. reflexivity.
Qed.

(** Lines 150-160 on an engine whose configuration has its connection
    monitor part: a manager is made and started, and runs when its
    checker could be built. *)
Lemma Start_ConnectivityMonitor_run E b st c cv mx w :
  underway b st c cv mx False w ->
  is_Some (cfgs w !! config.ConnectionMonitor cv) ->
  exists w', Start_ConnectivityMonitor E b w = (Ret tt, w')
    /\ underway b st c cv mx
         (EnableConnectivityMonitor st = true /\ always_online E) w'
    /\ (exists evs, trace w' = trace w ++ evs).
Proof.
  intros ((e & He & Hs & Hc & Hcv) & Hmx & _) [ccv Hccv].
  unfold Start_ConnectivityMonitor, Settings_of. rewrite bind_assoc.
  rewrite (bind_Ret _ _ _ _ _ (load_engine_Some _ _ _ He)).
  erewrite bind_Ret by reflexivity. rewrite Hs.
  destruct (EnableConnectivityMonitor st) eqn:Hen.
  - rewrite (bind_Ret _ _ _ _ _ (Config_of_Some _ _ _ _ _ He Hc Hcv)). simpl snd.
    destruct (setup_ok E _ ccv w Hccv)
      as (l & w1 & H1 & _ & Hm1 & Hc1 & Ht1 & Hg1 & He1 & _ & Hx1).
    rewrite (bind_Ret _ _ _ _ _ H1). simpl fst. simpl snd.
    assert (He1' : engines w1 !! b = Some e) by (by rewrite He1).
    rewrite (bind_Ret _ _ _ _ _ (store_engine_Some _ _ _ _ He1')).
    set (w2 := upd_engines _ w1).
    assert (He2 : engines w2 !! b = Some (set_connectionManager (Some l) e))
      by apply lookup_insert_eq.
    rewrite (bind_Ret _ _ _ _ _ (load_engine_Some _ _ _ He2)). simpl bot_connectionManager.
    assert (Hl2 : managers w2 !! l
                  = Some {| started := 0; conn := None;
                            cfg := Some (config.ConnectionMonitor cv) |})
      by (simpl; rewrite Hm1; apply lookup_insert_eq).
    assert (Hcv2 : cfgs w2 !! config.ConnectionMonitor cv = Some (with_defaults E ccv))
      by (simpl; rewrite Hc1; apply lookup_insert_eq).
    destruct (Start_stopped E l w2 _ _ _ Hl2 eq_refl eq_refl Hcv2)
      as (r & w3 & m3 & H3 & He3 & Hg3 & _ & Hx3 & [ev3 Ht3] & Hm3 & Hr3 & HN3).
    rewrite (bind_Ret _ _ _ _ _ (engine_Start_Ret _ _ _ _ _ H3)).
    assert (Hgo : forall w4, engines w4 = engines w3 -> configs w4 = configs w3 ->
              managers w4 = managers w3 -> newEngineMutex w4 = newEngineMutex w3 ->
              underway b st c cv mx (true = true /\ always_online E) w4).
    { intros w4 E4 G4 M4 X4. split; [|split].
      - exists (set_connectionManager (Some l) e).
        rewrite E4, He3, G4, Hg3. repeat split; try done.
        simpl. by rewrite Hg1.
      - rewrite X4, Hx3. simpl. by rewrite Hx1.
      - intros [_ Hon]. exists (set_connectionManager (Some l) e), l, m3.
        rewrite E4, He3, M4. repeat split; try done.
        apply Hr3, HN3, Hon. }
    unfold log_failure, gctlog_Errorf.
    destruct r; eexists; (split; [reflexivity|]); (split; [by apply Hgo|]).
    all: simpl; rewrite Ht3; simpl; rewrite Ht1; eexists; rewrite <- ?app_assoc;
      reflexivity.
  - eexists. split; [reflexivity|]. split.
    + split; [by exists e|]. split; [done|]. by intros [? _].
    + exists []. by rewrite app_nil_r.
Qed.

Ltac soft_part E lem :=
  lazymatch goal with
  | U : underway ?b ?st ?c ?cv ?mx ?Q ?w |- _ =>
      let w' := fresh "w" in let R := fresh "R" in let F := fresh "F" in
      destruct (lem E b st c cv w (proj1 U)) as (w' & R & F);
      rewrite ?bind_assoc; rewrite (bind_Ret _ _ _ _ _ R);
      apply (fun U0 => underway_frame _ _ _ _ _ _ _ _ U0 F) in U;
      clear R F; try clear w
  end.

Ltac hard_part E lem :=
  lazymatch goal with
  | U : underway ?b ?st ?c ?cv ?mx ?Q ?w |- _ =>
      let w' := fresh "w" in let R := fresh "R" in let F := fresh "F" in
      let r := fresh "r" in let O := fresh "O" in
      destruct (lem E b st c cv w) as (r & w' & R & F & O);
      [ first [exact (proj1 U) | eassumption] .. |];
      unfold or_return at 1; rewrite ?bind_assoc; rewrite (bind_Ret _ _ _ _ _ R);
      apply (fun U0 => underway_frame _ _ _ _ _ _ _ _ U0 F) in U;
      clear R F; try clear w;
      destruct r;
      [ eexists _, _; split; [reflexivity|]; split; [exact O|exact U] | clear O ]
  end.

(** Everything after the database manager, on a sound engine. *)
Lemma Start_after_DatabaseManager_run E b st c cv mx w :
  underway b st c cv mx False w ->
  is_Some (config.Logging_Enabled cv) ->
  is_Some (cfgs w !! config.ConnectionMonitor cv) ->
  exists r w',
    Start_after_DatabaseManager E b w = (Ret r, w')
    /\ hard_outcome E r (trace w')
    /\ underway b st c cv mx
         (EnableConnectivityMonitor st = true /\ always_online E) w'.
Proof.
  intros U Hen Hcm. unfold Start_after_DatabaseManager.
  destruct (Start_Dispatcher_frame E b st c cv w (proj1 U)) as (w1 & R & F).
  rewrite (bind_Ret _ _ _ _ _ R).
  apply (fun U0 => underway_frame _ _ _ _ _ _ _ _ U0 F) in U.
  assert (Hcm1 : is_Some (cfgs w1 !! config.ConnectionMonitor cv)).
  { destruct F as (_ & -> & _). done. }
  clear R F Hcm.
  destruct (Start_ConnectivityMonitor_run E b st c cv mx w1 U Hcm1) as (w2 & R & U2 & _).
  rewrite (bind_Ret _ _ _ _ _ R). clear R U Hcm1.
  hard_part E Start_NTPClient_frame.
  hard_part E Start_Exchanges_frame.
  soft_part E Start_CommsRelayer_frame.
  soft_part E Start_StorageUpdater_frame.
  soft_part E Start_PortfolioManager_frame.
  soft_part E Start_DataHistoryManager_frame.
  hard_part E Start_WithdrawManager_frame.
  hard_part E Start_APIServer_frame.
  soft_part E Start_DepositAddressManager_frame.
  soft_part E Start_OrderManager_frame.
  soft_part E Start_ExchangeSyncManager_frame.
  soft_part E Start_EventManager_frame.
  soft_part E Start_WebsocketRoutine_frame.
  soft_part E Start_GCTScriptManager_frame.
  soft_part E Start_CurrencyStateManager_frame.
  eexists _, _. split; [reflexivity|]. split; [exact I|exact U2].
Qed.

(** [Engine.Start] on a sound engine, as a whole. *)
Lemma Engine_Start_run E b st c cv w :
  ready b st c cv w -> newEngineMutex w = false ->
  is_Some (config.Logging_Enabled cv) ->
  is_Some (cfgs w !! config.ConnectionMonitor cv) ->
  exists r w',
    Engine_Start E (Some b) w = (Ret r, w')
    /\ newEngineMutex w' = false
    /\ hard_outcome E r (trace w')
    /\ (EnableConnectivityMonitor st = true /\ always_online E -> monitored b w').
Proof.
  intros Hr Hmx Hen Hcm. unfold Engine_Start, newEngineMutex_Lock.
  unfold bind at 1. rewrite Hmx. unfold with_defer.
  assert (U : underway b st c cv true False (set_mutex true w)).
  { split; [|split; [done|tauto]]. destruct Hr as (e & ? & ? & ? & ?). by exists e. }
  destruct (Start_DatabaseManager_frame E b st c cv _ (proj1 U)) as (w1 & R & F).
  rewrite (bind_Ret _ _ _ _ _ R).
  apply (fun U0 => underway_frame _ _ _ _ _ _ _ _ U0 F) in U.
  assert (Hcm1 : is_Some (cfgs w1 !! config.ConnectionMonitor cv)).
  { destruct F as (_ & -> & _). done. }
  destruct (Start_after_DatabaseManager_run E b st c cv true w1 U Hen Hcm1)
    as (r & w2 & R2 & O & (_ & _ & Hq)).
  rewrite R2. exists r, (newEngineMutex_Unlock w2).
  repeat split; try done.
Qed.

(** X8 (engine.go, Engine.Start): on an engine with a configuration,
    a non-nil logging switch and a free mutex, Start returns normally and
    leaves the mutex released; what it returns is nil unless one of four
    calls failed (setting the NTP check, setting up the exchanges, setting
    up the withdraw manager, finding the default path for the RPC
    servers), in which case that call was the last thing Start did and
    its error is what Start returns; so when none of the four can fail,
    Start returns nil whatever else fails. *)
Theorem Engine_Start_returns_only_hard_failures E b st c cv w :
  ready b st c cv w -> newEngineMutex w = false ->
  is_Some (config.Logging_Enabled cv) ->
  is_Some (cfgs w !! config.ConnectionMonitor cv) ->
  exists r w',
    Engine_Start E (Some b) w = (Ret r, w')
    /\ newEngineMutex w' = false
    /\ hard_outcome E r (trace w')
    /\ ((forall h k, hard_call k -> call_error E h k = None) -> r = None).
Proof.
  intros Hr Hmx Hen Hcm.
  destruct (Engine_Start_run E b st c cv w Hr Hmx Hen Hcm) as (r & w' & R & X & O & _).
  exists r, w'. repeat split; try done.
  intros Hnone. destruct r as [res|]; [|done].
  destruct O as (k & h & err & Hk & _ & Hcall & _).
  by rewrite (Hnone h k Hk) in Hcall.
Qed.

Lemma Engine_Start_returns_only_hard_failures_witness :
  exists r w',
    Engine_Start env_db_down (Some 1%positive) world_idle = (Ret r, w')
    /\ newEngineMutex w' = false
    /\ hard_outcome env_db_down r (trace w')
    /\ ((forall h k, hard_call k -> call_error env_db_down h k = None) -> r = None).
Proof.
  apply (Engine_Start_returns_only_hard_failures env_db_down 1%positive settings_db
           1%positive sample_Config world_idle).
  - exists engine_idle. repeat split; reflexivity.
  - reflexivity.
  - exists true. reflexivity.
  - exists sample_cfg. reflexivity.
Defined.

(** X9 (engine.go, Engine.Start lines 150-160, with
    connection_manager.go): when the connectivity monitor is enabled and
    the checker can be built, the engine's connection manager is running
    when Start returns, also when Start returns an error of a later
    part. *)
Theorem Engine_Start_connection_manager_running E b st c cv w :
  ready b st c cv w -> newEngineMutex w = false ->
  is_Some (config.Logging_Enabled cv) ->
  is_Some (cfgs w !! config.ConnectionMonitor cv) ->
  EnableConnectivityMonitor st = true -> always_online E ->
  exists r w' e',
    Engine_Start E (Some b) w = (Ret r, w')
    /\ engines w' !! b = Some e'
    /\ connectionManager_IsRunning (bot_connectionManager e') w' = (Ret true, w').
Proof.
  intros Hr Hmx Hen Hcm Hon Hal.
  destruct (Engine_Start_run E b st c cv w Hr Hmx Hen Hcm) as (r & w' & R & _ & _ & Hq).
  destruct (Hq (conj Hon Hal)) as (e' & l & m & He' & Hl & Hm & Hs).
  exists r, w', e'. repeat split; try done.
  rewrite Hl, (IsRunning_at _ _ _ Hm), Hs. done.
Qed.

Lemma Engine_Start_connection_manager_running_witness :
  exists r w' e',
    Engine_Start env_online (Some 1%positive) world_monitor = (Ret r, w')
    /\ engines w' !! 1%positive = Some e'
    /\ connectionManager_IsRunning (bot_connectionManager e') w' = (Ret true, w').
Proof.
  apply (Engine_Start_connection_manager_running env_online 1%positive
           settings_monitor 1%positive sample_Config world_monitor).
  - exists engine_monitor. repeat split; reflexivity.
  - reflexivity.
  - exists true. reflexivity.
  - exists sample_cfg. reflexivity.
  - reflexivity.
  - intros h dns doms iv. reflexivity.
Defined.

(** ** Saving the configuration *)

(** X10 (config, Save; its comment says that the writer is never
    requested if preparing the data fails).  [Save] on a configuration
    that exists returns.  If it asked for the writer, it did so once,
    after every call that prepares the data (the encoder, the key prompt,
    the key derivation, the encryption) had returned nil, and nothing but
    the copy followed; if it did not ask, it returned an error and no
    file was opened. *)
Theorem Config_Save_prepares_before_writing E c cv path w :
  configs w !! c = Some cv ->
  exists wr r w' evs,
    Config_Save E (Some c) (call_ptr_err E (file_Writer path))
      (call_err E PromptForConfigKey) w = (Ret (wr, r), w')
    /\ trace w' = trace w ++ evs
    /\ (In (EvCall (file_Writer path)) evs ->
        exists pre post,
          evs = pre ++ EvCall (file_Writer path) :: post
          /\ all_succeeded E (trace w) pre
          /\ ~ In (EvCall (file_Writer path)) pre
          /\ (post = [] \/ post = [EvCall io_Copy]))
    /\ (~ In (EvCall (file_Writer path)) evs -> wr = None /\ is_Some r).
Proof.
  intros Hcv.
  unfold Config_Save, Save_session_key, or_return, call_makeNewSessionDK.
  unfold bind, call_err, call_ptr_err, load_config, ret, modify, panic. simpl.
  repeat match goal with
         | |- context [call_error ?E' ?h ?k] =>
             lazymatch h with
             | context [call_error] => fail
             | _ => let H := fresh "Hk" in destruct (call_error E' h k) eqn:H; simpl
             end
         | |- context [if ?x then _ else _] =>
             lazymatch x with
             | context [if _ then _ else _] => fail
             | context [call_error] => fail
             | _ => let H := fresh "Hb" in destruct x eqn:H; simpl
             end
         | |- context [configs ?w0 !! c] =>
             progress (rewrite ?lookup_insert_eq, ?Hcv; simpl)
         end.
  all: eexists _, _, _, _; (split; [reflexivity|]); simpl;
    rewrite <- ?app_assoc; simpl; (split; [reflexivity|]).
  all: split;
    [ intros Hin; simpl in Hin;
      first
        [ exfalso; intuition discriminate
        | match goal with
          | |- exists pre post, ?l = _ /\ _ =>
              first
                [ exists (take 1 l), (drop 2 l); split; [reflexivity|]
                | exists (take 2 l), (drop 3 l); split; [reflexivity|]
                | exists (take 4 l), (drop 5 l); split; [reflexivity|] ]
          end;
          split; [simpl; by repeat split|];
          split; [cbn; intuition discriminate|];
          first [by left | by right] ]
    | intros Hnot; simpl in Hnot;
      first [ by (split; [reflexivity|eexists])
            | exfalso; apply Hnot; intuition ] ].
Qed.

Lemma Config_Save_prepares_before_writing_witness :
  exists wr r w' evs,
    Config_Save env_online (Some 1%positive)
      (call_ptr_err env_online (file_Writer "config.json"))
      (call_err env_online PromptForConfigKey) world_idle = (Ret (wr, r), w')
    /\ trace w' = trace world_idle ++ evs
    /\ (In (EvCall (file_Writer "config.json")) evs ->
        exists pre post,
          evs = pre ++ EvCall (file_Writer "config.json") :: post
          /\ all_succeeded env_online (trace world_idle) pre
          /\ ~ In (EvCall (file_Writer "config.json")) pre
          /\ (post = [] \/ post = [EvCall io_Copy]))
    /\ (~ In (EvCall (file_Writer "config.json")) evs -> wr = None /\ is_Some r).
Proof.
  apply (Config_Save_prepares_before_writing env_online 1%positive sample_Config
           "config.json" world_idle).
  reflexivity.
Defined.

(** X11 (config, Save lines 475-493).  With encryption enabled and no
    session key yet, a [Save] where every call succeeds prompts for the
    key, derives the session key and stores it in the configuration; the
    next [Save] finds it there and neither prompts nor derives again. *)
Theorem Config_Save_keeps_session_key E c cv path w :
  configs w !! c = Some cv ->
  config.EncryptConfig cv = config.fileEncryptionEnabled ->
  config.sessionDK cv = [] ->
  (forall h k, call_error E h k = None) ->
  (forall h, (call_session E h).1 <> []) ->
  exists wr1 w1 wr2 w2,
    Config_Save E (Some c) (call_ptr_err E (file_Writer path))
      (call_err E PromptForConfigKey) w = (Ret (wr1, None), w1)
    /\ trace w1 = trace w ++
         [EvCall json_MarshalIndent; EvCall PromptForConfigKey;
          EvCall makeNewSessionDK; EvCall Config_encryptConfigFile;
          EvCall (file_Writer path); EvCall io_Copy]
    /\ config.sessionDK <$> configs w1 !! c
       = Some (call_session E (trace w ++ [EvCall json_MarshalIndent;
                                           EvCall PromptForConfigKey])).1
    /\ Config_Save E (Some c) (call_ptr_err E (file_Writer path))
         (call_err E PromptForConfigKey) w1 = (Ret (wr2, None), w2)
    /\ trace w2 = trace w1 ++
         [EvCall json_MarshalIndent; EvCall Config_encryptConfigFile;
          EvCall (file_Writer path); EvCall io_Copy]
    /\ configs w2 = configs w1.
Proof.
  intros Hcv Hen Hdk Hok Hkey.
  assert (Hfirst : exists wr1 w1,
    Config_Save E (Some c) (call_ptr_err E (file_Writer path))
      (call_err E PromptForConfigKey) w = (Ret (wr1, None), w1)
    /\ trace w1 = trace w ++
         [EvCall json_MarshalIndent; EvCall PromptForConfigKey;
          EvCall makeNewSessionDK; EvCall Config_encryptConfigFile;
          EvCall (file_Writer path); EvCall io_Copy]
    /\ configs w1 !! c
       = Some (config.set_session
                 (call_session E (trace w ++ [EvCall json_MarshalIndent;
                                              EvCall PromptForConfigKey])).1
                 (call_session E (trace w ++ [EvCall json_MarshalIndent;
                                              EvCall PromptForConfigKey])).2 cv)).
  { unfold Config_Save, Save_session_key, or_return, call_makeNewSessionDK.
    unfold bind, call_err, call_ptr_err, load_config, ret, modify, panic. simpl.
    repeat (first [rewrite Hok | rewrite Hcv | rewrite Hen | rewrite Hdk
                  | rewrite lookup_insert_eq]; simpl).
    eexists _, _. split; [reflexivity|]. simpl. rewrite <- !app_assoc. simpl.
    split; [reflexivity|]. by rewrite lookup_insert_eq. }
  destruct Hfirst as (wr1 & w1 & R1 & T1 & Hc1).
  exists wr1, w1. 
  assert (Hlen : length (call_session E (trace w ++ [EvCall json_MarshalIndent;
                                                     EvCall PromptForConfigKey])).1
                 <> 0%nat).
  { intros Hz. eapply Hkey. apply nil_length_inv, Hz. }
  unfold Config_Save at 2. unfold Save_session_key, or_return.
  unfold bind, call_err, call_ptr_err, load_config, ret, modify, panic. simpl.
  repeat (first [rewrite Hok | rewrite Hc1 | rewrite Hen]; simpl).
  rewrite bool_decide_false by done. simpl.
  repeat (first [rewrite Hok | rewrite Hc1 | rewrite Hen]; simpl).
  eexists _, _. split; [exact R1|]. split; [exact T1|].
  split; [done|]. split; [reflexivity|]. simpl. rewrite <- !app_assoc.
  by repeat split.
Qed.

Lemma Config_Save_keeps_session_key_witness :
  exists wr1 w1 wr2 w2,
    Config_Save env_online (Some 1%positive)
      (call_ptr_err env_online (file_Writer "config.dat"))
      (call_err env_online PromptForConfigKey) world_encrypting = (Ret (wr1, None), w1)
    /\ trace w1 = trace world_encrypting ++
         [EvCall json_MarshalIndent; EvCall PromptForConfigKey;
          EvCall makeNewSessionDK; EvCall Config_encryptConfigFile;
          EvCall (file_Writer "config.dat"); EvCall io_Copy]
    /\ config.sessionDK <$> configs w1 !! 1%positive
       = Some (call_session env_online
                 (trace world_encrypting ++ [EvCall json_MarshalIndent;
                                             EvCall PromptForConfigKey])).1
    /\ Config_Save env_online (Some 1%positive)
         (call_ptr_err env_online (file_Writer "config.dat"))
         (call_err env_online PromptForConfigKey) w1 = (Ret (wr2, None), w2)
    /\ trace w2 = trace w1 ++
         [EvCall json_MarshalIndent; EvCall Config_encryptConfigFile;
          EvCall (file_Writer "config.dat"); EvCall io_Copy]
    /\ configs w2 = configs w1.
Proof.
  apply (Config_Save_keeps_session_key env_online 1%positive
           encrypting_Config "config.dat" world_encrypting).
  - reflexivity.
  - reflexivity.
  - reflexivity.
  - reflexivity.
  - intros h. discriminate.
Defined.

Lemma first_existing_found E paths w :
  exists p w' evs,
    first_existing E paths w = (Ret p, w')
    /\ trace w' = trace w ++ evs
    /\ (p <> EmptyString ->
        exists pre, evs = pre ++ [EvCall (file_Exists p)]
                    /\ call_bool E (trace w ++ pre) (file_Exists p) = true).
Proof.
  revert w. induction paths as [|q rest IH]; intros w; simpl.
  - exists EmptyString, w, []. split; [done|]. split; [by rewrite app_nil_r|done].
  - unfold bind at 1. unfold call_flag at 1.
    destruct (call_bool E (trace w) (file_Exists q)) eqn:Hq.
    + eexists q, _, [_]. split; [reflexivity|]. split; [reflexivity|].
      intros _. exists []. split; [done|]. by rewrite app_nil_r.
    + destruct (IH (emit (EvCall (file_Exists q)) w)) as (p & w' & evs & R & T & Hp).
      exists p, w', (EvCall (file_Exists q) :: evs). split; [exact R|].
      split; [rewrite T; simpl; by rewrite <- app_assoc|].
      intros Hne. destruct (Hp Hne) as (pre & -> & Hb).
      exists (EvCall (file_Exists q) :: pre). split; [done|].
      simpl in Hb. by rewrite <- app_assoc in Hb.
Qed.

(** X12 (config, GetFilePath).  [GetFilePath] always returns, and what
    it returns hangs together: with an error the path is empty; without
    one the path is not empty, and it is either the path that was asked
    for, untouched and with nothing looked up, or a default path, and
    then the last thing [GetFilePath] did was to find that this very path
    exists. *)
Theorem config_GetFilePath_sound E configFile w :
  exists p implicit r w' evs,
    config_GetFilePath E configFile w = (Ret (p, implicit, r), w')
    /\ trace w' = trace w ++ evs
    /\ (is_Some r -> p = EmptyString /\ implicit = false)
    /\ (r = None ->
        p <> EmptyString
        /\ if implicit
           then configFile = EmptyString
                /\ exists pre, evs = pre ++ [EvCall (file_Exists p)]
                     /\ call_bool E (trace w ++ pre) (file_Exists p) = true
           else p = configFile /\ evs = []).
Proof.
  unfold config_GetFilePath. case_bool_decide as Hcf.
  { exists configFile, false, None, w, []. split; [done|].
    split; [by rewrite app_nil_r|]. split; [by intros [? ?]|done]. }
  assert (Hdir : exists newDir w1 ev1,
            common_GetDefaultDataDir E (GOOS E)
              (emit (EvCall os_Executable) w) = (Ret newDir, w1)
            /\ trace w1 = trace w ++ EvCall os_Executable :: ev1).
  { unfold common_GetDefaultDataDir, gctlog_Warnln.
    unfold bind, call_txt, call_text_err, ret, modify. simpl.
    case_bool_decide; [eexists _, _, [_]; split; [reflexivity|]; simpl;
                       by rewrite <- app_assoc|].
    destruct (call_error E _ user_Current);
      [|eexists _, _, [_]; split; [reflexivity|]; simpl; by rewrite <- app_assoc].
    destruct (call_error E _ os_UserHomeDir);
      eexists _, _, _; (split; [reflexivity|]); simpl; rewrite <- !app_assoc;
      reflexivity. }
  unfold common_GetExecutablePath.
  unfold bind at 1. unfold bind at 1. unfold call_text_err at 1. simpl.
  destruct (call_error E (trace w) os_Executable) as [err|] eqn:Hex; simpl.
  { eexists _, _, _, _, [_]. split; [reflexivity|]. split; [reflexivity|].
    split; [done|]. intros [=]. }
  destruct Hdir as (newDir & w1 & ev1 & R1 & T1).
  unfold bind at 1. rewrite R1. cbv beta iota.
  destruct (first_existing_found E
              [filepath_Join E (filepath_Dir E (call_text E (trace w) os_Executable))
                 config.File;
               filepath_Join E (filepath_Dir E (call_text E (trace w) os_Executable))
                 config.EncryptedFile;
               filepath_Join E newDir config.File;
               filepath_Join E newDir config.EncryptedFile] w1)
    as (p & w2 & ev2 & R2 & T2 & Hp).
  simpl in R2.
  unfold bind at 1. rewrite R2. cbv beta iota.
  case_bool_decide as Hfound.
  - eexists _, _, _, _, (EvCall os_Executable :: ev1 ++ ev2).
    split; [reflexivity|]. split; [rewrite T2, T1; simpl; by rewrite <- app_assoc|].
    split; [done|]. intros [=].
  - eexists _, _, _, _, (EvCall os_Executable :: ev1 ++ ev2).
    split; [reflexivity|]. split; [rewrite T2, T1; simpl; by rewrite <- app_assoc|].
    split; [by intros [? [=]]|]. intros _. split; [done|]. split; [done|].
    destruct (Hp Hfound) as (pre & -> & Hb).
    exists (EvCall os_Executable :: ev1 ++ pre). split.
    + simpl. by rewrite <- app_assoc.
    + rewrite T1 in Hb. simpl in Hb. rewrite <- app_assoc in Hb. exact Hb.
Qed.

(** ** Package common *)

Lemma common_found_In s l : common.found s l = true <-> In s l.
Proof.
  induction l as [|x l IH]; simpl; [split; [done|tauto]|].
  case_bool_decide as Hx.
  - split; [intros _; left; by symmetry|done].
  - rewrite IH. split; [tauto|]. intros [Heq|Hin]; [by subst|done].
Qed.

Lemma common_missing_In x l1 l2 diff :
  In x (default [] (common.missing l1 l2 diff))
  <-> In x (default [] diff) \/ (In x l1 /\ ~ In x l2).
Proof.
  revert diff. induction l1 as [|s l1 IH]; intros diff; simpl; [tauto|].
  rewrite IH. destruct (common.found s l2) eqn:Hf.
  - apply common_found_In in Hf. split; [tauto|].
    intros [H|[[->|H] Hn]]; tauto.
  - assert (Hn : ~ In s l2) by (rewrite <- common_found_In, Hf; done).
    unfold common.append. simpl. rewrite in_app_iff. simpl.
    split; [intros [[H|[->|[]]]|H]; tauto|].
    intros [H|[[->|H] Hn']]; tauto.
Qed.

Lemma common_missing_Some l l2 d : common.missing l l2 (Some d) <> None.
Proof.
  revert d. induction l as [|s l IH]; intros d; simpl; [done|].
  destruct (common.found s l2); apply IH.
Qed.

Lemma common_missing_None l1 l2 :
  common.missing l1 l2 None = None <-> forall x, In x l1 -> In x l2.
Proof.
  induction l1 as [|s l1 IH]; simpl; [split; [by intros _ x []|done]|].
  destruct (common.found s l2) eqn:Hf.
  - apply common_found_In in Hf. rewrite IH. split.
    + intros H x [->|Hx]; auto.
    + intros H x Hx. apply H. by right.
  - split; [intros H; by apply common_missing_Some in H|].
    intros H. exfalso. assert (Hin : In s l2) by (apply H; by left).
    apply common_found_In in Hin. congruence.
Qed.

(** X13 (common, StringSliceDifference).  The result holds exactly the
    strings that are in one of the two slices and not in the other; it is
    the nil slice exactly when the two slices have the same members;
    and nil slices count as empty ones. *)
Theorem StringSliceDifference_symmetric_difference slice1 slice2 :
  (forall x,
     In x (default [] (common.StringSliceDifference slice1 slice2))
     <-> (In x (default [] slice1) /\ ~ In x (default [] slice2))
         \/ (In x (default [] slice2) /\ ~ In x (default [] slice1)))
  /\ (common.StringSliceDifference slice1 slice2 = None
      <-> forall x, In x (default [] slice1) <-> In x (default [] slice2)).
Proof.
  unfold common.StringSliceDifference. split.
  - intros x. rewrite !common_missing_In. simpl. tauto.
  - destruct (common.missing (default [] slice1) (default [] slice2) None)
      as [d|] eqn:H1.
    + split.
      * intros H. by apply common_missing_Some in H.
      * intros H. assert (H1' : common.missing (default [] slice1) (default [] slice2) None
                                = None) by (apply common_missing_None; intros x; apply H).
        congruence.
    + pose proof (proj1 (common_missing_None _ _) H1) as H12.
      rewrite common_missing_None.
      split; [intros H2 x; split; auto|]. intros H x. apply H.
Qed.

Lemma common_split_loop_ok (n : nat) fuel inp acc :
  (0 < n)%nat -> Z.of_nat n < 2 ^ 63 -> (length inp < fuel)%nat ->
  exists chunks rest,
    common.split_loop fuel inp (Z.of_nat n) (Z.of_nat n) acc = Ret (acc ++ chunks, rest)
    /\ concat chunks ++ rest = inp
    /\ Forall (fun ch => length ch = n) chunks
    /\ (length rest < n)%nat.
Proof.
  intros Hn Hmax. revert inp acc.
  induction fuel as [|fuel IH]; intros inp acc Hfuel; [lia|].
  simpl. destruct (Z.of_nat (length inp) <? Z.of_nat n) eqn:Hlt.
  - apply Z.ltb_lt in Hlt. exists [], inp.
    rewrite app_nil_r. repeat split; [constructor|lia].
  - apply Z.ltb_ge in Hlt.
    assert (Hle : (2 ^ 63 <=? Z.of_nat n) = false) by (apply Z.leb_gt; lia).
    rewrite Hle, Nat2Z.id.
    destruct (IH (drop n inp) (acc ++ [take n inp])) as (chunks & rest & R & Hc & Hf & Hr).
    { rewrite length_drop. lia. }
    exists (take n inp :: chunks), rest. split; [by rewrite R, <- app_assoc|].
    split; [simpl; by rewrite <- app_assoc, Hc, take_drop|].
    split; [|done]. constructor; [|done]. rewrite length_take. lia.
Qed.

(** X14 (common, SplitStringSliceByLimit).  For a limit from 1 up to
    the largest [int], the function returns, and the slices it returns,
    put end to end, are the input: none of them is empty, all of them but
    the last have exactly [limit] members, and the last has at most
    [limit]. *)
Theorem SplitStringSliceByLimit_chunks inp limit :
  0 < limit < 2 ^ 63 ->
  exists chunks,
    common.SplitStringSliceByLimit inp limit = Ret chunks
    /\ concat chunks = inp
    /\ Forall (fun ch => ch <> [] /\ Z.of_nat (length ch) <= limit) chunks
    /\ Forall (fun ch => Z.of_nat (length ch) = limit)
         (take (length chunks - 1) chunks).
Proof.
  intros [Hpos Hmax]. unfold common.SplitStringSliceByLimit, common.int_of_uint.
  assert (Hlt : (limit <? 2 ^ 63) = true) by (by apply Z.ltb_lt).
  rewrite Hlt. assert (Hz : (limit =? 0) = false) by (apply Z.eqb_neq; lia).
  rewrite Hz.
  assert (Hq : (Z.quot (Z.of_nat (length inp)) limit + 1 <? 0) = false).
  { apply Z.ltb_ge. pose proof (Z.quot_pos (Z.of_nat (length inp)) limit). lia. }
  rewrite Hq.
  destruct (common_split_loop_ok (Z.to_nat limit) (S (length inp)) inp [])
    as (chunks & rest & R & Hc & Hf & Hr); [lia..|].
  rewrite Z2Nat.id in R by lia. rewrite R. simpl.
  assert (Hfull : Forall (fun ch => ch <> [] /\ Z.of_nat (length ch) <= limit) chunks).
  { eapply Forall_impl; [exact Hf|]. intros ch Hch. simpl in Hch. split; [|lia].
    intros ->. simpl in Hch. lia. }
  assert (Heq : Forall (fun ch => Z.of_nat (length ch) = limit) chunks).
  { eapply Forall_impl; [exact Hf|]. intros ch Hch. simpl in Hch. lia. }
  case_bool_decide as Hrest.
  - exists (chunks ++ [rest]). split; [done|].
    split; [by rewrite concat_app; simpl; rewrite app_nil_r|]. split.
    + apply Forall_app. split; [done|]. constructor; [|constructor].
      split; [by intros ->; simpl in Hrest; lia|lia].
    + rewrite length_app. simpl.
      replace (length chunks + 1 - 1)%nat with (length chunks) by lia.
      by rewrite take_app_length.
  - exists chunks. split; [done|].
    assert (rest = []) as -> by (destruct rest; [done|simpl in Hrest; lia]).
    rewrite app_nil_r in Hc. split; [done|]. split; [done|].
    by apply Forall_take.
Qed.

Lemma SplitStringSliceByLimit_chunks_witness :
  exists chunks,
    common.SplitStringSliceByLimit ["a"; "b"; "c"; "d"; "e"] 2 = Ret chunks
    /\ concat chunks = ["a"; "b"; "c"; "d"; "e"]
    /\ Forall (fun ch => ch <> [] /\ Z.of_nat (length ch) <= 2) chunks
    /\ Forall (fun ch => Z.of_nat (length ch) = 2)
         (take (length chunks - 1) chunks).
Proof. apply (SplitStringSliceByLimit_chunks ["a"; "b"; "c"; "d"; "e"] 2). lia. Defined.

(** X15 (common, SplitStringSliceByLimit).  The function does not
    return for a limit of 0, where the division for the capacity panics,
    nor for a limit above the largest [int], where the capacity or the
    first slicing is out of range. *)
Theorem SplitStringSliceByLimit_panics inp limit :
  limit = 0 \/ 2 ^ 63 <= limit < 2 ^ 64 ->
  exists reason, common.SplitStringSliceByLimit inp limit = Panic reason.
Proof.
  intros [->|[Hlo Hhi]]; [by eexists|].
  unfold common.SplitStringSliceByLimit, common.int_of_uint.
  assert (Hlt : (limit <? 2 ^ 63) = false) by (apply Z.ltb_ge; lia).
  rewrite Hlt. assert (Hz : (limit - 2 ^ 64 =? 0) = false) by (apply Z.eqb_neq; lia).
  rewrite Hz. destruct (_ <? 0); [by eexists|].
  simpl. assert (Hl : (Z.of_nat (length inp) <? limit - 2 ^ 64) = false)
    by (apply Z.ltb_ge; lia).
  change (2 ^ 64) with 18446744073709551616 in *.
  rewrite Hl. assert (Hb : (2 ^ 63 <=? limit) = true) by (apply Z.leb_le; lia).
  rewrite Hb. by eexists.
Qed.

Lemma SplitStringSliceByLimit_panics_witness :
  exists reason, common.SplitStringSliceByLimit ["a"; "b"] 0 = Panic reason.
Proof. apply (SplitStringSliceByLimit_panics ["a"; "b"] 0). by left. Defined.
